(** * Recurring-task and reminder engine of the Todo application

    A shallow embedding of the services that materialise occurrences of
    recurring todos, schedule and fire reminders, fan notifications out to
    Web Push and send the daily digest, together with the properties the
    specification states about them.

    Conventions of the embedding.
    - A database table is the list of its rows, in insertion order.
      [select(...).where(...)] is [filter], [.first()] is [head],
      [.order_by(...)] is [merge_sort].
    - A service method is a computation in the monad [M]: it threads the
      committed state of the database session and either returns a value
      or raises a Python exception.
    - The clock ([datetime.now], [date.today]) and the generated row ids
      ([nanoid.generate]) are arguments of the operations that read them.
    - The libraries the services call ([dateutil.rrule.rrulestr],
      [zoneinfo.ZoneInfo], [pywebpush.webpush]) are parameters. *)

From Stdlib Require Import ZArith Lia.
From stdpp Require Import base decidable option list sorting strings pretty gmap.

(** ** Dates and instants *)

(** A [date] is a number of days since 1970-01-01, a [datetime] a number of
    microseconds since 1970-01-01T00:00:00 (UTC for aware values). *)
Abbreviation ident := string (only parsing).
Abbreviation date := Z (only parsing).
Abbreviation datetime := Z (only parsing).

Module Datetime.
Local Open Scope Z_scope.

Definition usec_per_minute : Z := 60000000.
Definition usec_per_hour : Z := 3600000000.
Definition usec_per_day : Z := 86400000000.

(** [datetime.combine(d, datetime.min.time())] *)
Definition combine_min (d : date) : datetime := d * usec_per_day.

(** [dt.date()] *)
Definition date_of (t : datetime) : date := t / usec_per_day.

(** [timedelta(minutes=m)] and [timedelta(days=n)] added to a datetime. *)
Definition timedelta_minutes (m : Z) : Z := m * usec_per_minute.

(** [dt.hour], [dt.minute], [dt.second] *)
Definition hour_of (t : datetime) : Z := (t mod usec_per_day) / usec_per_hour.
Definition minute_of (t : datetime) : Z := (t mod usec_per_hour) / usec_per_minute.
Definition second_of (t : datetime) : Z := (t mod usec_per_minute) / 1000000.

(** Calendar fields of a day number (proleptic Gregorian calendar). *)
Definition civil (d : date) : Z * Z * Z :=
  let z := d + 719468 in
  let era := z / 146097 in
  let doe := z - era * 146097 in
  let yoe := (doe - doe / 1460 + doe / 36524 - doe / 146096) / 365 in
  let doy := doe - (365 * yoe + yoe / 4 - yoe / 100) in
  let mp := (5 * doy + 2) / 153 in
  let day := doy - (153 * mp + 2) / 5 + 1 in
  let month := if mp <? 10 then mp + 3 else mp - 9 in
  let year := yoe + era * 400 + (if month <=? 2 then 1 else 0) in
  (year, month, day).

Definition month_abbr (m : Z) : string :=
  match m with
  | 1 => "Jan" | 2 => "Feb" | 3 => "Mar" | 4 => "Apr" | 5 => "May"
  | 6 => "Jun" | 7 => "Jul" | 8 => "Aug" | 9 => "Sep" | 10 => "Oct"
  | 11 => "Nov" | _ => "Dec"
  end.

Definition pad2 (n : Z) : string :=
  if n <? 10 then "0" +:+ pretty n else pretty n.

Definition pad4 (n : Z) : string :=
  if n <? 10 then "000" +:+ pretty n
  else if n <? 100 then "00" +:+ pretty n
  else if n <? 1000 then "0" +:+ pretty n
  else pretty n.

(** [d.strftime('%b %d, %Y')] *)
Definition strftime_b_d_Y (d : date) : string :=
  let '(y, m, dd) := civil d in
  month_abbr m +:+ " " +:+ pad2 dd +:+ ", " +:+ pad4 y.

(** [dt.strftime('%Y%m%dT%H%M%S')] *)
Definition strftime_compact (t : datetime) : string :=
  let '(y, m, dd) := civil (date_of t) in
  pad4 y +:+ pad2 m +:+ pad2 dd +:+ "T"
    +:+ pad2 (hour_of t) +:+ pad2 (minute_of t) +:+ pad2 (second_of t).

End Datetime.

(** ** Enumerations ([app/models/enums.py], [app/models/priority.py]) *)

Module OccurrenceStatus.
Inductive t := PENDING | COMPLETED | SKIPPED.
#[global] Instance OccurrenceStatus_eq_dec : EqDecision t.
Proof. solve_decision. Defined.
End OccurrenceStatus.

Module ReminderStatus.
Inductive t := PENDING | SENT | SNOOZED | CANCELLED.
#[global] Instance ReminderStatus_eq_dec : EqDecision t.
Proof. solve_decision. Defined.
End ReminderStatus.

Module NotificationType.
Inductive t := REMINDER | DAILY_DIGEST | RECURRING_DUE.
#[global] Instance NotificationType_eq_dec : EqDecision t.
Proof. solve_decision. Defined.
End NotificationType.

Module Priority.
Inductive t := HIGH | MEDIUM | LOW.
#[global] Instance Priority_eq_dec : EqDecision t.
Proof. solve_decision. Defined.
End Priority.

(** ** Tables ([app/models/*.py]) *)

Module Todo.
Record t := mk {
    id : ident;
    title : string;
    description : option string;
    completed : bool;
    user_id : ident;
    created_at : datetime;
    updated_at : datetime;
    due_date : option date;
    priority : option Priority.t;
    is_recurring : bool;
    rrule : option string;
    recurrence_end_date : option date;
    recurrence_count : option Z;
    occurrences_generated : Z }.
End Todo.

Module TodoTag.
Record t := mk { todo_id : ident; tag_id : ident }.
End TodoTag.

Module Tag.
Record t := mk { id : ident; name : string; user_id : ident }.
End Tag.

Module TodoOccurrence.
Record t := mk {
    id : ident;
    parent_todo_id : ident;
    user_id : ident;
    occurrence_date : date;
    status : OccurrenceStatus.t;
    completed_at : option datetime;
    created_at : datetime;
    updated_at : datetime }.
End TodoOccurrence.

Module Reminder.
Record t := mk {
    id : ident;
    todo_id : ident;
    occurrence_id : option ident;
    user_id : ident;
    fire_at : datetime;
    offset_minutes : option Z;
    status : ReminderStatus.t;
    sent_at : option datetime;
    snoozed_until : option datetime;
    created_at : datetime }.
End Reminder.

Module Notification.
Record t := mk {
    id : ident;
    user_id : ident;
    type : NotificationType.t;
    title : string;
    body : option string;
    todo_id : option ident;
    reminder_id : option ident;
    read : bool;
    created_at : datetime }.
End Notification.

Module PushSubscription.
Record t := mk {
    id : ident;
    user_id : ident;
    endpoint : string;
    p256dh_key : string;
    auth_key : string;
    user_agent : option string;
    created_at : datetime;
    last_used_at : option datetime }.
End PushSubscription.

Module UserPreferences.
Record t := mk {
    id : ident;
    user_id : ident;
    timezone : string;
    default_reminder_offset : option Z;
    push_enabled : bool;
    daily_digest_enabled : bool;
    (** [daily_digest_time], a time of day, as microseconds after midnight *)
    daily_digest_time : option Z }.
End UserPreferences.

(** ** The database session *)

Record Session := mkSession {
  todos : list Todo.t;
  todo_tags : list TodoTag.t;
  tags : list Tag.t;
  occurrences : list TodoOccurrence.t;
  reminders : list Reminder.t;
  notifications : list Notification.t;
  push_subscriptions : list PushSubscription.t;
  user_preferences : list UserPreferences.t }.

Definition set_todos (f : list Todo.t → list Todo.t) (s : Session) : Session :=
  mkSession (f (todos s)) (todo_tags s) (tags s) (occurrences s) (reminders s)
            (notifications s) (push_subscriptions s) (user_preferences s).
Definition set_todo_tags (f : list TodoTag.t → list TodoTag.t) (s : Session) : Session :=
  mkSession (todos s) (f (todo_tags s)) (tags s) (occurrences s) (reminders s)
            (notifications s) (push_subscriptions s) (user_preferences s).
Definition set_occurrences (f : list TodoOccurrence.t → list TodoOccurrence.t)
    (s : Session) : Session :=
  mkSession (todos s) (todo_tags s) (tags s) (f (occurrences s)) (reminders s)
            (notifications s) (push_subscriptions s) (user_preferences s).
Definition set_reminders (f : list Reminder.t → list Reminder.t) (s : Session) : Session :=
  mkSession (todos s) (todo_tags s) (tags s) (occurrences s) (f (reminders s))
            (notifications s) (push_subscriptions s) (user_preferences s).
Definition set_notifications (f : list Notification.t → list Notification.t)
    (s : Session) : Session :=
  mkSession (todos s) (todo_tags s) (tags s) (occurrences s) (reminders s)
            (f (notifications s)) (push_subscriptions s) (user_preferences s).
Definition set_push_subscriptions (f : list PushSubscription.t → list PushSubscription.t)
    (s : Session) : Session :=
  mkSession (todos s) (todo_tags s) (tags s) (occurrences s) (reminders s)
            (notifications s) (f (push_subscriptions s)) (user_preferences s).

(** [session.add(row)] for a row that was loaded from the table and then
    mutated: an UPDATE by primary key (an INSERT when no row has the key). *)
Definition upsert {A} (key : A → ident) (x : A) (l : list A) : list A :=
  if bool_decide (key x ∈ key <$> l)
  then (λ y, if bool_decide (key y = key x) then x else y) <$> l
  else l ++ [x].

(** [session.delete(row)] *)
Definition delete_row {A} (key : A → ident) (x : A) (l : list A) : list A :=
  filter (λ y, key y ≠ key x) l.

(** ** Exceptions and the service monad *)

(** The HTTP response a push service returns ([requests.Response]). *)
Record Response := mkResponse { status_code : Z }.

Inductive exn :=
  | ValueError (msg : string)
  | IntegrityError (constraint : string)
  | WebPushException (response : option Response)
  | Exception (msg : string).

Inductive Result (A : Type) :=
  | Ok (a : A)
  | Raise (e : exn).
Arguments Ok {A} a.
Arguments Raise {A} e.

Definition M (A : Type) : Type := Session → Result A * Session.

Definition ret {A} (a : A) : M A := λ s, (Ok a, s).
Definition raise {A} (e : exn) : M A := λ s, (Raise e, s).
Definition bind {A B} (m : M A) (k : A → M B) : M B :=
  λ s, match m s with
       | (Ok a, s') => k a s'
       | (Raise e, s') => (Raise e, s')
       end.
Definition get_session : M Session := λ s, (Ok s, s).
Definition modify (f : Session → Session) : M unit := λ s, (Ok tt, f s).
(** [try: m except Exception as e: h e] *)
Definition try_except {A} (m : M A) (h : exn → M A) : M A :=
  λ s, match m s with
       | (Raise e, s') => h e s'
       | r => r
       end.

Notation "x ←' m ; k" := (bind m (λ x, k))
  (at level 20, m at level 100, k at level 200, right associativity,
   format "x  ←'  m ;  '/' k").
Notation "m ;;' k" := (bind m (λ _, k))
  (at level 100, k at level 200, right associativity).

(** ** Library interfaces *)

(** What [pywebpush.webpush] is called with. *)
Record SubscriptionInfo := mkSubscriptionInfo {
  info_endpoint : string;
  info_p256dh : string;
  info_auth : string }.

(** The JSON payload [{title, body, url?, tag?}]. *)
Record Payload := mkPayload {
  payload_title : string;
  payload_body : string;
  payload_url : option string;
  payload_tag : option string }.

(** Truth value of an [Optional[str]]: [None] and the empty string are false. *)
Definition truthy (o : option string) : bool :=
  match o with
  | Some s => negb (String.eqb s "")
  | None => false
  end.

(** Truth value of a [requests.Response], the object [pywebpush] attaches to
    the [WebPushException] it raises: [Response.__bool__] returns [self.ok],
    which is false exactly when [raise_for_status] would raise, that is for a
    status code from 400 to 599. *)
Definition requests_Response_bool (r : Response) : bool :=
  negb (bool_decide (400 ≤ status_code r < 600)%Z).

(** ** Services *)

Section Services.

(** [webpush(subscription_info, data, vapid_private_key, vapid_claims)]:
    [None] when the call returns, [Some e] when it raises [e]. *)
Variable webpush :
  SubscriptionInfo → Payload → option string → option string → option exn.

(** Truth value of a response object, as Python's [and] tests it. *)
Variable Response_bool : Response → bool.

(** [rrulestr(text, dtstart=...)] followed by the iteration of the rule it
    returns: the datetimes of the rule in the order the iterator yields
    them (dateutil stops at year 9999, so the iteration is finite), or the
    exception the parser raises. *)
Variable rrulestr : string → option datetime → Result (list datetime).

(** [ZoneInfo(key)]: the UTC offset (in microseconds) the zone has at a
    given UTC instant, or [None] when the key names no zone (the
    constructor raises). *)
Variable ZoneInfo : string → option (datetime → Z).

(** *** [app/services/notification.py] *)


(** *** [app/services/push.py] *)

Record PushService := mkPushService {
  vapid_public_key : option string;
  vapid_private_key : option string;
  vapid_claims_email : option string }.

Definition is_configured (self : PushService) : bool :=
  truthy (vapid_public_key self) && truthy (vapid_private_key self)
    && truthy (vapid_claims_email self).

Definition get_user_subscriptions (user_id : ident) : M (list PushSubscription.t) :=
  session ←' get_session;
  ret (filter (λ p, PushSubscription.user_id p = user_id) (push_subscriptions session)).

Definition set_last_used_at (v : option datetime) (p : PushSubscription.t)
    : PushSubscription.t :=
  PushSubscription.mk (PushSubscription.id p) (PushSubscription.user_id p)
    (PushSubscription.endpoint p) (PushSubscription.p256dh_key p)
    (PushSubscription.auth_key p) (PushSubscription.user_agent p)
    (PushSubscription.created_at p) v.

(** [e.response and e.response.status_code == 410] *)
Definition response_is_410 (response : option Response) : bool :=
  match response with
  | Some r => Response_bool r && bool_decide (status_code r = 410%Z)
  | None => false
  end.

Definition send_push_notification (self : PushService) (now : datetime)
    (subscription : PushSubscription.t) (title body : string)
    (url tag : option string) : M bool :=
  if negb (is_configured self) then ret false
  else
    let payload :=
      mkPayload title body (if truthy url then url else None)
                (if truthy tag then tag else None) in
    let subscription_info :=
      mkSubscriptionInfo (PushSubscription.endpoint subscription)
        (PushSubscription.p256dh_key subscription)
        (PushSubscription.auth_key subscription) in
    try_except
      (match webpush subscription_info payload (vapid_private_key self)
                     (vapid_claims_email self) with
       | Some e => raise e
       | None =>
           modify (set_push_subscriptions
                     (upsert PushSubscription.id (set_last_used_at (Some now) subscription)));;'
           ret true
       end)
      (λ e, match e with
            | WebPushException response =>
                (if response_is_410 response
                 then modify (set_push_subscriptions
                                (delete_row PushSubscription.id subscription))
                 else ret tt);;'
                ret false
            | _ => ret false
            end).

Fixpoint send_to_subscriptions (self : PushService) (now : datetime)
    (subscriptions : list PushSubscription.t) (title body : string)
    (url tag : option string) (success_count : nat) : M nat :=
  match subscriptions with
  | [] => ret success_count
  | subscription :: rest =>
      sent ←' send_push_notification self now subscription title body url tag;
      send_to_subscriptions self now rest title body url tag
        (if sent : bool then S success_count else success_count)
  end.

Definition send_to_user (self : PushService) (now : datetime) (user_id : ident)
    (title body : string) (url tag : option string) : M nat :=
  subscriptions ←' get_user_subscriptions user_id;
  send_to_subscriptions self now subscriptions title body url tag 0.

(** *** [app/services/reminder.py] *)

Definition MAX_REMINDERS_PER_TODO : nat := 5.

(** [Reminder.status.in_([PENDING, SNOOZED])] *)
Definition active (st : ReminderStatus.t) : Prop :=
  st ∈ [ReminderStatus.PENDING; ReminderStatus.SNOOZED].

Definition session_get_todo (session : Session) (todo_id : ident) : option Todo.t :=
  head (filter (λ t, Todo.id t = todo_id) (todos session)).


Definition reminder_set_status (st : ReminderStatus.t) (r : Reminder.t) : Reminder.t :=
  Reminder.mk (Reminder.id r) (Reminder.todo_id r) (Reminder.occurrence_id r)
    (Reminder.user_id r) (Reminder.fire_at r) (Reminder.offset_minutes r) st
    (Reminder.sent_at r) (Reminder.snoozed_until r) (Reminder.created_at r).


Definition reminder_set_snoozed_until (v : option datetime) (r : Reminder.t) : Reminder.t :=
  Reminder.mk (Reminder.id r) (Reminder.todo_id r) (Reminder.occurrence_id r)
    (Reminder.user_id r) (Reminder.fire_at r) (Reminder.offset_minutes r)
    (Reminder.status r) (Reminder.sent_at r) v (Reminder.created_at r).

Definition reminder_set_fire_at (v : datetime) (r : Reminder.t) : Reminder.t :=
  Reminder.mk (Reminder.id r) (Reminder.todo_id r) (Reminder.occurrence_id r)
    (Reminder.user_id r) v (Reminder.offset_minutes r)
    (Reminder.status r) (Reminder.sent_at r) (Reminder.snoozed_until r)
    (Reminder.created_at r).

Definition create_reminder (new_id : ident) (now : datetime)
    (user_id todo_id : ident) (fire_at : option datetime)
    (offset_minutes : option Z) (occurrence_id : option ident) : M Reminder.t :=
  session ←' get_session;
  let existing_count :=
    length (filter (λ r, Reminder.todo_id r = todo_id ∧ active (Reminder.status r))
                   (reminders session)) in
  if bool_decide (MAX_REMINDERS_PER_TODO ≤ existing_count)
  then raise (ValueError "Maximum 5 reminders per todo")
  else
    match session_get_todo session todo_id with
    | None => raise (ValueError "Todo not found")
    | Some todo =>
        if bool_decide (Todo.user_id todo ≠ user_id)
        then raise (ValueError "Todo does not belong to user")
        else
          calculated_fire_at ←'
            match offset_minutes with
            | Some offset =>
                match Todo.due_date todo with
                | None =>
                    raise (ValueError
                      "Cannot use offset_minutes without a due_date on the todo")
                | Some due_date =>
                    let due_datetime := Datetime.combine_min due_date in
                    ret (Some (due_datetime + Datetime.timedelta_minutes offset)%Z)
                end
            | None => ret fire_at
            end;
          match calculated_fire_at with
          | None => raise (ValueError "Either fire_at or offset_minutes must be provided")
          | Some calculated =>
              let reminder :=
                Reminder.mk new_id todo_id occurrence_id user_id calculated
                            offset_minutes ReminderStatus.PENDING None None now in
              modify (set_reminders (λ l, l ++ [reminder]));;'
              ret reminder
          end
    end.

Definition snooze_reminder (now : datetime) (user_id reminder_id : ident)
    (snooze_minutes : Z) : M (option Reminder.t) :=
  session ←' get_session;
  match head (filter (λ r, Reminder.id r = reminder_id ∧ Reminder.user_id r = user_id)
                     (reminders session)) with
  | None => ret None
  | Some reminder =>
      let snoozed_until := (now + Datetime.timedelta_minutes snooze_minutes)%Z in
      let reminder := reminder_set_status ReminderStatus.SNOOZED reminder in
      let reminder := reminder_set_snoozed_until (Some snoozed_until) reminder in
      let reminder := reminder_set_fire_at snoozed_until reminder in
      modify (set_reminders (upsert Reminder.id reminder));;'
      ret (Some reminder)
  end.

Definition fire_at_le (a b : Reminder.t) : Prop :=
  (Reminder.fire_at a ≤ Reminder.fire_at b)%Z.

#[global] Instance fire_at_le_dec : RelDecision fire_at_le.
Proof. intros a b. unfold fire_at_le. apply _. Defined.

Definition get_pending_reminders (before : datetime) : M (list Reminder.t) :=
  session ←' get_session;
  ret (merge_sort fire_at_le
         (filter (λ r, (Reminder.fire_at r ≤ before)%Z ∧ active (Reminder.status r))
                 (reminders session))).




(** *** [app/services/recurrence.py] *)

Definition newline : string := String (Ascii.ascii_of_nat 10) EmptyString.

(** The two calls to [rrulestr] of [generate_occurrences]: the text with a
    [DTSTART] line first and, when that raises, the rule alone with the
    [dtstart] argument. *)
Definition parse_rule (rrule_str : string) (dtstart : datetime)
    : Result (list datetime) :=
  let full_rrule :=
    "DTSTART:" +:+ Datetime.strftime_compact dtstart +:+ newline
      +:+ "RRULE:" +:+ rrule_str in
  match rrulestr full_rrule None with
  | Ok rule => Ok rule
  | Raise _ => rrulestr rrule_str (Some dtstart)
  end.

(** The loop [for dt in rule: ...] of [generate_occurrences]. *)
Fixpoint collect_occurrences (rule : list datetime) (window_start window_end : date)
    (max_occurrences : Z) (occurrences : list date) : list date :=
  match rule with
  | [] => occurrences
  | dt :: rest =>
      if bool_decide (window_end < Datetime.date_of dt)%Z then occurrences
      else
        let occurrences :=
          if bool_decide (window_start ≤ Datetime.date_of dt)%Z
          then occurrences ++ [Datetime.date_of dt]
          else occurrences in
        if bool_decide (max_occurrences ≤ Z.of_nat (length occurrences))%Z then occurrences
        else collect_occurrences rest window_start window_end max_occurrences
                                 occurrences
  end.

Definition generate_occurrences (rrule_str : string) (start_date : date)
    (window_start window_end : option date) (max_occurrences : option Z)
    : Result (list date) :=
  let max_occurrences := default 30%Z max_occurrences in
  let window_start := default start_date window_start in
  let window_end := default (window_start + 30)%Z window_end in
  let dtstart := Datetime.combine_min start_date in
  match parse_rule rrule_str dtstart with
  | Raise e => Raise e
  | Ok rule =>
      Ok (collect_occurrences rule window_start window_end max_occurrences [])
  end.

Definition get_next_occurrence (today : date) (rrule_str : string)
    (start_date : date) (after_date : option date) : Result (option date) :=
  let after_date := default today after_date in
  match generate_occurrences rrule_str start_date (Some after_date)
          (Some (after_date + 365)%Z) (Some 1%Z) with
  | Raise e => Raise e
  | Ok occurrences => Ok (head occurrences)
  end.

(** *** [app/services/todo.py] *)

(** The fields of a [TodoUpdate] the service reads. *)
Record TodoUpdate := mkTodoUpdate {
  update_title : option string;
  update_description : option string;
  update_completed : option bool;
  update_due_date : option date;
  update_priority : option Priority.t;
  update_tag_ids : option (list ident) }.

Definition get_todo_by_id (session : Session) (user_id todo_id : ident)
    : option Todo.t :=
  head (filter (λ t, Todo.id t = todo_id ∧ Todo.user_id t = user_id) (todos session)).

(** [todo.todo_tags], the rows of the relationship. *)
Definition todo_tags_of (session : Session) (todo_id : ident) : list TodoTag.t :=
  filter (λ tt, TodoTag.todo_id tt = todo_id) (todo_tags session).

Fixpoint assign_each (user_id todo_id : ident) (tag_ids : list ident) : M unit :=
  match tag_ids with
  | [] => ret tt
  | tag_id :: rest =>
      session ←' get_session;
      match head (filter (λ t, Tag.id t = tag_id ∧ Tag.user_id t = user_id)
                         (tags session)) with
      | Some _ =>
          modify (set_todo_tags (λ l, l ++ [TodoTag.mk todo_id tag_id]));;'
          assign_each user_id todo_id rest
      | None => assign_each user_id todo_id rest
      end
  end.

Definition _assign_tags (user_id todo_id : ident) (tag_ids : list ident) : M unit :=
  assign_each user_id todo_id tag_ids.

(** The constraint [UniqueConstraint("parent_todo_id", "occurrence_date",
    name="uq_occurrence_date")] of the occurrence table. *)
Definition occurrence_key (o : TodoOccurrence.t) : ident * date :=
  (TodoOccurrence.parent_todo_id o, TodoOccurrence.occurrence_date o).

Definition uq_occurrence_date (l : list TodoOccurrence.t) : Prop :=
  NoDup (occurrence_key <$> l).

Definition todo_add_generated (created : Z) (t : Todo.t) : Todo.t :=
  Todo.mk (Todo.id t) (Todo.title t) (Todo.description t) (Todo.completed t)
    (Todo.user_id t) (Todo.created_at t) (Todo.updated_at t) (Todo.due_date t)
    (Todo.priority t) (Todo.is_recurring t) (Todo.rrule t)
    (Todo.recurrence_end_date t) (Todo.recurrence_count t)
    (Todo.occurrences_generated t + created)%Z.

(** [ids k] is the id generated for the [k]-th occurrence created. The commit
    raises when the inserted rows break [uq_occurrence_date], and then nothing
    is stored. *)
Definition _generate_occurrences (ids : nat → ident) (now : datetime)
    (user_id todo_id : ident) (rrule : string) (start_date : date)
    (max_occurrences : option Z) : M nat :=
  session ←' get_session;
  let existing :=
    TodoOccurrence.occurrence_date
      <$> filter (λ o, TodoOccurrence.parent_todo_id o = todo_id) (occurrences session) in
  let existing_dates : gset Z := list_to_set existing in
  match generate_occurrences rrule start_date (Some start_date) None
          (Some (default 30%Z max_occurrences)) with
  | Raise e => raise e
  | Ok occurrence_dates =>
      let added :=
        imap (λ k occ_date,
                TodoOccurrence.mk (ids k) todo_id user_id occ_date
                  OccurrenceStatus.PENDING None now now)
             (filter (λ occ_date, occ_date ∉ existing_dates) occurrence_dates) in
      let created := length added in
      if bool_decide (0 < created) then
        if bool_decide (uq_occurrence_date (occurrences session ++ added)) then
          modify (set_occurrences (λ l, l ++ added));;'
          match session_get_todo session todo_id with
          | Some todo =>
              modify (set_todos (upsert Todo.id (todo_add_generated (Z.of_nat created) todo)))
          | None => ret tt
          end;;'
          ret created
        else raise (IntegrityError "uq_occurrence_date")
      else ret created
  end.

Definition occurrence_update_status (now : datetime) (new_status : OccurrenceStatus.t)
    (o : TodoOccurrence.t) : TodoOccurrence.t :=
  TodoOccurrence.mk (TodoOccurrence.id o) (TodoOccurrence.parent_todo_id o)
    (TodoOccurrence.user_id o) (TodoOccurrence.occurrence_date o) new_status
    (match new_status with
     | OccurrenceStatus.COMPLETED => Some now
     | OccurrenceStatus.PENDING => None
     | OccurrenceStatus.SKIPPED => TodoOccurrence.completed_at o
     end)
    (TodoOccurrence.created_at o) now.

Definition update_occurrence_status (now : datetime) (user_id occurrence_id : ident)
    (new_status : OccurrenceStatus.t) : M (option TodoOccurrence.t) :=
  session ←' get_session;
  match head (filter (λ o, TodoOccurrence.id o = occurrence_id
                           ∧ TodoOccurrence.user_id o = user_id)
                     (occurrences session)) with
  | None => ret None
  | Some occurrence =>
      let occurrence := occurrence_update_status now new_status occurrence in
      modify (set_occurrences (upsert TodoOccurrence.id occurrence));;'
      ret (Some occurrence)
  end.

Definition occurrence_date_le (a b : TodoOccurrence.t) : Prop :=
  (TodoOccurrence.occurrence_date a ≤ TodoOccurrence.occurrence_date b)%Z.

#[global] Instance occurrence_date_le_dec : RelDecision occurrence_date_le.
Proof. intros a b. unfold occurrence_date_le. apply _. Defined.

Definition _ensure_future_occurrences (ids : nat → ident) (now : datetime)
    (today : date) (user_id todo_id : ident) (min_future : option nat) : M nat :=
  let min_future := default 5 min_future in
  session ←' get_session;
  match get_todo_by_id session user_id todo_id with
  | None => ret 0
  | Some todo =>
      if negb (Todo.is_recurring todo) || negb (truthy (Todo.rrule todo)) then ret 0
      else
        let pending_count :=
          filter (λ o, TodoOccurrence.parent_todo_id o = todo_id
                       ∧ TodoOccurrence.user_id o = user_id
                       ∧ TodoOccurrence.status o = OccurrenceStatus.PENDING
                       ∧ (today ≤ TodoOccurrence.occurrence_date o)%Z)
                 (occurrences session) in
        if bool_decide (min_future ≤ length pending_count) then ret 0
        else
          let latest :=
            head (merge_sort Z.ge
                    (TodoOccurrence.occurrence_date
                       <$> filter (λ o, TodoOccurrence.parent_todo_id o = todo_id)
                                  (occurrences session))) in
          let start_from :=
            match latest with
            | Some d => Some d
            | None => Todo.due_date todo
            end in
          match start_from with
          | None => ret 0
          | Some start_from =>
              let next_start := (start_from + 1)%Z in
              _generate_occurrences ids now user_id todo_id
                (default EmptyString (Todo.rrule todo)) next_start
                (Some (Z.of_nat (min_future * 2)))
          end
  end.

Definition complete_occurrence (ids : nat → ident) (now : datetime) (today : date)
    (user_id occurrence_id : ident) : M (option TodoOccurrence.t) :=
  occurrence ←' update_occurrence_status now user_id occurrence_id
                  OccurrenceStatus.COMPLETED;
  match occurrence with
  | None => ret None
  | Some occurrence =>
      _ensure_future_occurrences ids now today user_id
        (TodoOccurrence.parent_todo_id occurrence) None;;'
      ret (Some occurrence)
  end.

Definition skip_occurrence (ids : nat → ident) (now : datetime) (today : date)
    (user_id occurrence_id : ident) : M (option TodoOccurrence.t) :=
  occurrence ←' update_occurrence_status now user_id occurrence_id
                  OccurrenceStatus.SKIPPED;
  match occurrence with
  | None => ret None
  | Some occurrence =>
      _ensure_future_occurrences ids now today user_id
        (TodoOccurrence.parent_todo_id occurrence) None;;'
      ret (Some occurrence)
  end.

Definition get_current_occurrence (session : Session) (today : date)
    (user_id todo_id : ident) : option TodoOccurrence.t :=
  let today_occurrence :=
    head (filter (λ o, TodoOccurrence.parent_todo_id o = todo_id
                       ∧ TodoOccurrence.user_id o = user_id
                       ∧ TodoOccurrence.occurrence_date o = today)
                 (occurrences session)) in
  match today_occurrence with
  | Some o => Some o
  | None =>
      head (merge_sort occurrence_date_le
              (filter (λ o, TodoOccurrence.parent_todo_id o = todo_id
                            ∧ TodoOccurrence.user_id o = user_id
                            ∧ TodoOccurrence.status o = OccurrenceStatus.PENDING
                            ∧ (today < TodoOccurrence.occurrence_date o)%Z)
                      (occurrences session)))
  end.

Definition occurrence_skip (now : datetime) (o : TodoOccurrence.t) : TodoOccurrence.t :=
  TodoOccurrence.mk (TodoOccurrence.id o) (TodoOccurrence.parent_todo_id o)
    (TodoOccurrence.user_id o) (TodoOccurrence.occurrence_date o)
    OccurrenceStatus.SKIPPED (TodoOccurrence.completed_at o)
    (TodoOccurrence.created_at o) now.

(** [new_id] is the id generated for the new todo, [ids] those of the
    occurrences the top-up creates. *)
Definition _update_this_only (new_id : ident) (ids : nat → ident) (now : datetime)
    (today : date) (user_id : ident) (todo : Todo.t) (data : TodoUpdate)
    : M Todo.t :=
  session ←' get_session;
  let current_occ := get_current_occurrence session today user_id (Todo.id todo) in
  let new_title := default (Todo.title todo) (update_title data) in
  let new_description :=
    match update_description data with
    | Some d => Some d
    | None => Todo.description todo
    end in
  let new_priority :=
    match update_priority data with
    | Some p => Some p
    | None => Todo.priority todo
    end in
  let new_due_date :=
    match current_occ with
    | Some occ => Some (TodoOccurrence.occurrence_date occ)
    | None => Todo.due_date todo
    end in
  let new_due_date :=
    match update_due_date data with
    | Some d => Some d
    | None => new_due_date
    end in
  let new_todo :=
    Todo.mk new_id new_title new_description
      (default false (update_completed data)) user_id now now new_due_date
      new_priority false None None None 0 in
  modify (set_todos (λ l, l ++ [new_todo]));;'
  match update_tag_ids data with
  | Some tag_ids => _assign_tags user_id (Todo.id new_todo) tag_ids
  | None =>
      let existing_tags := TodoTag.tag_id <$> todo_tags_of session (Todo.id todo) in
      match existing_tags with
      | [] => ret tt
      | _ => _assign_tags user_id (Todo.id new_todo) existing_tags
      end
  end;;'
  match current_occ with
  | Some occ =>
      modify (set_occurrences (upsert TodoOccurrence.id (occurrence_skip now occ)));;'
      _ensure_future_occurrences ids now today user_id (Todo.id todo) None;;'
      ret tt
  | None => ret tt
  end;;'
  ret new_todo.

Definition todo_stop (now : datetime) (today : date) (t : Todo.t) : Todo.t :=
  Todo.mk (Todo.id t) (Todo.title t) (Todo.description t) (Todo.completed t)
    (Todo.user_id t) (Todo.created_at t) now (Todo.due_date t)
    (Todo.priority t) false None (Some today) (Todo.recurrence_count t)
    (Todo.occurrences_generated t).

Definition stop_recurring (now : datetime) (today : date) (user_id todo_id : ident)
    (keep_pending : bool) : M (option Todo.t) :=
  session ←' get_session;
  match get_todo_by_id session user_id todo_id with
  | None => ret None
  | Some todo =>
      if negb (Todo.is_recurring todo) then ret (Some todo)
      else
        let todo := todo_stop now today todo in
        modify (set_todos (upsert Todo.id todo));;'
        (if negb keep_pending then
           let pending_occurrences :=
             filter (λ o, TodoOccurrence.parent_todo_id o = todo_id
                          ∧ TodoOccurrence.user_id o = user_id
                          ∧ TodoOccurrence.status o = OccurrenceStatus.PENDING
                          ∧ (today < TodoOccurrence.occurrence_date o)%Z)
                    (occurrences session) in
           modify (set_occurrences
                     (λ l, foldl (λ l occ, delete_row TodoOccurrence.id occ l) l
                                 pending_occurrences))
         else ret tt);;'
        ret (Some todo)
  end.

(** *** [app/services/daily_digest.py] *)

Definition _is_digest_time (prefs : UserPreferences.t) (now_utc : datetime) : bool :=
  match UserPreferences.daily_digest_time prefs with
  | None => false
  | Some daily_digest_time =>
      match ZoneInfo (UserPreferences.timezone prefs) with
      | None => false
      | Some utcoffset =>
          let now_user := (now_utc + utcoffset now_utc)%Z in
          bool_decide (Datetime.hour_of now_user
                       = daily_digest_time / Datetime.usec_per_hour)%Z
      end
  end.

(** [today] is [date.today()], the date of the server's clock. *)
Definition _already_sent_today (session : Session) (today : date) (user_id : ident)
    : bool :=
  let today_start := Datetime.combine_min today in
  let existing :=
    head (filter (λ n, Notification.user_id n = user_id
                       ∧ Notification.type n = NotificationType.DAILY_DIGEST
                       ∧ (today_start ≤ Notification.created_at n)%Z)
                 (notifications session)) in
  match existing with
  | Some _ => true
  | None => false
  end.

Definition priority_indicator (p : option Priority.t) : string :=
  match p with
  | Some Priority.HIGH => " 🔴"
  | Some Priority.MEDIUM => " 🟡"
  | Some Priority.LOW => " 🟢"
  | None => EmptyString
  end.

Definition join_lines (parts : list string) : string :=
  match parts with
  | [] => EmptyString
  | x :: rest => foldl (λ acc y, acc +:+ newline +:+ y) x rest
  end.

Definition _send_digest (new_id : ident) (now : datetime) (today : date)
    (user_id : ident) (user_timezone : string) : M bool :=
  session ←' get_session;
  let regular_todos :=
    filter (λ t, Todo.user_id t = user_id ∧ Todo.due_date t = Some today
                 ∧ Todo.completed t = false) (todos session) in
  let occurrences :=
    filter (λ o, TodoOccurrence.user_id o = user_id
                 ∧ TodoOccurrence.occurrence_date o = today
                 ∧ TodoOccurrence.status o = OccurrenceStatus.PENDING)
           (occurrences session) in
  let recurring_todo_ids := TodoOccurrence.parent_todo_id <$> occurrences in
  let recurring_todos :=
    match recurring_todo_ids with
    | [] => []
    | _ => filter (λ t, Todo.id t ∈ recurring_todo_ids) (todos session)
    end in
  let total_count := (length regular_todos + length recurring_todos)%nat in
  let '(title, body) :=
    if bool_decide (total_count = 0%nat)
    then ("Daily Digest: No tasks due today",
          "You have no tasks due today. Enjoy your day!")
    else
      let title :=
        "Daily Digest: " +:+ pretty total_count +:+ " task"
          +:+ (if bool_decide (total_count ≠ 1%nat) then "s" else EmptyString)
          +:+ " due today" in
      let body_parts :=
        ((λ t, "• " +:+ Todo.title t +:+ priority_indicator (Todo.priority t))
           <$> take 5 regular_todos)
        ++ ((λ t, "• " +:+ Todo.title t +:+ " (recurring)")
              <$> take 5 recurring_todos) in
      let remaining := (Z.of_nat total_count - Z.of_nat (length body_parts))%Z in
      let body_parts :=
        if bool_decide (0 < remaining)%Z
        then body_parts ++ ["...and " +:+ pretty remaining +:+ " more"]
        else body_parts in
      (title, join_lines body_parts) in
  let notification :=
    Notification.mk new_id user_id NotificationType.DAILY_DIGEST title (Some body)
                    None None false now in
  modify (set_notifications (λ l, l ++ [notification]));;'
  ret true.

(** The loop of [process_daily_digests]; [ids k] is the id generated for the
    digest of the [k]-th user of the list. *)
Fixpoint digest_each (ids : nat → ident) (now_utc : datetime) (today : date)
    (prefs_list : list UserPreferences.t) (k sent_count : nat) : M nat :=
  match prefs_list with
  | [] => ret sent_count
  | prefs :: rest =>
      counted ←'
        try_except
          (if _is_digest_time prefs now_utc then
             session ←' get_session;
             if _already_sent_today session today (UserPreferences.user_id prefs)
             then ret sent_count
             else
               sent ←' _send_digest (ids k) now_utc today
                         (UserPreferences.user_id prefs)
                         (UserPreferences.timezone prefs);
               ret (if sent : bool then S sent_count else sent_count)
           else ret sent_count)
          (λ _, ret sent_count);
      digest_each ids now_utc today rest (S k) counted
  end.

Definition process_daily_digests (ids : nat → ident) (now_utc : datetime)
    (today : date) : M nat :=
  session ←' get_session;
  let prefs_list :=
    filter (λ p, UserPreferences.daily_digest_enabled p = true
                 ∧ UserPreferences.daily_digest_time p ≠ None)
           (user_preferences session) in
  digest_each ids now_utc today prefs_list 0 0.

End Services.

(** ** Sample data *)

Definition sample_push_service : PushService :=
  mkPushService (Some "BEl62iUYgUivxIkv69yViEuiBIa") (Some "q1dXpw3UpT5VOmu3")
                (Some "mailto:ops@example.com").

Definition sample_todo : Todo.t :=
  Todo.mk "todo-1" "Water the plants" None false "alice" 0 0 (Some 20513%Z)
          (Some Priority.HIGH) true (Some "FREQ=DAILY") None None 0.

Definition sample_sent_reminder : Reminder.t :=
  Reminder.mk "rem-1" "todo-1" None "alice" 1772355600000000 None
              ReminderStatus.SENT (Some 1772355617000000%Z) None 1772000000000000.

Definition sample_pending_reminder : Reminder.t :=
  Reminder.mk "rem-2" "todo-1" None "alice" 1772355600000000 None
              ReminderStatus.PENDING None None 1772000000000000.

Definition sample_completed_occurrence : TodoOccurrence.t :=
  TodoOccurrence.mk "occ-1" "todo-1" "alice" 20513 OccurrenceStatus.COMPLETED
                    (Some 1772355000000000%Z) 1772000000000000 1772355000000000.

Definition sample_subscription : PushSubscription.t :=
  PushSubscription.mk "sub-1" "alice" "https://push.example.com/send/abc"
                      "BNcRdreALRFXTkOOUHK1EtK2wtaz5Ry4YfYCA" "tBHItJI5svbpez7KI4CCXg"
                      None 1772000000000000 None.

Definition sample_session : Session :=
  mkSession [sample_todo] [] [] [sample_completed_occurrence]
            [sample_sent_reminder; sample_pending_reminder] []
            [sample_subscription] [].

(** A transport on which every delivery attempt fails. *)
Definition failing_webpush
    : SubscriptionInfo → Payload → option string → option string → option exn :=
  λ _ _ _ _, Some (WebPushException (Some (mkResponse 500))).

Definition sample_ids (k : nat) : ident := "id-" +:+ pretty k.

(** A series with a completed occurrence, today's occurrence and two pending
    future ones; today is day 20514. *)
Definition sample_series_session : Session :=
  mkSession [sample_todo] [] []
    [ sample_completed_occurrence;
      TodoOccurrence.mk "occ-2" "todo-1" "alice" 20514 OccurrenceStatus.PENDING
                        None 1772000000000000 1772000000000000;
      TodoOccurrence.mk "occ-3" "todo-1" "alice" 20515 OccurrenceStatus.PENDING
                        None 1772000000000000 1772000000000000;
      TodoOccurrence.mk "occ-4" "todo-1" "alice" 20516 OccurrenceStatus.PENDING
                        None 1772000000000000 1772000000000000 ]
    [] [] [] [].

(** A stand-in for [rrulestr] that knows three rules and takes the start
    from the [dtstart] argument only, so that [parse_rule] reaches it through
    its fallback call: a daily rule, a weekly rule and a rule for every second
    year (730 days apart). *)
Definition sample_rrulestr (text : string) (dtstart : option datetime)
    : Result (list datetime) :=
  match dtstart with
  | None => Raise (ValueError "unsupported property")
  | Some t =>
      if String.eqb text "FREQ=DAILY"
      then Ok ((λ k, t + Z.of_nat k * Datetime.usec_per_day)%Z <$> seq 0 400)
      else if String.eqb text "FREQ=WEEKLY"
      then Ok ((λ k, t + Z.of_nat k * 7 * Datetime.usec_per_day)%Z <$> seq 0 60)
      else if String.eqb text "FREQ=YEARLY;INTERVAL=2"
      then Ok ((λ k, t + Z.of_nat k * 730 * Datetime.usec_per_day)%Z <$> seq 0 5)
      else Raise (ValueError "invalid rrule")
  end.

(** A stand-in for [ZoneInfo] with three zones of fixed offset. *)
Definition sample_ZoneInfo (key : string) : option (datetime → Z) :=
  if String.eqb key "UTC" then Some (λ _, 0%Z)
  else if String.eqb key "Asia/Karachi"
  then Some (λ _, 5 * Datetime.usec_per_hour)%Z
  else if String.eqb key "Pacific/Auckland"
  then Some (λ _, 13 * Datetime.usec_per_hour)%Z
  else None.

(** A user in Auckland (UTC+13) whose digest hour is now 14 and who was sent
    a digest at 19:00 UTC of day 20513, which is 08:00 of day 20514 there. *)
Definition sample_digest_prefs : UserPreferences.t :=
  UserPreferences.mk "prefs-1" "bob" "Pacific/Auckland" None true true
                     (Some 50400000000%Z).

Definition sample_digest_notification : Notification.t :=
  Notification.mk "note-1" "bob" NotificationType.DAILY_DIGEST
                  "Daily Digest: No tasks due today"
                  (Some "You have no tasks due today. Enjoy your day!")
                  None None false 1772391600000000.

Definition sample_digest_session : Session :=
  mkSession [] [] [] [] [] [sample_digest_notification] [] [sample_digest_prefs].

(** The sample series with a tag on its head. *)
Definition sample_edit_session : Session :=
  mkSession [sample_todo] [TodoTag.mk "todo-1" "tag-1"]
            [Tag.mk "tag-1" "home" "alice"]
            (occurrences sample_series_session) [] [] [] [].

(** A patch that changes the title only. *)
Definition sample_patch : TodoUpdate :=
  mkTodoUpdate (Some "Doctor - rescheduled") None None None None None.



(** ** Vocabulary of the properties *)


Ltac unfold_M :=
  unfold bind, ret, raise, modify, get_session, try_except in *; simpl in *.

(** Number of active (pending or snoozed) reminders of a todo. *)
Definition active_count (session : Session) (todo_id : ident) : nat :=
  length (filter (λ r, Reminder.todo_id r = todo_id ∧ active (Reminder.status r))
                 (reminders session)).







(** A pending occurrence of the series dated after today. *)
Definition pending_future (today : date) (todo_id : ident) (o : TodoOccurrence.t)
    : Prop :=
  TodoOccurrence.parent_todo_id o = todo_id
  ∧ TodoOccurrence.status o = OccurrenceStatus.PENDING
  ∧ (today < TodoOccurrence.occurrence_date o)%Z.

#[global] Instance pending_future_dec today todo_id o :
  Decision (pending_future today todo_id o).
Proof. unfold pending_future. apply _. Defined.


(** The dates the series already has in the store. *)
Definition existing_dates_of (session : Session) (todo_id : ident) : list date :=
  TodoOccurrence.occurrence_date
    <$> filter (λ o, TodoOccurrence.parent_todo_id o = todo_id) (occurrences session).

(** The rows [_generate_occurrences] builds for a list of dates. *)
Definition occurrence_rows (ids : nat → ident) (now : datetime)
    (user_id todo_id : ident) (dates : list date) : list TodoOccurrence.t :=
  imap (λ k occ_date,
          TodoOccurrence.mk (ids k) todo_id user_id occ_date
            OccurrenceStatus.PENDING None now now) dates.

(** The digest notifications of a user. *)
Definition digests_of (session : Session) (user_id : ident) : list Notification.t :=
  filter (λ n, Notification.user_id n = user_id
               ∧ Notification.type n = NotificationType.DAILY_DIGEST)
         (notifications session).

(** The digest notifications of a user created at or after 00:00 UTC of the
    date [today]. *)
Definition digests_since (session : Session) (today : date) (user_id : ident)
    : list Notification.t :=
  filter (λ n, Notification.user_id n = user_id
               ∧ Notification.type n = NotificationType.DAILY_DIGEST
               ∧ (Datetime.combine_min today ≤ Notification.created_at n)%Z)
         (notifications session).

(** The UTC instant at which the current day began in a zone, for a zone
    whose offset does not change during that day. *)
Definition local_day_start (utcoffset : datetime → Z) (now_utc : datetime) : datetime :=
  (Datetime.combine_min (Datetime.date_of (now_utc + utcoffset now_utc))
   - utcoffset now_utc)%Z.

(** The rule of the claim as it is written: a user who already has a digest
    notification created since the start of the day in the user's own zone
    gets no further one from a tick. *)
Definition skips_when_sent_since_local_midnight
    (ZoneInfo : string → option (datetime → Z)) : Prop :=
  ∀ ids now_utc today session prefs utcoffset n,
    prefs ∈ user_preferences session →
    ZoneInfo (UserPreferences.timezone prefs) = Some utcoffset →
    n ∈ digests_of session (UserPreferences.user_id prefs) →
    (local_day_start utcoffset now_utc ≤ Notification.created_at n)%Z →
    digests_of (process_daily_digests ZoneInfo ids now_utc today session).2
               (UserPreferences.user_id prefs)
    = digests_of session (UserPreferences.user_id prefs).

(** The tag exists and belongs to the user: the test of [_assign_tags]. *)
Definition tag_owned (session : Session) (user_id tag_id : ident) : Prop :=
  is_Some (head (filter (λ t, Tag.id t = tag_id ∧ Tag.user_id t = user_id)
                        (tags session))).

#[global] Instance tag_owned_dec session user_id tag_id :
  Decision (tag_owned session user_id tag_id).
Proof. unfold tag_owned. apply _. Defined.


(** * Further services

    The other operations of the service modules, the schema of a recurrence
    and the scheduler jobs that call the services. *)

(** ** Strings as Python handles them *)

(** The characters ["="] and [";"]. *)
Definition char_equals : Ascii.ascii := Ascii.ascii_of_nat 61.
Definition char_semicolon : Ascii.ascii := Ascii.ascii_of_nat 59.

(** [c in s] for a one-character string [c]. *)
Fixpoint str_contains (c : Ascii.ascii) (s : string) : bool :=
  match s with
  | EmptyString => false
  | String x rest => bool_decide (x = c) || str_contains c rest
  end.

(** [s.split(sep)] for a one-character separator: the pieces between the
    separators, empty pieces included. *)
Fixpoint str_split (sep : Ascii.ascii) (s : string) : list string :=
  match s with
  | EmptyString => [EmptyString]
  | String x rest =>
      if bool_decide (x = sep) then EmptyString :: str_split sep rest
      else
        match str_split sep rest with
        | piece :: pieces => String x piece :: pieces
        | [] => [String x EmptyString]
        end
  end.

(** [key, value = s.split(sep, 1)] for an [s] in which [sep] occurs: what is
    before the first separator and what is after it. *)
Fixpoint str_split_once (sep : Ascii.ascii) (s : string) : string * string :=
  match s with
  | EmptyString => (EmptyString, EmptyString)
  | String x rest =>
      if bool_decide (x = sep) then (EmptyString, rest)
      else let '(key, value) := str_split_once sep rest in (String x key, value)
  end.

(** [sep.join(parts)] *)
Fixpoint str_join (sep : string) (parts : list string) : string :=
  match parts with
  | [] => EmptyString
  | [x] => x
  | x :: rest => x +:+ sep +:+ str_join sep rest
  end.

(** [s.upper()] on ASCII text. *)
Definition ascii_upper (c : Ascii.ascii) : Ascii.ascii :=
  let n := Ascii.nat_of_ascii c in
  if (97 <=? n)%nat && (n <=? 122)%nat then Ascii.ascii_of_nat (n - 32) else c.

Fixpoint str_upper (s : string) : string :=
  match s with
  | EmptyString => EmptyString
  | String x rest => String (ascii_upper x) (str_upper rest)
  end.

(** [d.strftime('%Y%m%d')] *)
Definition strftime_Ymd (d : date) : string :=
  let '(y, m, dd) := Datetime.civil d in
  Datetime.pad4 y +:+ Datetime.pad2 m +:+ Datetime.pad2 dd.

(** ** The recurrence schema ([app/schemas/recurrence.py]) *)

Module Frequency.
Inductive t := daily | weekly | monthly | yearly | custom.
#[global] Instance Frequency_eq_dec : EqDecision t.
Proof. solve_decision. Defined.
(** The string of the literal. *)
Definition value (f : t) : string :=
  match f with
  | daily => "daily" | weekly => "weekly" | monthly => "monthly"
  | yearly => "yearly" | custom => "custom"
  end.
End Frequency.

Module Weekday.
Inductive t := MO | TU | WE | TH | FR | SA | SU.
#[global] Instance Weekday_eq_dec : EqDecision t.
Proof. solve_decision. Defined.
Definition value (d : t) : string :=
  match d with
  | MO => "MO" | TU => "TU" | WE => "WE" | TH => "TH" | FR => "FR"
  | SA => "SA" | SU => "SU"
  end.
End Weekday.

Record RecurrenceConfig := mkRecurrenceConfig {
  frequency : Frequency.t;
  interval : Z;
  days_of_week : option (list Weekday.t);
  day_of_month : option Z;
  end_date : option date;
  end_count : option Z }.

(** Truth value of an [Optional[int]] and of an [Optional[List]]. *)
Definition truthy_int (o : option Z) : bool :=
  match o with
  | Some n => negb (n =? 0)%Z
  | None => false
  end.

Definition truthy_list {A} (o : option (list A)) : bool :=
  match o with
  | Some (_ :: _) => true
  | _ => false
  end.

(** The two model validators of the schema. *)
Definition validate_end_conditions (self : RecurrenceConfig) : Result RecurrenceConfig :=
  if bool_decide (end_date self ≠ None ∧ end_count self ≠ None)
  then Raise (ValueError "end_date and end_count are mutually exclusive")
  else Ok self.

Definition validate_frequency_options (self : RecurrenceConfig)
    : Result RecurrenceConfig :=
  if truthy_list (days_of_week self)
     && bool_decide (frequency self ∉ [Frequency.weekly; Frequency.custom])
  then Raise (ValueError "days_of_week is only valid for weekly or custom frequency")
  else if truthy_int (day_of_month self)
          && bool_decide (frequency self ∉ [Frequency.monthly; Frequency.custom])
  then Raise (ValueError "day_of_month is only valid for monthly or custom frequency")
  else Ok self.

(** ** [app/services/recurrence.py], the rule text *)

Definition config_to_rrule (config : RecurrenceConfig) (start_date : date) : string :=
  let freq :=
    if bool_decide (frequency config = Frequency.custom) then
      if truthy_list (days_of_week config) then "WEEKLY"
      else if truthy_int (day_of_month config) then "MONTHLY"
      else "DAILY"
    else str_upper (Frequency.value (frequency config)) in
  let parts := ["FREQ=" +:+ freq] in
  let parts :=
    if negb (interval config =? 0)%Z && negb (interval config =? 1)%Z
    then parts ++ ["INTERVAL=" +:+ pretty (interval config)]
    else parts in
  let parts :=
    if truthy_list (days_of_week config) then
      let days := str_join "," (Weekday.value <$> default [] (days_of_week config)) in
      parts ++ ["BYDAY=" +:+ days]
    else parts in
  let parts :=
    if truthy_int (day_of_month config)
    then parts ++ ["BYMONTHDAY=" +:+ pretty (default 0%Z (day_of_month config))]
    else parts in
  let parts :=
    match end_date config with
    | Some end_date => parts ++ ["UNTIL=" +:+ strftime_Ymd end_date]
    | None => parts
    end in
  let parts :=
    if truthy_int (end_count config)
    then parts ++ ["COUNT=" +:+ pretty (default 0%Z (end_count config))]
    else parts in
  str_join ";" parts.

Definition parse_rrule (rrule_str : string) : gmap string string :=
  foldl (λ parts part,
           if str_contains char_equals part then
             let '(key, value) := str_split_once char_equals part in
             <[key := value]> parts
           else parts)
        ∅ (str_split char_semicolon rrule_str).

(** ** [app/services/reminder.py], listing and cancelling *)

Definition get_todo_reminders (user_id todo_id : ident) (include_fired : bool)
    : M (list Reminder.t) :=
  session ←' get_session;
  let query :=
    filter (λ r, Reminder.todo_id r = todo_id ∧ Reminder.user_id r = user_id)
           (reminders session) in
  let query :=
    if negb include_fired
    then filter (λ r, active (Reminder.status r)) query
    else query in
  ret (merge_sort fire_at_le query).

(** The loop of [cancel_todo_reminders]. *)
Fixpoint cancel_each (selected : list Reminder.t) (count : nat) : M nat :=
  match selected with
  | [] => ret count
  | reminder :: rest =>
      let reminder := reminder_set_status ReminderStatus.CANCELLED reminder in
      modify (set_reminders (upsert Reminder.id reminder));;'
      cancel_each rest (S count)
  end.

Definition cancel_todo_reminders (todo_id : ident) : M nat :=
  session ←' get_session;
  let selected :=
    filter (λ r, Reminder.todo_id r = todo_id ∧ active (Reminder.status r))
           (reminders session) in
  cancel_each selected 0.

(** ** [app/services/notification.py], the notification centre *)

(** [Notification.created_at.desc()] *)
Definition created_at_ge (a b : Notification.t) : Prop :=
  (Notification.created_at b ≤ Notification.created_at a)%Z.

#[global] Instance created_at_ge_dec : RelDecision created_at_ge.
Proof. intros a b. unfold created_at_ge. apply _. Defined.

(** [limit] and [offset] are natural numbers: the router admits
    [1 ≤ limit ≤ 100] and [0 ≤ offset], the other callers pass [0] or [100]. *)
Definition get_user_notifications (user_id : ident) (unread_only : bool)
    (limit offset : nat) : M (list Notification.t * nat * nat) :=
  session ←' get_session;
  let query := filter (λ n, Notification.user_id n = user_id) (notifications session) in
  let query :=
    if unread_only then filter (λ n, Notification.read n = false) query else query in
  let query := merge_sort created_at_ge query in
  let count_query :=
    filter (λ n, Notification.user_id n = user_id) (notifications session) in
  let count_query :=
    if unread_only then filter (λ n, Notification.read n = false) count_query
    else count_query in
  let total := length count_query in
  let unread_query :=
    filter (λ n, Notification.user_id n = user_id ∧ Notification.read n = false)
           (notifications session) in
  let unread_count := length unread_query in
  let query := take limit (drop offset query) in
  ret (query, total, unread_count).

Definition notification_set_read (v : bool) (n : Notification.t) : Notification.t :=
  Notification.mk (Notification.id n) (Notification.user_id n) (Notification.type n)
    (Notification.title n) (Notification.body n) (Notification.todo_id n)
    (Notification.reminder_id n) v (Notification.created_at n).

(** The loop of [mark_as_read] and of [mark_all_as_read]. *)
Fixpoint mark_each (selected : list Notification.t) (count : nat) : M nat :=
  match selected with
  | [] => ret count
  | notification :: rest =>
      let notification := notification_set_read true notification in
      modify (set_notifications (upsert Notification.id notification));;'
      mark_each rest (S count)
  end.

Definition mark_as_read (user_id : ident) (notification_ids : list ident) : M nat :=
  session ←' get_session;
  let selected :=
    filter (λ n, Notification.user_id n = user_id
                 ∧ Notification.id n ∈ notification_ids
                 ∧ Notification.read n = false)
           (notifications session) in
  mark_each selected 0.

Definition mark_all_as_read (user_id : ident) : M nat :=
  session ←' get_session;
  let selected :=
    filter (λ n, Notification.user_id n = user_id ∧ Notification.read n = false)
           (notifications session) in
  mark_each selected 0.

Definition delete_notification (user_id notification_id : ident) : M bool :=
  session ←' get_session;
  match head (filter (λ n, Notification.user_id n = user_id
                           ∧ Notification.id n = notification_id)
                     (notifications session)) with
  | Some notification =>
      modify (set_notifications (delete_row Notification.id notification));;'
      ret true
  | None => ret false
  end.

(** ** [app/routers/notifications.py], marking one notification *)

(** What an endpoint answers: a body, or the status of the [HTTPException]
    it raises. *)
Inductive Response_of (A : Type) :=
  | Respond (a : A)
  | HTTPException (status : Z).
Arguments Respond {A} a.
Arguments HTTPException {A} status.

Definition mark_notification_read (user_id notification_id : ident)
    : M (Response_of Notification.t) :=
  count ←' mark_as_read user_id [notification_id];
  if bool_decide (count = 0) then ret (HTTPException 404%Z)
  else
    listed ←' get_user_notifications user_id false 100 0;
    match head (filter (λ n, Notification.id n = notification_id) listed.1.1) with
    | Some n => ret (Respond n)
    | None => ret (HTTPException 404%Z)
    end.

(** ** [app/services/push.py], the registry *)

Definition subscription_set_user_id (v : ident) (p : PushSubscription.t)
    : PushSubscription.t :=
  PushSubscription.mk (PushSubscription.id p) v
    (PushSubscription.endpoint p) (PushSubscription.p256dh_key p)
    (PushSubscription.auth_key p) (PushSubscription.user_agent p)
    (PushSubscription.created_at p) (PushSubscription.last_used_at p).

Definition register_subscription (new_id : ident) (now : datetime)
    (user_id : ident) (endpoint p256dh_key auth_key : string)
    (user_agent : option string) : M PushSubscription.t :=
  session ←' get_session;
  match head (filter (λ p, PushSubscription.endpoint p = endpoint)
                     (push_subscriptions session)) with
  | Some existing =>
      if bool_decide (PushSubscription.user_id existing ≠ user_id) then
        let existing := subscription_set_user_id user_id existing in
        modify (set_push_subscriptions (upsert PushSubscription.id existing));;'
        ret existing
      else ret existing
  | None =>
      let subscription :=
        PushSubscription.mk new_id user_id endpoint p256dh_key auth_key user_agent
                            now None in
      modify (set_push_subscriptions (λ l, l ++ [subscription]));;'
      ret subscription
  end.

Definition unregister_subscription (user_id subscription_id : ident) : M bool :=
  session ←' get_session;
  match head (filter (λ p, PushSubscription.id p = subscription_id
                           ∧ PushSubscription.user_id p = user_id)
                     (push_subscriptions session)) with
  | Some subscription =>
      modify (set_push_subscriptions (delete_row PushSubscription.id subscription));;'
      ret true
  | None => ret false
  end.

(** ** [app/services/todo.py], listing occurrences and tags *)

Definition get_occurrences (session : Session) (user_id todo_id : ident)
    (status : option OccurrenceStatus.t) : list TodoOccurrence.t :=
  match get_todo_by_id session user_id todo_id with
  | None => []
  | Some _ =>
      let query :=
        filter (λ o, TodoOccurrence.parent_todo_id o = todo_id
                     ∧ TodoOccurrence.user_id o = user_id)
               (occurrences session) in
      let query :=
        match status with
        | Some status => filter (λ o, TodoOccurrence.status o = status) query
        | None => query
        end in
      merge_sort occurrence_date_le query
  end.

(** The primary key of the junction table. *)
Definition todo_tag_key (tt : TodoTag.t) : ident * ident :=
  (TodoTag.todo_id tt, TodoTag.tag_id tt).

Definition _replace_tags (user_id todo_id : ident) (tag_ids : list ident) : M unit :=
  session ←' get_session;
  let existing := filter (λ tt, TodoTag.todo_id tt = todo_id) (todo_tags session) in
  modify (set_todo_tags
            (λ l, foldl (λ l todo_tag,
                           filter (λ tt, todo_tag_key tt ≠ todo_tag_key todo_tag) l)
                        l existing));;'
  match tag_ids with
  | [] => ret tt
  | _ => _assign_tags user_id todo_id tag_ids
  end.

(** [prefs] of [_auto_apply_default_reminder]: 23:59:59 of the due date. *)
Definition end_of_day (d : date) : datetime :=
  (Datetime.combine_min d + 86399 * 1000000)%Z.

Definition _auto_apply_default_reminder (new_id : ident) (now : datetime)
    (user_id todo_id : ident) (due_date : date) : M (option Reminder.t) :=
  session ←' get_session;
  match head (filter (λ p, UserPreferences.user_id p = user_id)
                     (user_preferences session)) with
  | None => ret None
  | Some prefs =>
      match UserPreferences.default_reminder_offset prefs with
      | None => ret None
      | Some offset =>
          let due_datetime := end_of_day due_date in
          let fire_at := (due_datetime + Datetime.timedelta_minutes offset)%Z in
          if bool_decide (fire_at ≤ now)%Z then ret None
          else
            let reminder :=
              Reminder.mk new_id todo_id None user_id fire_at (Some offset)
                          ReminderStatus.PENDING None None now in
            modify (set_reminders (λ l, l ++ [reminder]));;'
            ret (Some reminder)
      end
  end.

(** ** [app/services/daily_digest.py], the preview *)

Record DigestPreview := mkDigestPreview {
  preview_regular_todos : nat;
  preview_recurring_occurrences : nat;
  preview_total : nat }.

Definition get_digest_preview (session : Session) (today : date) (user_id : ident)
    : DigestPreview :=
  let regular_todos :=
    filter (λ t, Todo.user_id t = user_id ∧ Todo.due_date t = Some today
                 ∧ Todo.completed t = false) (todos session) in
  let occurrences :=
    filter (λ o, TodoOccurrence.user_id o = user_id
                 ∧ TodoOccurrence.occurrence_date o = today
                 ∧ TodoOccurrence.status o = OccurrenceStatus.PENDING)
           (occurrences session) in
  mkDigestPreview (length regular_todos) (length occurrences)
                  (length regular_todos + length occurrences).

(** ** [app/scheduler.py], the cleanup job *)


Section FurtherServices.

Variable rrulestr : string → option datetime → Result (list datetime).

(** ** [app/services/todo.py], creating a todo *)

(** The fields of a [TodoCreate]. *)
Record TodoCreate := mkTodoCreate {
  create_title : string;
  create_description : option string;
  create_due_date : option date;
  create_priority : option Priority.t;
  create_tag_ids : option (list ident);
  create_recurrence : option RecurrenceConfig }.

(** [new_id] is the id generated for the todo, [ids] those of its
    occurrences, [reminder_id] that of the default reminder. The value
    returned is the row as it is stored when the call ends. *)
Definition create_todo (new_id : ident) (ids : nat → ident) (reminder_id : ident)
    (now : datetime) (user_id : ident) (data : TodoCreate) : M Todo.t :=
  recurrence ←'
    match create_recurrence data with
    | Some recurrence =>
        match create_due_date data with
        | None => raise (ValueError "due_date is required for recurring todos")
        | Some due_date =>
            ret (true, Some (config_to_rrule recurrence due_date),
                 end_date recurrence, end_count recurrence)
        end
    | None => ret (false, None, None, None)
    end;
  let '(is_recurring, rrule, recurrence_end_date, recurrence_count) := recurrence in
  let todo :=
    Todo.mk new_id (create_title data) (create_description data) false user_id
            now now (create_due_date data) (create_priority data) is_recurring
            rrule recurrence_end_date recurrence_count 0 in
  modify (set_todos (λ l, l ++ [todo]));;'
  (if truthy_list (create_tag_ids data)
   then _assign_tags user_id (Todo.id todo) (default [] (create_tag_ids data))
   else ret tt);;'
  match create_due_date data with
  | Some due_date =>
      (if is_recurring && truthy rrule
       then _generate_occurrences rrulestr ids now user_id (Todo.id todo)
              (default EmptyString rrule) due_date None;;'
            ret tt
       else ret tt);;'
      _auto_apply_default_reminder reminder_id now user_id (Todo.id todo) due_date;;'
      ret tt
  | None => ret tt
  end;;'
  session ←' get_session;
  ret (default todo (session_get_todo session (Todo.id todo))).

(** ** [app/scheduler.py], the occurrence generation job *)

(** The loop over the recurring todos: the rows added to the session so
    far, or the exception a rule raised. [ids k] is the id generated for the
    [k]-th row. *)
Fixpoint generate_each (ids : nat → ident) (now : datetime) (today : date)
    (session : Session) (recurring_todos : list Todo.t)
    (added : list TodoOccurrence.t) : Result (list TodoOccurrence.t) :=
  match recurring_todos with
  | [] => Ok added
  | todo :: rest =>
      match Todo.due_date todo with
      | Some due_date =>
          if negb (truthy (Todo.rrule todo))
          then generate_each ids now today session rest added
          else
            let existing :=
              TodoOccurrence.occurrence_date
                <$> filter (λ o, TodoOccurrence.parent_todo_id o = Todo.id todo)
                           (occurrences session) in
            let existing_dates : gset Z := list_to_set existing in
            match generate_occurrences rrulestr (default EmptyString (Todo.rrule todo))
                    due_date (Some today) None (Some 30%Z) with
            | Raise e => Raise e
            | Ok occurrence_dates =>
                let created :=
                  imap (λ k occ_date,
                          TodoOccurrence.mk (ids (length added + k)) (Todo.id todo)
                            (Todo.user_id todo) occ_date OccurrenceStatus.PENDING
                            None now now)
                       (filter (λ occ_date, occ_date ∉ existing_dates)
                               occurrence_dates) in
                generate_each ids now today session rest (added ++ created)
            end
      | None => generate_each ids now today session rest added
      end
  end.

(** The rows are committed together at the end, so a rule that raises or a
    row that breaks [uq_occurrence_date] leaves the table as it was; the job
    logs the exception and returns. *)
Definition generate_occurrences_job (ids : nat → ident) (now : datetime)
    (today : date) : M unit :=
  try_except
    (session ←' get_session;
     let recurring_todos :=
       filter (λ t, Todo.is_recurring t = true ∧ Todo.rrule t ≠ None)
              (todos session) in
     match generate_each ids now today session recurring_todos [] with
     | Raise e => raise e
     | Ok added =>
         let total_created := length added in
         if bool_decide (0 < total_created) then
           if bool_decide (uq_occurrence_date (occurrences session ++ added))
           then modify (set_occurrences (λ l, l ++ added))
           else raise (IntegrityError "uq_occurrence_date")
         else ret tt
     end)
    (λ _, ret tt).

End FurtherServices.

(** ** Vocabulary of the further properties *)

(** The text [KEY=VALUE] of one part of a rule. *)
Definition rrule_part (kv : string * string) : string :=
  kv.1 +:+ String char_equals kv.2.

(** A key holds no ["="] and no [";"], a value no [";"]. *)
Definition rrule_part_ok (kv : string * string) : Prop :=
  str_contains char_equals kv.1 = false
  ∧ str_contains char_semicolon kv.1 = false
  ∧ str_contains char_semicolon kv.2 = false.

(** The [FREQ] a configuration stands for: its own frequency, and for
    ["custom"] the one its options imply. *)
Definition rrule_freq (config : RecurrenceConfig) : string :=
  match frequency config with
  | Frequency.daily => "DAILY"
  | Frequency.weekly => "WEEKLY"
  | Frequency.monthly => "MONTHLY"
  | Frequency.yearly => "YEARLY"
  | Frequency.custom =>
      if truthy_list (days_of_week config) then "WEEKLY"
      else if truthy_int (day_of_month config) then "MONTHLY"
      else "DAILY"
  end.

(** The parts [config_to_rrule] writes for a configuration, as keys and
    values. *)
Definition config_parts (config : RecurrenceConfig) : list (string * string) :=
  [("FREQ", rrule_freq config)]
  ++ (if negb (interval config =? 0)%Z && negb (interval config =? 1)%Z
      then [("INTERVAL", pretty (interval config))] else [])
  ++ (if truthy_list (days_of_week config)
      then [("BYDAY", str_join "," (Weekday.value <$> default [] (days_of_week config)))]
      else [])
  ++ (if truthy_int (day_of_month config)
      then [("BYMONTHDAY", pretty (default 0%Z (day_of_month config)))] else [])
  ++ match end_date config with
     | Some end_date => [("UNTIL", strftime_Ymd end_date)]
     | None => []
     end
  ++ (if truthy_int (end_count config)
      then [("COUNT", pretty (default 0%Z (end_count config)))] else []).

(** [parts[key] = value] when there is a value. *)
Definition opt_insert (key : string) (value : option string)
    (parts : gmap string string) : gmap string string :=
  match value with
  | Some value => <[key := value]> parts
  | None => parts
  end.

(** A sample configuration: every second week on Monday and Wednesday, ten
    times. *)
Definition sample_config : RecurrenceConfig :=
  mkRecurrenceConfig Frequency.weekly 2 (Some [Weekday.MO; Weekday.WE]) None None
                     (Some 10%Z).

(** The reminder as [cancel_todo_reminders] stores it when it is an active
    reminder of the todo, and unchanged otherwise. *)
Definition cancel_if_active (todo_id : ident) (r : Reminder.t) : Reminder.t :=
  if decide (Reminder.todo_id r = todo_id ∧ active (Reminder.status r))
  then reminder_set_status ReminderStatus.CANCELLED r
  else r.

(** A reminder the dispatcher selects at [now]: due and pending or snoozed. *)
Definition due (now : datetime) (r : Reminder.t) : Prop :=
  (Reminder.fire_at r ≤ now)%Z ∧ active (Reminder.status r).

#[global] Instance due_dec now r : Decision (due now r).
Proof. unfold due. apply _. Defined.


(** The reminders [get_pending_reminders] returns. *)
Definition pending_reminders (before : datetime) (session : Session)
    : list Reminder.t :=
  match (get_pending_reminders before session).1 with
  | Ok pending => pending
  | Raise _ => []
  end.

(** The notifications of a user that match a listing, and the unread ones. *)
Definition listing_of (session : Session) (user_id : ident) (unread_only : bool)
    : list Notification.t :=
  filter (λ n, Notification.user_id n = user_id
               ∧ (unread_only = true → Notification.read n = false))
         (notifications session).

Definition unread_of (session : Session) (user_id : ident) : list Notification.t :=
  filter (λ n, Notification.user_id n = user_id ∧ Notification.read n = false)
         (notifications session).

(** The page [get_user_notifications] returns. *)
Definition listed_page (user_id : ident) (unread_only : bool) (limit offset : nat)
    (session : Session) : list Notification.t :=
  match (get_user_notifications user_id unread_only limit offset session).1 with
  | Ok listed => listed.1.1
  | Raise _ => []
  end.

(** The row [mark_as_read] stores for a notification: read when it is an
    unread notification of the user among the given ids, unchanged
    otherwise. *)
Definition read_if_listed (user_id : ident) (notification_ids : list ident)
    (n : Notification.t) : Notification.t :=
  if decide (Notification.user_id n = user_id
             ∧ Notification.id n ∈ notification_ids
             ∧ Notification.read n = false)
  then notification_set_read true n
  else n.

Definition read_if_owned (user_id : ident) (n : Notification.t) : Notification.t :=
  if decide (Notification.user_id n = user_id ∧ Notification.read n = false)
  then notification_set_read true n
  else n.

(** A store with notifications of two users; one of them is read. *)
Definition sample_read_notification : Notification.t :=
  Notification.mk "note-2" "alice" NotificationType.DAILY_DIGEST
    "Daily Digest: No tasks due today" None None None true 1772391600000000.

Definition sample_notifications_session : Session :=
  mkSession [] [] [] [] []
    [ Notification.mk "note-1" "alice" NotificationType.REMINDER "Reminder: Water the plants"
        (Some "Due: Mar 01, 2026") None None false 1772355600000000;
      sample_read_notification;
      Notification.mk "note-3" "bob" NotificationType.REMINDER "Reminder: Pay the rent"
        (Some "Task reminder") None None false 1772395200000000;
      Notification.mk "note-4" "alice" NotificationType.REMINDER "Reminder: Call the bank"
        (Some "Task reminder") None None false 1772398800000000 ]
    [] [].

(** The subscription as a successful fan-out to a user stores it. *)
Definition stamp_if_owned (now : datetime) (user_id : ident) (p : PushSubscription.t)
    : PushSubscription.t :=
  if decide (PushSubscription.user_id p = user_id)
  then set_last_used_at (Some now) p
  else p.

(** A transport on which every delivery succeeds. *)
Definition accepting_webpush
    : SubscriptionInfo → Payload → option string → option string → option exn :=
  λ _ _ _ _, None.

(** A push service without a private key. *)
Definition sample_unconfigured_service : PushService :=
  mkPushService (Some "BEl62iUYgUivxIkv69yViEuiBIa") None (Some "mailto:ops@example.com").

(** An occurrence of a series that belongs to a user. *)
Definition of_series (user_id todo_id : ident) (o : TodoOccurrence.t) : Prop :=
  TodoOccurrence.parent_todo_id o = todo_id ∧ TodoOccurrence.user_id o = user_id.

#[global] Instance of_series_dec user_id todo_id o :
  Decision (of_series user_id todo_id o).
Proof. unfold of_series. apply _. Defined.

(** Occurrences in strictly increasing order of date. *)
Definition occurrence_date_lt (a b : TodoOccurrence.t) : Prop :=
  (TodoOccurrence.occurrence_date a < TodoOccurrence.occurrence_date b)%Z.

(** The status filter of a listing: any status when none is asked for. *)
Definition status_matches (status : option OccurrenceStatus.t) (o : TodoOccurrence.t)
    : Prop :=
  match status with
  | Some st => TodoOccurrence.status o = st
  | None => True
  end.

#[global] Instance status_matches_dec status o : Decision (status_matches status o).
Proof. destruct status; simpl; apply _. Defined.

(** The pending occurrences of a series from today on, which the top-up
    counts. *)
Definition pending_from (today : date) (user_id todo_id : ident) (session : Session)
    : list TodoOccurrence.t :=
  filter (λ o, TodoOccurrence.parent_todo_id o = todo_id
               ∧ TodoOccurrence.user_id o = user_id
               ∧ TodoOccurrence.status o = OccurrenceStatus.PENDING
               ∧ (today ≤ TodoOccurrence.occurrence_date o)%Z)
         (occurrences session).

(** A weekly series whose only occurrence, of day 20513, is completed. *)
Definition sample_weekly_todo : Todo.t :=
  Todo.mk "todo-7" "Team meeting" None false "alice" 0 0 (Some 20513%Z) None
          true (Some "FREQ=WEEKLY") None None 1.

Definition sample_weekly_session : Session :=
  mkSession [sample_weekly_todo] [] []
    [TodoOccurrence.mk "occ-7" "todo-7" "alice" 20513 OccurrenceStatus.COMPLETED
                       (Some 1772355000000000%Z) 1772000000000000 1772355000000000]
    [] [] [] [].

(** A series whose rule the parser rejects, with one pending occurrence. *)
Definition sample_rejected_session : Session :=
  mkSession
    [Todo.mk "todo-8" "Check the backups" None false "alice" 0 0 (Some 20513%Z) None
             true (Some "FREQ=HOURLY") None None 1]
    [] []
    [TodoOccurrence.mk "occ-8" "todo-8" "alice" 20513 OccurrenceStatus.PENDING
                       None 1772000000000000 1772000000000000]
    [] [] [] [].

(** The default reminder offset of a user: that of the first preferences
    row of the user, when it has one. *)
Definition default_offset_of (session : Session) (user_id : ident) : option Z :=
  head (filter (λ p, UserPreferences.user_id p = user_id) (user_preferences session))
    ≫= UserPreferences.default_reminder_offset.

(** The default reminder of a todo due on [due_date], when one is to be
    created at [now]. *)
Definition default_reminder (reminder_id : ident) (now : datetime)
    (user_id todo_id : ident) (due_date : date) (session : Session)
    : option Reminder.t :=
  match default_offset_of session user_id with
  | Some offset =>
      let fire_at := (end_of_day due_date + Datetime.timedelta_minutes offset)%Z in
      if bool_decide (now < fire_at)%Z
      then Some (Reminder.mk reminder_id todo_id None user_id fire_at (Some offset)
                             ReminderStatus.PENDING None None now)
      else None
  | None => None
  end.

(** Alice asks for a reminder an hour before by default. *)
Definition sample_prefs_session : Session :=
  mkSession [sample_todo] [] [] [] [] [] []
    [UserPreferences.mk "prefs-2" "alice" "UTC" (Some (-60)%Z) true false None].

(** A plain todo and a weekly one, as the creation endpoint receives them. *)
Definition sample_create : TodoCreate :=
  mkTodoCreate "Pay the rent" None (Some 20520%Z) (Some Priority.HIGH) None None.

Definition sample_weekly_create : TodoCreate :=
  mkTodoCreate "Team review" None (Some 20520%Z) None None
    (Some (mkRecurrenceConfig Frequency.weekly 1 None None None None)).


(** The title of a digest that announces [total_count] tasks. *)
Definition digest_title (total_count : nat) : string :=
  if bool_decide (total_count = 0%nat)
  then "Daily Digest: No tasks due today"
  else "Daily Digest: " +:+ pretty total_count +:+ " task"
         +:+ (if bool_decide (total_count ≠ 1%nat) then "s" else EmptyString)
         +:+ " due today".


(** * Properties *)

(** The calendar conversion and the two date formats on known dates. *)
Example strftime_2026_03_01 : Datetime.strftime_b_d_Y 20513 = "Mar 01, 2026".
Proof. vm_compute. reflexivity. Qed.

Example strftime_1969_12_31 : Datetime.strftime_b_d_Y (-1) = "Dec 31, 1969".
Proof. vm_compute. reflexivity. Qed.

Example strftime_2000_02_29 : Datetime.strftime_b_d_Y 11016 = "Feb 29, 2000".
Proof. vm_compute. reflexivity. Qed.

Example strftime_compact_2026_01_05 :
  Datetime.strftime_compact (Datetime.combine_min 20458) = "20260105T000000".
Proof. vm_compute. reflexivity. Qed.

(** ** Reminder creation *)


(** ** Push delivery *)



Section PushProperties.

Variable webpush :
  SubscriptionInfo → Payload → option string → option string → option exn.
Variable Response_bool : Response → bool.

(** What a send does, case by case on the configuration and on the outcome
    of the transport call. *)
Lemma send_push_notification_cases self now subscription title body url tag session :
  let out := send_push_notification webpush Response_bool self now subscription
                                    title body url tag session in
  if is_configured self then
    match webpush
            (mkSubscriptionInfo (PushSubscription.endpoint subscription)
               (PushSubscription.p256dh_key subscription)
               (PushSubscription.auth_key subscription))
            (mkPayload title body (if truthy url then url else None)
               (if truthy tag then tag else None))
            (vapid_private_key self) (vapid_claims_email self) with
    | None =>
        out = (Ok true,
               set_push_subscriptions
                 (upsert PushSubscription.id (set_last_used_at (Some now) subscription))
                 session)
    | Some (WebPushException response) =>
        if response_is_410 Response_bool response
        then out = (Ok false,
                    set_push_subscriptions
                      (delete_row PushSubscription.id subscription) session)
        else out = (Ok false, session)
    | Some _ => out = (Ok false, session)
    end
  else out = (Ok false, session).
Proof.
  unfold send_push_notification.
  destruct (is_configured self); simpl; [|done].
  unfold_M. destruct (webpush _ _ _ _) as [[]|]; simpl; try done.
  by destruct (response_is_410 _ _).
Qed.




End PushProperties.

(** ** Rows updated by primary key *)

Lemma filter_none {A} (P : A → Prop) `{∀ x, Decision (P x)} (l : list A) :
  (∀ x, x ∈ l → ¬ P x) → filter P l = [].
Proof.
  induction l as [|y l IH]; intros Hl; [done|].
  rewrite filter_cons_False by (apply Hl; left).
  apply IH. intros x Hx. apply Hl. by right.
Qed.

Lemma filter_ext_elem {A} (P Q : A → Prop) `{!∀ x, Decision (P x)}
    `{!∀ x, Decision (Q x)} (l : list A) :
  (∀ x, x ∈ l → P x ↔ Q x) → filter P l = filter Q l.
Proof.
  induction l as [|y l IH]; intros Hl; [done|].
  assert (filter P l = filter Q l) as Htail.
  { apply IH. intros x Hx. apply Hl. by right. }
  destruct (decide (P y)) as [Hp|Hp].
  - rewrite !filter_cons_True; [by rewrite Htail| |done].
    apply Hl; [by left|done].
  - rewrite !filter_cons_False; [done| |done].
    intros Hq. apply Hp, Hl; [by left|done].
Qed.

Section Upsert.
Context {A : Type} (key : A → ident).

Lemma upsert_lookup_by (P : A → Prop) `{∀ y, Decision (P y)} (x : A) (l : list A) :
  P x → (∀ y, P y → key y = key x) →
  head (filter P (upsert key x l)) = Some x.
Proof.
  intros HPx HP. unfold upsert. case_bool_decide as Hin.
  - induction l as [|y l IH]; [by apply elem_of_nil in Hin|].
    rewrite fmap_cons in Hin. simpl. case_bool_decide as Hy.
    + by rewrite filter_cons_True.
    + rewrite filter_cons_False by (intros Hp; by apply Hy, HP). apply IH.
      apply elem_of_cons in Hin as [Heq|Hin]; [congruence|done].
  - rewrite filter_app.
    replace (filter P l) with (@nil A).
    + by rewrite filter_cons_True.
    + symmetry. apply filter_none. intros y Hy Hp.
      apply Hin. rewrite <- (HP y Hp). apply list_elem_of_fmap. eauto.
Qed.

Lemma upsert_lookup (x : A) (l : list A) :
  head (filter (λ y, key y = key x) (upsert key x l)) = Some x.
Proof. by apply upsert_lookup_by. Qed.

Lemma upsert_other (x y : A) (l : list A) :
  key y ≠ key x → y ∈ upsert key x l ↔ y ∈ l.
Proof.
  intros Hne. unfold upsert. case_bool_decide.
  - rewrite list_elem_of_fmap. split.
    + intros (z & -> & Hz). by case_bool_decide; [congruence|].
    + intros Hy. exists y. split; [|done]. case_bool_decide; [congruence|done].
  - rewrite elem_of_app, list_elem_of_singleton.
    split; [intros [?| ->]; [done|by destruct Hne] | by left].
Qed.

Lemma upsert_keys (x : A) (l : list A) :
  key x ∈ key <$> l → key <$> upsert key x l = key <$> l.
Proof.
  intros Hin. unfold upsert. rewrite bool_decide_eq_true_2 by done.
  rewrite <- list_fmap_compose. apply list_fmap_ext. intros i y _. simpl.
  by case_bool_decide.
Qed.

Lemma foldl_delete_row (selected l : list A) :
  foldl (λ l x, delete_row key x l) l selected
  = filter (λ y, key y ∉ key <$> selected) l.
Proof.
  revert l. induction selected as [|x selected IH]; intros l; simpl.
  - induction l as [|y l IHl]; [done|].
    rewrite filter_cons_True by apply not_elem_of_nil. by f_equal.
  - rewrite IH. unfold delete_row. rewrite list_filter_filter.
    apply list_filter_iff. intros y. rewrite not_elem_of_cons. tauto.
Qed.

End Upsert.

(** ** Firing a reminder *)

Section FiringProperties.

Variable webpush :
  SubscriptionInfo → Payload → option string → option string → option exn.
Variable Response_bool : Response → bool.


End FiringProperties.

(** ** The subscription-gone signal *)

(** With the truth value [requests] gives a response, the guard
    [e.response and e.response.status_code == 410] is never true: a response
    whose status is 410 is itself false. *)
Lemma requests_response_never_410 (response : option Response) :
  response_is_410 requests_Response_bool response = false.
Proof.
  destruct response as [[code]|]; [|done].
  unfold response_is_410, requests_Response_bool. simpl.
  apply andb_false_iff.
  destruct (decide (code = 410%Z)) as [->|Hne].
  - left. done.
  - right. by apply bool_decide_eq_false_2.
Qed.

(** Consequently a send never deletes a row: it either leaves the session as
    it is or stamps [last_used_at] on the subscription. *)
Lemma send_push_notification_never_deletes webpush self now subscription
    title body url tag session :
  let out := send_push_notification webpush requests_Response_bool self now
                                    subscription title body url tag session in
  out = (Ok false, session)
  ∨ out = (Ok true,
           set_push_subscriptions
             (upsert PushSubscription.id (set_last_used_at (Some now) subscription))
             session).
Proof.
  pose proof (send_push_notification_cases webpush requests_Response_bool self
                now subscription title body url tag session) as H.
  simpl in *. destruct (is_configured self); [|by left].
  destruct (webpush _ _ _ _) as [[]|]; try (by left); [|by right].
  rewrite requests_response_never_410 in H. by left.
Qed.

(** C8, at the failing input. The push service answers 410 Gone, so
    [webpush] raises a [WebPushException] carrying that response; the send
    reports failure and leaves the session, and with it the subscription row,
    exactly as it was. *)
Theorem send_push_notification_410_keeps_row
    (now : datetime) (subscription : PushSubscription.t) (title body : string)
    (url tag : option string) (session : Session) :
  send_push_notification
    (λ _ _ _ _, Some (WebPushException (Some (mkResponse 410))))
    requests_Response_bool sample_push_service now subscription title body
    url tag session
  = (Ok false, session).
Proof. reflexivity. Qed.

(** ** Status machines *)


(** An occurrence status update is unguarded too: a completed occurrence can
    be set back to pending. *)
Example update_reopens_completed_occurrence :
  TodoOccurrence.status
    <$> (update_occurrence_status 1772355700000000 "alice" "occ-1"
           OccurrenceStatus.PENDING sample_session).2.(occurrences)
  = [OccurrenceStatus.PENDING].
Proof. vm_compute. reflexivity. Qed.


Lemma NoDup_key_inj {A} (key : A → ident) (l : list A) (x y : A) :
  NoDup (key <$> l) → x ∈ l → y ∈ l → key x = key y → x = y.
Proof.
  induction l as [|z l IH]; intros Hnd Hx Hy Hk; [by apply elem_of_nil in Hx|].
  rewrite fmap_cons in Hnd. apply NoDup_cons in Hnd as [Hz Hnd].
  apply elem_of_cons in Hx as [->|Hx]; apply elem_of_cons in Hy as [->|Hy].
  - done.
  - destruct Hz. rewrite Hk. apply list_elem_of_fmap. eauto.
  - destruct Hz. rewrite <- Hk. apply list_elem_of_fmap. eauto.
  - by apply IH.
Qed.

Section DispatcherProperties.

Variable webpush :
  SubscriptionInfo → Payload → option string → option string → option exn.
Variable Response_bool : Response → bool.




End DispatcherProperties.


(** ** Stopping a series *)

Lemma get_todo_by_id_Some session user_id todo_id todo :
  get_todo_by_id session user_id todo_id = Some todo →
  Todo.id todo = todo_id ∧ Todo.user_id todo = user_id ∧ todo ∈ todos session.
Proof.
  intros H. apply head_Some_elem_of, list_elem_of_filter in H. tauto.
Qed.

(** C10. For a todo the caller owns, [stop_recurring] on a recurring series
    returns the todo with [is_recurring] false, no rrule and
    [recurrence_end_date] set to today, stores it, and, unless [keep_pending],
    deletes exactly the pending occurrences of the series dated after today;
    any later call finds the series stopped, changes nothing and returns the
    same todo. On a todo that is not recurring the call changes nothing and
    returns the todo. The occurrence table is assumed to have unique ids and
    to carry the owner's id on the occurrences of the series. *)
Theorem stop_recurring_stops_series
    (now : datetime) (today : date) (user_id todo_id : ident)
    (keep_pending : bool) (session : Session) (todo : Todo.t) :
  get_todo_by_id session user_id todo_id = Some todo →
  NoDup (TodoOccurrence.id <$> occurrences session) →
  (∀ o, o ∈ occurrences session → TodoOccurrence.parent_todo_id o = todo_id →
        TodoOccurrence.user_id o = user_id) →
  let out := stop_recurring now today user_id todo_id keep_pending session in
  if Todo.is_recurring todo then
    let stopped := todo_stop now today todo in
    out.1 = Ok (Some stopped)
    ∧ Todo.is_recurring stopped = false
    ∧ Todo.rrule stopped = None
    ∧ Todo.recurrence_end_date stopped = Some today
    ∧ get_todo_by_id out.2 user_id todo_id = Some stopped
    ∧ occurrences out.2
      = (if keep_pending then occurrences session
         else filter (λ o, ¬ pending_future today todo_id o) (occurrences session))
    ∧ ∀ now' today' keep_pending',
        stop_recurring now' today' user_id todo_id keep_pending' out.2
        = (Ok (Some stopped), out.2)
  else out = (Ok (Some todo), session).
Proof.
  intros Hget Hnd Hdenorm. cbv zeta.
  destruct (get_todo_by_id_Some _ _ _ _ Hget) as (Hid & Huser & Hin).
  destruct (Todo.is_recurring todo) eqn:Hrec.
  2:{ unfold stop_recurring. unfold_M. by rewrite Hget, Hrec. }
  assert (∀ s', todos s' = upsert Todo.id (todo_stop now today todo) (todos session) →
            get_todo_by_id s' user_id todo_id = Some (todo_stop now today todo))
    as Hstored.
  { intros s' Hs'. unfold get_todo_by_id. rewrite Hs'.
    apply upsert_lookup_by; [done|].
    intros y [Hy _]. simpl. congruence. }
  assert (∀ s' now' today' keep_pending',
            todos s' = upsert Todo.id (todo_stop now today todo) (todos session) →
            stop_recurring now' today' user_id todo_id keep_pending' s'
            = (Ok (Some (todo_stop now today todo)), s')) as Hagain.
  { intros s' ? ? ? Hs'. unfold stop_recurring. unfold_M.
    by rewrite (Hstored s' Hs'). }
  set (selected :=
         filter (λ o, TodoOccurrence.parent_todo_id o = todo_id
                      ∧ TodoOccurrence.user_id o = user_id
                      ∧ TodoOccurrence.status o = OccurrenceStatus.PENDING
                      ∧ (today < TodoOccurrence.occurrence_date o)%Z)
                (occurrences session)).
  assert (stop_recurring now today user_id todo_id keep_pending session
          = (Ok (Some (todo_stop now today todo)),
             set_occurrences
               (λ l, if keep_pending then l
                     else foldl (λ l occ, delete_row TodoOccurrence.id occ l) l selected)
               (set_todos (upsert Todo.id (todo_stop now today todo)) session)))
    as ->.
  { unfold stop_recurring. unfold_M. rewrite Hget, Hrec. simpl.
    destruct keep_pending; simpl; [|done]. by destruct session. }
  simpl. split; [done|]. split; [done|]. split; [done|]. split; [done|].
  split; [by apply Hstored|]. split; [|intros; by apply Hagain].
  destruct keep_pending; [done|].
  rewrite foldl_delete_row. apply filter_ext_elem. intros o Ho. split.
  - intros Hnot (Hp & Hst & Hd). apply Hnot.
    apply list_elem_of_fmap. exists o. split; [done|].
    apply list_elem_of_filter. split; [|done]. auto.
  - intros Hnot Hsel. apply Hnot.
    apply list_elem_of_fmap in Hsel as (z & Hz & Hzin).
    apply list_elem_of_filter in Hzin as [(Hp & _ & Hst & Hd) Hzin].
    assert (o = z) as -> by by eapply (NoDup_key_inj TodoOccurrence.id).
    done.
Qed.

(** The theorem on the sample series, today being day 20514: the two
    occurrences dated after today are deleted. *)
Lemma stop_recurring_stops_series_sample :
  let out := stop_recurring 1772400000000000 20514 "alice" "todo-1" false
                            sample_series_session in
  let stopped := todo_stop 1772400000000000 20514 sample_todo in
  out.1 = Ok (Some stopped)
  ∧ Todo.is_recurring stopped = false
  ∧ Todo.rrule stopped = None
  ∧ Todo.recurrence_end_date stopped = Some 20514%Z
  ∧ get_todo_by_id out.2 "alice" "todo-1" = Some stopped
  ∧ occurrences out.2
    = filter (λ o, ¬ pending_future 20514 "todo-1" o)
             (occurrences sample_series_session)
  ∧ ∀ now' today' keep_pending',
      stop_recurring now' today' "alice" "todo-1" keep_pending' out.2
      = (Ok (Some stopped), out.2).
Proof.
  apply (stop_recurring_stops_series 1772400000000000 20514 "alice" "todo-1"
           false sample_series_session sample_todo).
  - reflexivity.
  - compute_done.
  - intros o Ho _. vm_compute in Ho.
    repeat (apply elem_of_cons in Ho as [->|Ho]; [reflexivity|]).
    by apply elem_of_nil in Ho.
Defined.

Example stop_recurring_sample_deletes :
  TodoOccurrence.id
    <$> occurrences (stop_recurring 1772400000000000 20514 "alice" "todo-1" false
                                    sample_series_session).2
  = ["occ-1"; "occ-2"].
Proof. vm_compute. reflexivity. Qed.

(** ** Recurrence evaluator *)

(** What the loop of [generate_occurrences] adds to its accumulator is a
    subsequence of the dates of the rule, all inside the window. *)
Lemma collect_occurrences_extends rule window_start window_end max_occurrences acc :
  ∃ extra,
    collect_occurrences rule window_start window_end max_occurrences acc
    = acc ++ extra
    ∧ extra `sublist_of` (Datetime.date_of <$> rule)
    ∧ Forall (λ d, window_start ≤ d ≤ window_end)%Z extra.
Proof.
  revert acc. induction rule as [|dt rest IH]; intros acc; cbn [collect_occurrences].
  - exists []. rewrite app_nil_r. by repeat split.
  - case_bool_decide as Hend.
    { exists []. rewrite app_nil_r. split; [done|]. split; [apply sublist_nil_l|done]. }
    destruct (bool_decide (window_start ≤ Datetime.date_of dt)%Z) eqn:Hstart;
      cbv beta iota zeta.
    + apply bool_decide_eq_true in Hstart. case_bool_decide as Hmax.
      * exists [Datetime.date_of dt]. split; [done|]. split.
        -- apply sublist_skip, sublist_nil_l.
        -- repeat constructor; lia.
      * destruct (IH (acc ++ [Datetime.date_of dt])) as (extra & -> & Hsub & Hwin).
        exists (Datetime.date_of dt :: extra). rewrite <- app_assoc.
        split; [done|]. split.
        -- by apply sublist_skip.
        -- constructor; [lia|done].
    + apply bool_decide_eq_false in Hstart. case_bool_decide as Hmax.
      * exists []. rewrite app_nil_r. split; [done|]. split; [apply sublist_nil_l|done].
      * destruct (IH acc) as (extra & -> & Hsub & Hwin).
        exists extra. split; [done|]. split; [by apply sublist_cons|done].
Qed.

(** While the accumulator is below a cap the loop never goes over the cap. *)
Lemma collect_occurrences_length rule window_start window_end max_occurrences acc :
  (Z.of_nat (length acc) < max_occurrences)%Z →
  (Z.of_nat (length (collect_occurrences rule window_start window_end
                                         max_occurrences acc))
   ≤ max_occurrences)%Z.
Proof.
  revert acc. induction rule as [|dt rest IH]; intros acc Hacc;
    cbn [collect_occurrences]; [lia|].
  case_bool_decide as Hend; [lia|].
  destruct (bool_decide (window_start ≤ Datetime.date_of dt)%Z);
    cbv beta iota zeta.
  - case_bool_decide as Hmax.
    + rewrite length_app. simpl. lia.
    + apply IH. lia.
  - case_bool_decide as Hmax; [lia|]. by apply IH.
Qed.

Lemma StronglySorted_sublist {A} (R : relation A) (l1 l2 : list A) :
  l1 `sublist_of` l2 → StronglySorted R l2 → StronglySorted R l1.
Proof.
  induction 1 as [|x l1 l2 Hsub IH|x l1 l2 Hsub IH]; intros Hs; [done|..].
  - apply StronglySorted_cons in Hs as [Hx Hs].
    apply StronglySorted_cons. split; [|by apply IH].
    apply Forall_forall. intros y Hy.
    by eapply Forall_forall, elem_of_sublist.
  - apply StronglySorted_cons in Hs as [_ Hs]. by apply IH.
Qed.

Lemma date_of_mono (a b : datetime) :
  (a ≤ b)%Z → (Datetime.date_of a ≤ Datetime.date_of b)%Z.
Proof. intros H. unfold Datetime.date_of. by apply Z.div_le_mono. Qed.


Section RecurrenceProperties.

Variable rrulestr : string → option datetime → Result (list datetime).

(** With a cap of at least one (30 when the caller gives none), on a rule
    that parses and iterates in chronological order, [generate_occurrences]
    returns at most cap dates, all inside the window, in non-decreasing
    order. *)
Lemma generate_occurrences_bounds rrule_str start_date window_start window_end
    max_occurrences rule :
  parse_rule rrulestr rrule_str (Datetime.combine_min start_date) = Ok rule →
  StronglySorted Z.le rule →
  (1 ≤ default 30 max_occurrences)%Z →
  ∃ dates,
    generate_occurrences rrulestr rrule_str start_date window_start window_end
                         max_occurrences = Ok dates
    ∧ (Z.of_nat (length dates) ≤ default 30 max_occurrences)%Z
    ∧ Forall (λ d, default start_date window_start ≤ d
                   ≤ default (default start_date window_start + 30) window_end)%Z
             dates
    ∧ StronglySorted Z.le dates.
Proof.
  intros Hparse Hsorted Hcap. unfold generate_occurrences. rewrite Hparse.
  eexists. split; [done|].
  destruct (collect_occurrences_extends rule (default start_date window_start)
              (default (default start_date window_start + 30)%Z window_end)
              (default 30%Z max_occurrences) [])
    as (extra & Heq & Hsub & Hwin).
  split; [apply collect_occurrences_length; simpl; lia|].
  rewrite Heq. simpl. split; [done|].
  eapply StronglySorted_sublist; [done|].
  eapply StronglySorted_fmap; [|done]. apply date_of_mono.
Qed.


End RecurrenceProperties.


(** The seed scenario of a weekly rule: the occurrences inside 30 days. *)
Example generate_occurrences_weekly :
  generate_occurrences sample_rrulestr "FREQ=WEEKLY" 20458 None None None
  = Ok [20458; 20465; 20472; 20479; 20486]%Z.
Proof. vm_compute. reflexivity. Qed.


(** The window also ends 365 days after the reference date: a rule whose next
    occurrence is two years away yields [None] although it is not exhausted. *)
Example get_next_occurrence_beyond_a_year :
  get_next_occurrence sample_rrulestr 20458 "FREQ=YEARLY;INTERVAL=2" 20458
                      (Some 20459%Z)
  = Ok None.
Proof. vm_compute. reflexivity. Qed.


(** ** Topping up the occurrences of a series *)

Lemma occurrence_rows_elem ids now user_id todo_id dates o :
  o ∈ occurrence_rows ids now user_id todo_id dates →
  TodoOccurrence.parent_todo_id o = todo_id
  ∧ TodoOccurrence.user_id o = user_id
  ∧ TodoOccurrence.status o = OccurrenceStatus.PENDING
  ∧ TodoOccurrence.occurrence_date o ∈ dates.
Proof.
  intros Ho. apply elem_of_lookup_imap_1 in Ho as (i & d & -> & Hd). simpl.
  repeat split. by eapply list_elem_of_lookup_2.
Qed.

Lemma occurrence_rows_date ids now user_id todo_id dates d :
  d ∈ dates →
  ∃ o, o ∈ occurrence_rows ids now user_id todo_id dates
       ∧ TodoOccurrence.parent_todo_id o = todo_id
       ∧ TodoOccurrence.occurrence_date o = d.
Proof.
  intros Hd. apply list_elem_of_lookup_1 in Hd as [i Hi].
  eexists. split; [by eapply elem_of_lookup_imap_2|]. done.
Qed.

Lemma existing_dates_of_elem session todo_id d :
  d ∈ existing_dates_of session todo_id ↔
  ∃ o, o ∈ occurrences session ∧ TodoOccurrence.parent_todo_id o = todo_id
       ∧ TodoOccurrence.occurrence_date o = d.
Proof.
  unfold existing_dates_of. rewrite list_elem_of_fmap. split.
  - intros (o & -> & Ho). apply list_elem_of_filter in Ho as [Hp Ho]. eauto.
  - intros (o & Ho & Hp & <-). exists o. split; [done|].
    by apply list_elem_of_filter.
Qed.

Section TopUpProperties.

Variable rrulestr : string → option datetime → Result (list datetime).

(** [_generate_occurrences] as one expression over the session. *)
Lemma _generate_occurrences_unfold ids now user_id todo_id rrule start_date
    max_occurrences session :
  _generate_occurrences rrulestr ids now user_id todo_id rrule start_date
                        max_occurrences session
  = match generate_occurrences rrulestr rrule start_date (Some start_date) None
            (Some (default 30%Z max_occurrences)) with
    | Raise e => (Raise e, session)
    | Ok occurrence_dates =>
        let added :=
          occurrence_rows ids now user_id todo_id
            (filter (λ d, d ∉ existing_dates_of session todo_id) occurrence_dates) in
        if bool_decide (0 < length added) then
          if bool_decide (uq_occurrence_date (occurrences session ++ added)) then
            (Ok (length added),
             match session_get_todo session todo_id with
             | Some todo =>
                 set_todos
                   (upsert Todo.id
                      (todo_add_generated (Z.of_nat (length added)) todo))
                   (set_occurrences (λ l, l ++ added) session)
             | None => set_occurrences (λ l, l ++ added) session
             end)
          else (Raise (IntegrityError "uq_occurrence_date"), session)
        else (Ok (length added), session)
    end.
Proof.
  unfold _generate_occurrences, bind, get_session.
  destruct (generate_occurrences _ _ _ _ _ _) as [occurrence_dates|e]; [|done].
  fold (existing_dates_of session todo_id).
  assert (filter (λ d, d ∉ (list_to_set (existing_dates_of session todo_id) : gset Z))
                 occurrence_dates
          = filter (λ d, d ∉ existing_dates_of session todo_id) occurrence_dates)
    as ->.
  { apply list_filter_iff. intros d. by rewrite elem_of_list_to_set. }
  fold (occurrence_rows ids now user_id todo_id
          (filter (λ d, d ∉ existing_dates_of session todo_id) occurrence_dates)).
  cbv zeta.
  destruct (bool_decide (0 < length _)); [|done].
  destruct (bool_decide (uq_occurrence_date _)); [|done].
  unfold modify, ret. by destruct (session_get_todo session todo_id).
Qed.

(** A second top-up of a store that already holds every enumerated date
    writes nothing. *)
Lemma _generate_occurrences_nothing_new ids now user_id todo_id rrule start_date
    max_occurrences session occurrence_dates :
  generate_occurrences rrulestr rrule start_date (Some start_date) None
    (Some (default 30%Z max_occurrences)) = Ok occurrence_dates →
  (∀ d, d ∈ occurrence_dates → d ∈ existing_dates_of session todo_id) →
  _generate_occurrences rrulestr ids now user_id todo_id rrule start_date
                        max_occurrences session = (Ok 0, session).
Proof.
  intros Hgen Hall. rewrite _generate_occurrences_unfold, Hgen. cbv zeta.
  rewrite (filter_none _ occurrence_dates); [done|].
  intros d Hd Hnot. by apply Hnot, Hall.
Qed.

(** C3. On a store that satisfies the unique constraint on (parent todo id,
    occurrence date), a top-up that returns has inserted one pending row of
    the series for each enumerated date that was not in the store yet and for
    no date that was, returns their number, and leaves the constraint
    satisfied; running the same top-up again on the result inserts nothing
    and returns 0. A top-up that raises stores nothing. *)
Theorem _generate_occurrences_idempotent
    (ids ids' : nat → ident) (now now' : datetime) (user_id todo_id : ident)
    (rrule : string) (start_date : date) (max_occurrences : option Z)
    (session : Session) :
  uq_occurrence_date (occurrences session) →
  match _generate_occurrences rrulestr ids now user_id todo_id rrule start_date
                              max_occurrences session with
  | (Ok created, session') =>
      uq_occurrence_date (occurrences session')
      ∧ (∃ added,
           occurrences session' = occurrences session ++ added
           ∧ length added = created
           ∧ ∀ o, o ∈ added →
                  TodoOccurrence.parent_todo_id o = todo_id
                  ∧ TodoOccurrence.status o = OccurrenceStatus.PENDING
                  ∧ TodoOccurrence.occurrence_date o
                    ∉ existing_dates_of session todo_id)
      ∧ _generate_occurrences rrulestr ids' now' user_id todo_id rrule start_date
                              max_occurrences session'
        = (Ok 0, session')
  | (Raise e, session') => session' = session
  end.
Proof.
  intros Huq. rewrite _generate_occurrences_unfold.
  destruct (generate_occurrences _ _ _ _ _ _) as [occurrence_dates|e] eqn:Hgen;
    [|done].
  cbv zeta.
  set (fresh := filter (λ d, d ∉ existing_dates_of session todo_id) occurrence_dates).
  set (added := occurrence_rows ids now user_id todo_id fresh).
  assert (∀ o, o ∈ added →
               TodoOccurrence.parent_todo_id o = todo_id
               ∧ TodoOccurrence.status o = OccurrenceStatus.PENDING
               ∧ TodoOccurrence.occurrence_date o
                 ∉ existing_dates_of session todo_id) as Hadded.
  { intros o Ho. apply occurrence_rows_elem in Ho as (? & ? & ? & Hd).
    apply list_elem_of_filter in Hd as [Hd _]. done. }
  case_bool_decide as Hlen.
  - case_bool_decide as Hcommit; [|done].
    set (session' := match session_get_todo session todo_id with
                     | Some _ => _
                     | None => _
                     end).
    assert (occurrences session' = occurrences session ++ added) as Hocc.
    { subst session'. by destruct (session_get_todo session todo_id). }
    split; [by rewrite Hocc|]. split; [by exists added|].
    eapply _generate_occurrences_nothing_new; [done|].
    intros d Hd. apply existing_dates_of_elem. rewrite Hocc.
    destruct (decide (d ∈ existing_dates_of session todo_id)) as [Hold|Hnew].
    + apply existing_dates_of_elem in Hold as (o & Ho & Hp & Hdate).
      exists o. rewrite elem_of_app. auto.
    + destruct (occurrence_rows_date ids now user_id todo_id fresh d)
        as (o & Ho & Hp & Hdate).
      { apply list_elem_of_filter. by split. }
      exists o. rewrite elem_of_app. auto.
  - assert (fresh = []) as Hnone.
    { unfold added, occurrence_rows in Hlen. rewrite length_imap in Hlen.
      destruct fresh; [done|simpl in Hlen; lia]. }
    split; [done|]. split.
    + exists added. unfold added. rewrite Hnone. simpl.
      split; [by rewrite app_nil_r|]. split; [done|].
      intros o Ho. by apply elem_of_nil in Ho.
    + eapply _generate_occurrences_nothing_new; [done|].
      intros d Hd.
      destruct (decide (d ∈ existing_dates_of session todo_id)) as [Hold|Hnew];
        [done|].
      assert (d ∈ fresh) as Hin by (apply list_elem_of_filter; by split).
      rewrite Hnone in Hin. by apply elem_of_nil in Hin.
Qed.

(** The top-up does return when the evaluator returns dates without
    repetition: the rows it builds then cannot break the constraint. *)
Lemma _generate_occurrences_commits ids now user_id todo_id rrule start_date
    max_occurrences session occurrence_dates :
  generate_occurrences rrulestr rrule start_date (Some start_date) None
    (Some (default 30%Z max_occurrences)) = Ok occurrence_dates →
  NoDup occurrence_dates →
  uq_occurrence_date (occurrences session) →
  ∃ created session',
    _generate_occurrences rrulestr ids now user_id todo_id rrule start_date
                          max_occurrences session = (Ok created, session').
Proof.
  intros Hgen Hnd Huq. rewrite _generate_occurrences_unfold, Hgen. cbv zeta.
  set (fresh := filter (λ d, d ∉ existing_dates_of session todo_id) occurrence_dates).
  case_bool_decide as Hlen; [|eauto].
  rewrite bool_decide_eq_true_2; [eauto|].
  unfold uq_occurrence_date. rewrite fmap_app. apply NoDup_app.
  split; [done|]. split.
  - intros key Hold Hnew.
    apply list_elem_of_fmap in Hold as (o & -> & Ho).
    apply list_elem_of_fmap in Hnew as (o' & Hkey & Ho').
    apply occurrence_rows_elem in Ho' as (Hp & _ & _ & Hd).
    apply list_elem_of_filter in Hd as [Hd _]. apply Hd.
    injection Hkey as Hp' Hd'. rewrite <- Hd'.
    apply existing_dates_of_elem. exists o. split; [done|]. split; congruence.
  - unfold occurrence_rows. rewrite fmap_imap.
    rewrite (imap_ext _ (const (λ d, (todo_id, d)))) by done.
    rewrite imap_const. apply NoDup_fmap_2; [|by apply NoDup_filter].
    intros ? ? [= ->]. done.
Qed.

End TopUpProperties.

(** The theorem on the sample series: a daily rule enumerated from day 20514
    with a cap of five meets three dates the store has and adds two. *)
Lemma _generate_occurrences_idempotent_sample :
  match _generate_occurrences sample_rrulestr sample_ids 1772400000000000
          "alice" "todo-1" "FREQ=DAILY" 20514 (Some 5%Z) sample_series_session with
  | (Ok created, session') =>
      uq_occurrence_date (occurrences session')
      ∧ (∃ added,
           occurrences session' = occurrences sample_series_session ++ added
           ∧ length added = created
           ∧ ∀ o, o ∈ added →
                  TodoOccurrence.parent_todo_id o = "todo-1"
                  ∧ TodoOccurrence.status o = OccurrenceStatus.PENDING
                  ∧ TodoOccurrence.occurrence_date o
                    ∉ existing_dates_of sample_series_session "todo-1")
      ∧ _generate_occurrences sample_rrulestr sample_ids 1772500000000000
          "alice" "todo-1" "FREQ=DAILY" 20514 (Some 5%Z) session'
        = (Ok 0, session')
  | (Raise e, session') => session' = sample_series_session
  end.
Proof.
  apply (_generate_occurrences_idempotent sample_rrulestr sample_ids sample_ids
           1772400000000000 1772500000000000 "alice" "todo-1" "FREQ=DAILY" 20514
           (Some 5%Z) sample_series_session).
  compute_done.
Defined.

Example _generate_occurrences_sample_run :
  let out := _generate_occurrences sample_rrulestr sample_ids 1772400000000000
               "alice" "todo-1" "FREQ=DAILY" 20514 (Some 5%Z) sample_series_session in
  out.1 = Ok 2
  ∧ TodoOccurrence.occurrence_date <$> occurrences out.2
    = [20513; 20514; 20515; 20516; 20517; 20518]%Z
  ∧ Todo.occurrences_generated <$> todos out.2 = [2%Z].
Proof. vm_compute. done. Qed.

(** ** Daily digest *)

(** C7, counterexample. The tick of 01:00 UTC of day 20514 is 14:00 of the
    same day in Auckland. The user has a digest from 08:00 of that local day,
    but it was created before 00:00 UTC of day 20514, the instant
    [_already_sent_today] compares with, so a second digest is created. *)
Lemma digest_repeated_within_local_day :
  ¬ skips_when_sent_since_local_midnight sample_ZoneInfo.
Proof.
  intros H.
  specialize (H sample_ids 1772413200000000%Z 20514%Z sample_digest_session
                sample_digest_prefs (λ _, 13 * Datetime.usec_per_hour)%Z
                sample_digest_notification).
  assert (length (digests_of
                    (process_daily_digests sample_ZoneInfo sample_ids
                       1772413200000000 20514 sample_digest_session).2 "bob")
          = length (digests_of sample_digest_session "bob")) as Hlen.
  { f_equal. apply H.
    - vm_compute. left.
    - reflexivity.
    - vm_compute. left.
    - vm_compute. discriminate. }
  vm_compute in Hlen. discriminate.
Qed.

Lemma _already_sent_today_true session today user_id :
  _already_sent_today session today user_id = true ↔
  ∃ n, n ∈ notifications session
       ∧ Notification.user_id n = user_id
       ∧ Notification.type n = NotificationType.DAILY_DIGEST
       ∧ (Datetime.combine_min today ≤ Notification.created_at n)%Z.
Proof.
  unfold _already_sent_today. cbv zeta.
  destruct (head _) as [n|] eqn:Hhead.
  - split; [intros _|done].
    apply head_Some_elem_of, list_elem_of_filter in Hhead as [(?&?&?) ?]. eauto.
  - split; [done|]. intros (n & Hn & Hu & Ht & Hc).
    apply head_None in Hhead.
    assert (n ∈ @nil Notification.t) as Hin; [|by apply elem_of_nil in Hin].
    rewrite <- Hhead. by apply list_elem_of_filter.
Qed.

Lemma set_notifications_nil session :
  set_notifications (λ l, l ++ []) session = session.
Proof. destruct session. unfold set_notifications. simpl. by rewrite app_nil_r. Qed.

Lemma set_notifications_app session a b :
  set_notifications (λ l, l ++ b) (set_notifications (λ l, l ++ a) session)
  = set_notifications (λ l, l ++ (a ++ b)) session.
Proof. destruct session. unfold set_notifications. simpl. by rewrite app_assoc. Qed.

Lemma _send_digest_effect new_id now today user_id user_timezone session :
  ∃ title body,
    _send_digest new_id now today user_id user_timezone session
    = (Ok true,
       set_notifications
         (λ l, l ++ [Notification.mk new_id user_id NotificationType.DAILY_DIGEST
                       title (Some body) None None false now])
         session).
Proof.
  unfold _send_digest. unfold bind at 1. unfold get_session.
  destruct (if bool_decide _ then _ else _) as [title body].
  exists title, body. reflexivity.
Qed.

Lemma NoDup_key_filter_length {A} (key : A → ident) (P : A → Prop)
    `{!∀ x, Decision (P x)} (k : ident) (l : list A) :
  NoDup (key <$> l) → length (filter (λ x, key x = k ∧ P x) l) ≤ 1.
Proof.
  induction l as [|y l IH]; intros Hnd; [simpl; lia|].
  rewrite fmap_cons in Hnd. apply NoDup_cons in Hnd as [Hy Hnd].
  destruct (decide (key y = k ∧ P y)) as [[Hk Hp]|Hno].
  - rewrite filter_cons_True by done.
    rewrite (filter_none _ l); [simpl; lia|].
    intros x Hx [Hkx _]. apply Hy. rewrite Hk, <- Hkx.
    apply list_elem_of_fmap. eauto.
  - rewrite filter_cons_False by done. by apply IH.
Qed.

Section DigestProperties.

Variable ZoneInfo : string → option (datetime → Z).

(** What one pass over the preferences adds: digests created now, each for
    a user of the list at whose local hour it is digest time and who had no
    digest since 00:00 UTC of the server's date; and no user twice. *)
Lemma digest_each_effect ids now_utc today prefs_list k sent_count session :
  ∃ count added,
    digest_each ZoneInfo ids now_utc today prefs_list k sent_count session
    = (Ok count, set_notifications (λ l, l ++ added) session)
    ∧ (∀ n, n ∈ added →
         Notification.type n = NotificationType.DAILY_DIGEST
         ∧ Notification.created_at n = now_utc
         ∧ _already_sent_today session today (Notification.user_id n) = false
         ∧ ∃ prefs, prefs ∈ prefs_list
                    ∧ Notification.user_id n = UserPreferences.user_id prefs
                    ∧ _is_digest_time ZoneInfo prefs now_utc = true)
    ∧ ((Datetime.combine_min today ≤ now_utc)%Z →
       NoDup (Notification.user_id <$> added)).
Proof.
  revert k sent_count session.
  induction prefs_list as [|prefs rest IH]; intros k sent_count session;
    cbn [digest_each].
  { exists sent_count, []. rewrite set_notifications_nil.
    split; [done|]. split; [|intros; apply NoDup_nil_2].
    intros n Hn. by apply elem_of_nil in Hn. }
  assert (∀ c, ∃ count added,
            digest_each ZoneInfo ids now_utc today rest (S k) c session
            = (Ok count, set_notifications (λ l, l ++ added) session)
            ∧ (∀ n, n ∈ added →
                 Notification.type n = NotificationType.DAILY_DIGEST
                 ∧ Notification.created_at n = now_utc
                 ∧ _already_sent_today session today (Notification.user_id n) = false
                 ∧ ∃ p, p ∈ prefs :: rest
                        ∧ Notification.user_id n = UserPreferences.user_id p
                        ∧ _is_digest_time ZoneInfo p now_utc = true)
            ∧ ((Datetime.combine_min today ≤ now_utc)%Z →
               NoDup (Notification.user_id <$> added))) as Hskip.
  { intros c. destruct (IH (S k) c session) as (count & added & Hrun & Hadd & Hnd).
    exists count, added. split; [done|]. split; [|done].
    intros n Hn. destruct (Hadd n Hn) as (? & ? & ? & p & ? & ? & ?).
    repeat split; try done. exists p. split; [by right|done]. }
  unfold bind at 1. unfold try_except.
  destruct (_is_digest_time ZoneInfo prefs now_utc) eqn:Htime;
    [|unfold ret at 1; apply Hskip].
  unfold bind at 1. unfold get_session.
  destruct (_already_sent_today session today (UserPreferences.user_id prefs))
    eqn:Hsent; [unfold ret at 1; apply Hskip|].
  destruct (_send_digest_effect (ids k) now_utc today (UserPreferences.user_id prefs)
              (UserPreferences.timezone prefs) session) as (title & body & Hsend).
  unfold bind at 1. rewrite Hsend. unfold ret at 1.
  set (n1 := Notification.mk _ _ _ _ _ _ _ _ _).
  destruct (IH (S k) (S sent_count) (set_notifications (λ l, l ++ [n1]) session))
    as (count & added & Hrun & Hadd & Hnd).
  exists count, (n1 :: added). rewrite Hrun.
  split; [by rewrite set_notifications_app|]. split.
  - intros n Hn. apply elem_of_cons in Hn as [->|Hn].
    + repeat split; try done. exists prefs. split; [by left|done].
    + destruct (Hadd n Hn) as (Hty & Hcr & Hnot & p & Hp & Hu & Ht).
      repeat split; try done.
      * destruct (_already_sent_today session today (Notification.user_id n))
          eqn:Hold; [|done].
        apply _already_sent_today_true in Hold as (m & Hm & ? & ? & ?).
        assert (_already_sent_today (set_notifications (λ l, l ++ [n1]) session)
                  today (Notification.user_id n) = true) as Hnow; [|congruence].
        apply _already_sent_today_true. exists m. simpl.
        rewrite elem_of_app. auto.
      * exists p. split; [by right|done].
  - intros Hclock. rewrite fmap_cons. apply NoDup_cons. split; [|by apply Hnd].
    intros Hin. apply list_elem_of_fmap in Hin as (n & Hu & Hn).
    destruct (Hadd n Hn) as (_ & _ & Hnot & _).
    assert (_already_sent_today (set_notifications (λ l, l ++ [n1]) session)
              today (Notification.user_id n) = true) as Hnow; [|congruence].
    apply _already_sent_today_true. exists n1. simpl.
    rewrite elem_of_app, list_elem_of_singleton. split; [by right|].
    split; [done|]. split; [done|]. done.
Qed.

Lemma _is_digest_time_true prefs now_utc :
  _is_digest_time ZoneInfo prefs now_utc = true →
  ∃ utcoffset digest_time,
    UserPreferences.daily_digest_time prefs = Some digest_time
    ∧ ZoneInfo (UserPreferences.timezone prefs) = Some utcoffset
    ∧ (Datetime.hour_of (now_utc + utcoffset now_utc)
       = digest_time / Datetime.usec_per_hour)%Z.
Proof.
  unfold _is_digest_time.
  destruct (UserPreferences.daily_digest_time prefs) as [digest_time|]; [|done].
  destruct (ZoneInfo (UserPreferences.timezone prefs)) as [utcoffset|]; [|done].
  intros H. apply bool_decide_eq_true in H. eauto.
Qed.

(** C7, as amended. A tick of the digest job returns and adds digest
    notifications only: each for a user with digest enabled and a digest time
    whose hour equals the local hour of the tick in the user's zone, and only
    when the user has no digest created at or after 00:00 UTC of the server's
    current date. Hence, over ticks that share the server's date and are not
    before that midnight, a user who has at most one digest since that
    midnight still has at most one after the tick. *)
Theorem process_daily_digests_once_per_server_day
    (ids : nat → ident) (now_utc : datetime) (today : date) (session : Session) :
  ∃ sent_count added,
    process_daily_digests ZoneInfo ids now_utc today session
    = (Ok sent_count, set_notifications (λ l, l ++ added) session)
    ∧ (∀ n, n ∈ added →
         Notification.type n = NotificationType.DAILY_DIGEST
         ∧ Notification.created_at n = now_utc
         ∧ digests_since session today (Notification.user_id n) = []
         ∧ ∃ prefs utcoffset digest_time,
             prefs ∈ user_preferences session
             ∧ Notification.user_id n = UserPreferences.user_id prefs
             ∧ UserPreferences.daily_digest_enabled prefs = true
             ∧ UserPreferences.daily_digest_time prefs = Some digest_time
             ∧ ZoneInfo (UserPreferences.timezone prefs) = Some utcoffset
             ∧ (Datetime.hour_of (now_utc + utcoffset now_utc)
                = digest_time / Datetime.usec_per_hour)%Z)
    ∧ ((Datetime.combine_min today ≤ now_utc)%Z →
       ∀ user_id,
         length (digests_since session today user_id) ≤ 1 →
         length (digests_since (set_notifications (λ l, l ++ added) session)
                               today user_id) ≤ 1).
Proof.
  unfold process_daily_digests. unfold bind at 1. unfold get_session.
  set (prefs_list := filter _ (user_preferences session)).
  destruct (digest_each_effect ids now_utc today prefs_list 0 0 session)
    as (count & added & Hrun & Hadd & Hnd).
  exists count, added. split; [done|].
  assert (∀ n, n ∈ added →
            digests_since session today (Notification.user_id n) = []) as Hnone.
  { intros n Hn. destruct (Hadd n Hn) as (_ & _ & Hnot & _).
    apply filter_none. intros m Hm (Hu & Ht & Hc).
    assert (_already_sent_today session today (Notification.user_id n) = true)
      as Hyes; [|congruence].
    apply _already_sent_today_true. eauto. }
  split.
  - intros n Hn. destruct (Hadd n Hn) as (Hty & Hcr & _ & prefs & Hp & Hu & Ht).
    split; [done|]. split; [done|]. split; [by apply Hnone|].
    apply list_elem_of_filter in Hp as [[Hen _] Hp].
    destruct (_is_digest_time_true prefs now_utc Ht) as (utcoffset & dt & ? & ? & ?).
    exists prefs, utcoffset, dt. done.
  - intros Hclock user_id Hone. specialize (Hnd Hclock).
    unfold digests_since in *. simpl. rewrite filter_app, length_app.
    destruct (filter _ (notifications session)) as [|m old] eqn:Hold.
    + simpl. by apply (NoDup_key_filter_length Notification.user_id).
    + rewrite (filter_none _ added); [simpl in *; lia|].
      intros n Hn (Hu & _). specialize (Hnone n Hn).
      rewrite Hu in Hnone. unfold digests_since in Hnone. congruence.
Qed.

End DigestProperties.

(** On the sample zone table: a user in Karachi with digest hour 8 and no
    task due gets the quiet-day digest at the tick of 03:00 UTC, and nothing
    at the next tick. *)
Example process_daily_digests_quiet_day :
  let prefs := UserPreferences.mk "prefs-2" "carol" "Asia/Karachi" None true true
                                  (Some 28800000000%Z) in
  let session := mkSession [] [] [] [] [] [] [] [prefs] in
  let first := process_daily_digests sample_ZoneInfo sample_ids
                 1772420400000000 20514 session in
  let second := process_daily_digests sample_ZoneInfo sample_ids
                  1772424000000000 20514 first.2 in
  first.1 = Ok 1
  ∧ Notification.title <$> notifications first.2
    = ["Daily Digest: No tasks due today"]
  ∧ second = (Ok 0, first.2).
Proof. vm_compute. done. Qed.

(** ** Editing one occurrence of a series *)

Lemma set_todo_tags_nil session :
  set_todo_tags (λ l, l ++ []) session = session.
Proof. destruct session. unfold set_todo_tags. simpl. by rewrite app_nil_r. Qed.

Lemma set_todo_tags_app session a b :
  set_todo_tags (λ l, l ++ b) (set_todo_tags (λ l, l ++ a) session)
  = set_todo_tags (λ l, l ++ (a ++ b)) session.
Proof. destruct session. unfold set_todo_tags. simpl. by rewrite app_assoc. Qed.

(** [_assign_tags] adds one association for each listed tag the user owns,
    in order, and nothing else. *)
Lemma _assign_tags_effect user_id todo_id tag_ids session :
  _assign_tags user_id todo_id tag_ids session
  = (Ok tt,
     set_todo_tags
       (λ l, l ++ (TodoTag.mk todo_id <$> filter (tag_owned session user_id) tag_ids))
       session).
Proof.
  unfold _assign_tags. revert session.
  induction tag_ids as [|tag_id rest IH]; intros session; cbn [assign_each].
  - simpl. by rewrite set_todo_tags_nil.
  - unfold bind at 1. unfold get_session.
    destruct (head (filter (λ t, Tag.id t = tag_id ∧ Tag.user_id t = user_id)
                           (tags session))) as [tag|] eqn:Htag.
    + unfold bind at 1. unfold modify at 1. rewrite IH.
      rewrite set_todo_tags_app.
      rewrite filter_cons_True by (unfold tag_owned; rewrite Htag; eauto).
      reflexivity.
    + rewrite IH.
      rewrite filter_cons_False; [done|].
      unfold tag_owned. rewrite Htag. by intros [? ?].
Qed.

Lemma filter_all {A} (P : A → Prop) `{!∀ x, Decision (P x)} (l : list A) :
  (∀ x, x ∈ l → P x) → filter P l = l.
Proof.
  induction l as [|y l IH]; intros Hl; [done|].
  rewrite filter_cons_True by (apply Hl; left).
  f_equal. apply IH. intros x Hx. apply Hl. by right.
Qed.


Section EditProperties.

Variable rrulestr : string → option datetime → Result (list datetime).

(** A top-up after a change of status appends occurrences, may bump the
    counter of the head, and touches nothing else that the edit reads. *)
Lemma _ensure_future_occurrences_effect ids now today user_id todo_id min_future
    session :
  ∃ r added session',
    _ensure_future_occurrences rrulestr ids now today user_id todo_id min_future
                               session = (r, session')
    ∧ occurrences session' = occurrences session ++ added
    ∧ todo_tags session' = todo_tags session
    ∧ (todos session' = todos session
       ∨ ∃ n head,
           session_get_todo session todo_id = Some head
           ∧ todos session'
             = upsert Todo.id (todo_add_generated n head) (todos session)).
Proof.
  assert (∃ r added session',
            (Ok 0, session) = (r : Result nat, session')
            ∧ occurrences session' = occurrences session ++ added
            ∧ todo_tags session' = todo_tags session
            ∧ (todos session' = todos session
               ∨ ∃ n head,
                   session_get_todo session todo_id = Some head
                   ∧ todos session'
                     = upsert Todo.id (todo_add_generated n head) (todos session)))
    as Hnothing.
  { exists (Ok 0), [], session. rewrite app_nil_r. auto. }
  unfold _ensure_future_occurrences. cbv zeta. unfold bind at 1. unfold get_session.
  destruct (get_todo_by_id session user_id todo_id) as [todo|]; [|done].
  destruct (negb (Todo.is_recurring todo) || negb (truthy (Todo.rrule todo)));
    [done|].
  case_bool_decide; [done|].
  destruct (match head _ with Some d => Some d | None => Todo.due_date todo end)
    as [start_from|]; [|done].
  rewrite _generate_occurrences_unfold.
  destruct (generate_occurrences _ _ _ _ _ _) as [dates|e].
  2:{ exists (Raise e), [], session. rewrite app_nil_r. auto. }
  cbv zeta. set (added := occurrence_rows _ _ _ _ _).
  case_bool_decide.
  2:{ exists (Ok (length added)), [], session. rewrite app_nil_r. auto. }
  case_bool_decide.
  2:{ eexists _, [], session. rewrite app_nil_r. auto. }
  destruct (session_get_todo session todo_id) as [head|] eqn:Hhead.
  - eexists _, added, _. split; [done|]. simpl. repeat split. right. eauto.
  - eexists _, added, _. split; [done|]. simpl. repeat split. by left.
Qed.



End EditProperties.



(** The seed scenario of a this-only edit, run: the new todo carries the new
    title and today's date and the tag of the head, today's occurrence of the
    head is skipped, the window is topped up, and the head is still
    recurring. *)
Example _update_this_only_sample_run :
  let out := _update_this_only sample_rrulestr "todo-2" sample_ids
               1772400000000000 20514 "alice" sample_todo sample_patch
               sample_edit_session in
  (match out.1 with
   | Ok t => Some (Todo.title t, Todo.due_date t, Todo.is_recurring t)
   | Raise _ => None
   end) = Some ("Doctor - rescheduled", Some 20514%Z, false)
  ∧ todo_tags out.2
    = [TodoTag.mk "todo-1" "tag-1"; TodoTag.mk "todo-2" "tag-1"]
  ∧ (λ o, (TodoOccurrence.occurrence_date o, TodoOccurrence.status o))
      <$> occurrences out.2
    = [(20513%Z, OccurrenceStatus.COMPLETED); (20514%Z, OccurrenceStatus.SKIPPED);
       (20515%Z, OccurrenceStatus.PENDING); (20516%Z, OccurrenceStatus.PENDING);
       (20517%Z, OccurrenceStatus.PENDING); (20518%Z, OccurrenceStatus.PENDING);
       (20519%Z, OccurrenceStatus.PENDING); (20520%Z, OccurrenceStatus.PENDING);
       (20521%Z, OccurrenceStatus.PENDING); (20522%Z, OccurrenceStatus.PENDING);
       (20523%Z, OccurrenceStatus.PENDING); (20524%Z, OccurrenceStatus.PENDING);
       (20525%Z, OccurrenceStatus.PENDING); (20526%Z, OccurrenceStatus.PENDING)]
  ∧ Todo.is_recurring <$> todos out.2 = [true; false].
Proof. vm_compute. done. Qed.

(** * Properties of the further services *)

(** ** Strings *)

Lemma str_contains_app c a b :
  str_contains c (a +:+ b) = str_contains c a || str_contains c b.
Proof.
  induction a as [|x a IH]; simpl; [done|]. rewrite IH. by rewrite orb_assoc.
Qed.

Lemma str_split_none sep a :
  str_contains sep a = false → str_split sep a = [a].
Proof.
  induction a as [|x a IH]; simpl; [done|].
  intros [Hx Ha]%orb_false_iff. rewrite Hx. by rewrite IH.
Qed.

Lemma str_split_app sep a b :
  str_contains sep a = false →
  str_split sep (a +:+ String sep b) = a :: str_split sep b.
Proof.
  induction a as [|x a IH]; simpl.
  - intros _. by rewrite bool_decide_eq_true_2.
  - intros [Hx Ha]%orb_false_iff. rewrite Hx. by rewrite IH.
Qed.

Lemma str_split_once_app sep k v :
  str_contains sep k = false →
  str_split_once sep (k +:+ String sep v) = (k, v).
Proof.
  induction k as [|x k IH]; simpl.
  - intros _. by rewrite bool_decide_eq_true_2.
  - intros [Hx Hk]%orb_false_iff. rewrite Hx. by rewrite IH.
Qed.

Lemma str_join_cons sep x y rest :
  str_join (String sep EmptyString) (x :: y :: rest)
  = x +:+ String sep (str_join (String sep EmptyString) (y :: rest)).
Proof. done. Qed.

Lemma str_split_join sep parts :
  parts ≠ [] →
  Forall (λ part, str_contains sep part = false) parts →
  str_split sep (str_join (String sep EmptyString) parts) = parts.
Proof.
  induction parts as [|x [|y rest] IH]; intros Hne Hall; [done|..].
  - apply Forall_cons in Hall as [Hx _]. simpl. by apply str_split_none.
  - apply Forall_cons in Hall as [Hx Hall].
    rewrite str_join_cons, str_split_app by done. f_equal. by apply IH.
Qed.

(** A character that is no digit does not occur in a printed number. *)
Lemma pretty_N_go_contains c x s :
  (∀ d, pretty_N_char d ≠ c) →
  str_contains c s = false → str_contains c (pretty_N_go x s) = false.
Proof.
  intros Hc. revert s. induction (N.lt_wf_0 x) as [x _ IH]; intros s Hs.
  assert (x = 0 ∨ 0 < x)%N as [->|?] by lia.
  - by rewrite pretty_N_go_0.
  - rewrite pretty_N_go_step by done. apply IH.
    { by apply N.div_lt. }
    simpl. rewrite Hs, orb_false_r. apply bool_decide_eq_false_2, Hc.
Qed.

Lemma pretty_N_contains c (x : N) :
  (∀ d, pretty_N_char d ≠ c) → str_contains c (pretty x) = false.
Proof.
  intros Hc. unfold pretty, pretty_N. case_decide.
  - simpl. rewrite orb_false_r. apply bool_decide_eq_false_2. apply (Hc 0%N).
  - by apply pretty_N_go_contains.
Qed.

Lemma pretty_Z_contains c (x : Z) :
  (∀ d, pretty_N_char d ≠ c) → c ≠ Ascii.ascii_of_nat 45 →
  str_contains c (pretty x) = false.
Proof.
  intros Hc Hdash. unfold pretty, pretty_Z. destruct x as [|p|p].
  - simpl. rewrite orb_false_r. apply bool_decide_eq_false_2. apply (Hc 0%N).
  - by apply (pretty_N_contains c (Npos p)).
  - rewrite str_contains_app.
    rewrite (pretty_N_contains c (Npos p) Hc : str_contains c (pretty p) = false).
    simpl. rewrite !orb_false_r. apply bool_decide_eq_false_2.
    intros Heq. apply Hdash. by rewrite <- Heq.
Qed.

Lemma pretty_N_char_semicolon d : pretty_N_char d ≠ char_semicolon.
Proof. unfold pretty_N_char. by repeat case_match. Qed.

Lemma pretty_N_char_equals d : pretty_N_char d ≠ char_equals.
Proof. unfold pretty_N_char. by repeat case_match. Qed.

Lemma pad2_contains c n :
  (∀ d, pretty_N_char d ≠ c) → c ≠ Ascii.ascii_of_nat 45 →
  str_contains c (Datetime.pad2 n) = false.
Proof.
  intros Hc Hdash. unfold Datetime.pad2. case_match.
  - rewrite str_contains_app, pretty_Z_contains by done.
    simpl. rewrite !orb_false_r. apply bool_decide_eq_false_2. apply (Hc 0%N).
  - by apply pretty_Z_contains.
Qed.

Lemma pad4_contains c n :
  (∀ d, pretty_N_char d ≠ c) → c ≠ Ascii.ascii_of_nat 45 →
  str_contains c (Datetime.pad4 n) = false.
Proof.
  intros Hc Hdash. unfold Datetime.pad4.
  pose proof (Hc 0%N) as H0. simpl in H0.
  repeat case_match; rewrite ?str_contains_app, pretty_Z_contains by done;
    simpl; by rewrite ?bool_decide_eq_false_2 by done.
Qed.

Lemma strftime_Ymd_contains c d :
  (∀ d, pretty_N_char d ≠ c) → c ≠ Ascii.ascii_of_nat 45 →
  str_contains c (strftime_Ymd d) = false.
Proof.
  intros Hc Hdash. unfold strftime_Ymd. destruct (Datetime.civil d) as [[y m] dd].
  by rewrite !str_contains_app, pad4_contains, !pad2_contains.
Qed.

Lemma weekdays_contains_semicolon (days : list Weekday.t) :
  str_contains char_semicolon (str_join "," (Weekday.value <$> days)) = false.
Proof.
  induction days as [|d [|d' rest] IH]; [done|by destruct d|].
  rewrite !fmap_cons. rewrite !fmap_cons in IH.
  change (str_join "," (Weekday.value d :: Weekday.value d' :: (Weekday.value <$> rest)))
    with (Weekday.value d +:+ ","
          +:+ str_join "," (Weekday.value d' :: (Weekday.value <$> rest))).
  rewrite !str_contains_app, IH. by destruct d.
Qed.

(** ** The rule text and its parser *)

Lemma rrule_part_contains_equals kv :
  str_contains char_equals (rrule_part kv) = true.
Proof.
  unfold rrule_part. rewrite str_contains_app. cbn [str_contains].
  rewrite bool_decide_eq_true_2 by done. apply orb_true_r.
Qed.

Lemma rrule_part_contains_semicolon kv :
  rrule_part_ok kv → str_contains char_semicolon (rrule_part kv) = false.
Proof.
  intros (_ & Hk & Hv). unfold rrule_part. rewrite str_contains_app, Hk.
  cbn [str_contains]. rewrite Hv. by rewrite bool_decide_eq_false_2.
Qed.

(** The parser reads the parts back in the order they were written. *)
Lemma parse_rrule_parts (kvs : list (string * string)) :
  kvs ≠ [] → Forall rrule_part_ok kvs →
  parse_rrule (str_join ";" (rrule_part <$> kvs))
  = foldl (λ parts kv, <[kv.1 := kv.2]> parts) ∅ kvs.
Proof.
  intros Hne Hok. unfold parse_rrule.
  change ";" with (String char_semicolon EmptyString).
  rewrite str_split_join.
  - generalize (∅ : gmap string string).
    induction Hok as [|kv kvs Hkv _ IH]; intros parts; [done|].
    rewrite fmap_cons. simpl foldl. rewrite rrule_part_contains_equals.
    destruct Hkv as (Hk & _ & _). unfold rrule_part at 1.
    rewrite str_split_once_app by done.
    destruct kvs as [|kv' kvs]; [done|]. by apply IH.
  - by destruct kvs.
  - apply Forall_fmap. eapply Forall_impl; [done|].
    intros kv Hkv. by apply rrule_part_contains_semicolon.
Qed.

Lemma foldl_insert_list_to_map (kvs : list (string * string)) :
  NoDup kvs.*1 →
  foldl (λ parts kv, <[kv.1 := kv.2]> parts) (∅ : gmap string string) kvs
  = list_to_map kvs.
Proof.
  induction kvs as [|kv kvs IH] using rev_ind; intros Hnd; [done|].
  rewrite fmap_app in Hnd. apply NoDup_app in Hnd as (Hnd & Hfresh & _).
  rewrite foldl_app. simpl. rewrite IH by done.
  rewrite list_to_map_app. simpl. rewrite insert_empty.
  destruct kv as [k v]. simpl. apply insert_union_singleton_r.
  apply not_elem_of_list_to_map_1. intros Hk. by apply (Hfresh k), list_elem_of_singleton.
Qed.

Lemma config_to_rrule_parts config start_date :
  config_to_rrule config start_date = str_join ";" (rrule_part <$> config_parts config).
Proof.
  unfold config_to_rrule, config_parts.
  assert ((if bool_decide (frequency config = Frequency.custom) then
             if truthy_list (days_of_week config) then "WEEKLY"
             else if truthy_int (day_of_month config) then "MONTHLY" else "DAILY"
           else str_upper (Frequency.value (frequency config)))
          = rrule_freq config) as ->.
  { unfold rrule_freq. by destruct (frequency config). }
  generalize (rrule_freq config) (pretty (interval config))
    (str_join "," (Weekday.value <$> default [] (days_of_week config)))
    (pretty (default 0%Z (day_of_month config)))
    (pretty (default 0%Z (end_count config))).
  intros freq every days dom count.
  destruct (end_date config) as [until|]; [generalize (strftime_Ymd until); intros ?|];
    destruct (negb (interval config =? 0)%Z && negb (interval config =? 1)%Z),
      (truthy_list (days_of_week config)), (truthy_int (day_of_month config)),
      (truthy_int (end_count config)); reflexivity.
Qed.

Lemma config_parts_ok config : Forall rrule_part_ok (config_parts config).
Proof.
  unfold config_parts. repeat apply Forall_app_2.
  - apply Forall_singleton. repeat split; [done..|].
    unfold rrule_freq. simpl. by repeat case_match.
  - case_match; [|done]. apply Forall_singleton. repeat split; [done..|]. simpl.
    apply pretty_Z_contains; [apply pretty_N_char_semicolon|done].
  - case_match; [|done]. apply Forall_singleton. repeat split; [done..|]. simpl.
    apply weekdays_contains_semicolon.
  - case_match; [|done]. apply Forall_singleton. repeat split; [done..|]. simpl.
    apply pretty_Z_contains; [apply pretty_N_char_semicolon|done].
  - case_match; [|done]. apply Forall_singleton. repeat split; [done..|]. simpl.
    apply strftime_Ymd_contains; [apply pretty_N_char_semicolon|done].
  - case_match; [|done]. apply Forall_singleton. repeat split; [done..|]. simpl.
    apply pretty_Z_contains; [apply pretty_N_char_semicolon|done].
Qed.

Lemma parse_rrule_config config start_date :
  parse_rrule (config_to_rrule config start_date)
  = foldl (λ parts kv, <[kv.1 := kv.2]> parts) ∅ (config_parts config).
Proof.
  rewrite config_to_rrule_parts. apply parse_rrule_parts; [done|].
  apply config_parts_ok.
Qed.

Lemma lookup_opt_insert (k : string) (o : option string) (m : gmap string string) :
  opt_insert k o m !! k = match o with Some v => Some v | None => m !! k end.
Proof. destruct o; simpl; [by rewrite lookup_insert_eq|done]. Qed.

Lemma lookup_opt_insert_ne (k k' : string) (o : option string)
    (m : gmap string string) :
  k ≠ k' → opt_insert k o m !! k' = m !! k'.
Proof. intros Hne. destruct o; simpl; [by rewrite lookup_insert_ne|done]. Qed.


(** The dictionary read back from the rule text of a configuration. *)
Lemma parse_rrule_config_map config start_date :
  parse_rrule (config_to_rrule config start_date)
  = opt_insert "COUNT"
      (if truthy_int (end_count config) then pretty <$> end_count config else None)
      (opt_insert "UNTIL" (strftime_Ymd <$> end_date config)
         (opt_insert "BYMONTHDAY"
            (if truthy_int (day_of_month config) then pretty <$> day_of_month config
             else None)
            (opt_insert "BYDAY"
               (match days_of_week config with
                | Some (d :: days) => Some (str_join "," (Weekday.value <$> d :: days))
                | _ => None
                end)
               (opt_insert "INTERVAL"
                  (if bool_decide (interval config = 0 ∨ interval config = 1)%Z
                   then None else Some (pretty (interval config)))
                  (<["FREQ" := rrule_freq config]> ∅))))).
Proof.
  rewrite parse_rrule_config. unfold config_parts.
  assert (negb (interval config =? 0)%Z && negb (interval config =? 1)%Z
          = negb (bool_decide (interval config = 0 ∨ interval config = 1)%Z)) as ->.
  { destruct (Z.eqb_spec (interval config) 0), (Z.eqb_spec (interval config) 1);
      simpl; symmetry; rewrite ?negb_true_iff, ?negb_false_iff;
      [apply bool_decide_eq_true_2..|apply bool_decide_eq_false_2]; tauto. }
  generalize (rrule_freq config). intros freq.
  destruct (bool_decide (interval config = 0 ∨ interval config = 1)%Z),
    (days_of_week config) as [[|d days]|], (day_of_month config) as [dom|],
    (end_date config) as [until|], (end_count config) as [count|];
    simpl; repeat case_match; reflexivity.
Qed.

Section RuleLookups.
Context (config : RecurrenceConfig) (start_date : date).
Let parts : gmap string string := parse_rrule (config_to_rrule config start_date).

Lemma rule_lookup_FREQ : parts !! "FREQ" = Some (rrule_freq config).
Proof.
  subst parts. rewrite parse_rrule_config_map.
  by rewrite !lookup_opt_insert_ne, lookup_insert_eq by done.
Qed.


Lemma rule_lookup_BYDAY :
  parts !! "BYDAY"
  = match days_of_week config with
    | Some (d :: days) => Some (str_join "," (Weekday.value <$> d :: days))
    | _ => None
    end.
Proof.
  subst parts. rewrite parse_rrule_config_map.
  rewrite !lookup_opt_insert_ne, lookup_opt_insert by done.
  rewrite lookup_opt_insert_ne, lookup_insert_ne by done.
  by destruct (days_of_week config) as [[|]|].
Qed.

Lemma rule_lookup_BYMONTHDAY :
  parts !! "BYMONTHDAY"
  = if truthy_int (day_of_month config) then pretty <$> day_of_month config
    else None.
Proof.
  subst parts. rewrite parse_rrule_config_map.
  rewrite !lookup_opt_insert_ne, lookup_opt_insert by done.
  rewrite !lookup_opt_insert_ne, lookup_insert_ne by done.
  by destruct (truthy_int _), (day_of_month config).
Qed.

Lemma rule_lookup_UNTIL : parts !! "UNTIL" = strftime_Ymd <$> end_date config.
Proof.
  subst parts. rewrite parse_rrule_config_map.
  rewrite !lookup_opt_insert_ne, lookup_opt_insert by done.
  rewrite !lookup_opt_insert_ne, lookup_insert_ne by done.
  by destruct (end_date config).
Qed.

Lemma rule_lookup_COUNT :
  parts !! "COUNT"
  = if truthy_int (end_count config) then pretty <$> end_count config else None.
Proof.
  subst parts. rewrite parse_rrule_config_map. rewrite lookup_opt_insert.
  rewrite !lookup_opt_insert_ne, lookup_insert_ne by done.
  by destruct (truthy_int _), (end_count config).
Qed.


End RuleLookups.

(** X1. [parse_rrule] reads back a rule text written as [KEY=VALUE] parts
    joined by [";"]: when the keys are pairwise distinct and hold neither
    ["="] nor [";"], and the values hold no [";"] (they may hold ["="], only
    the first one of a part splits it), the dictionary holds exactly the
    pairs that were written. *)
Theorem parse_rrule_reads_back_parts (kvs : list (string * string)) :
  kvs ≠ [] → Forall rrule_part_ok kvs → NoDup kvs.*1 →
  parse_rrule (str_join ";" (rrule_part <$> kvs)) = list_to_map kvs.
Proof.
  intros Hne Hok Hnd. rewrite parse_rrule_parts by done.
  by apply foldl_insert_list_to_map.
Qed.

Lemma parse_rrule_reads_back_parts_sample :
  parse_rrule "FREQ=WEEKLY;X-NOTE=a=b;BYDAY=MO,WE"
  = list_to_map [("FREQ", "WEEKLY"); ("X-NOTE", "a=b"); ("BYDAY", "MO,WE")].
Proof.
  apply (parse_rrule_reads_back_parts
           [("FREQ", "WEEKLY"); ("X-NOTE", "a=b"); ("BYDAY", "MO,WE")]).
  - done.
  - repeat constructor.
  - compute_done.
Defined.


(** X3. For a configuration that passes the two validators of the schema,
    the rule text never carries both [UNTIL] and [COUNT]; [BYDAY] comes only
    with [FREQ=WEEKLY]; and [BYMONTHDAY] comes with [FREQ=MONTHLY] unless days
    of the week are given as well. *)
Theorem validated_config_rule (config : RecurrenceConfig) (start_date : date) :
  validate_end_conditions config = Ok config →
  validate_frequency_options config = Ok config →
  let parts := parse_rrule (config_to_rrule config start_date) in
  ¬ (is_Some (parts !! "UNTIL") ∧ is_Some (parts !! "COUNT"))
  ∧ (is_Some (parts !! "BYDAY") → parts !! "FREQ" = Some "WEEKLY")
  ∧ (is_Some (parts !! "BYMONTHDAY") →
       is_Some (parts !! "BYDAY") ∨ parts !! "FREQ" = Some "MONTHLY").
Proof.
  unfold validate_end_conditions, validate_frequency_options.
  intros Hend Hfreq. cbv zeta.
  rewrite rule_lookup_FREQ, rule_lookup_BYDAY, rule_lookup_BYMONTHDAY,
    rule_lookup_UNTIL, rule_lookup_COUNT.
  destruct (bool_decide (end_date config ≠ None ∧ end_count config ≠ None))
    eqn:Hboth; [done|].
  apply bool_decide_eq_false in Hboth. clear Hend. unfold rrule_freq.
  split; [|split].
  - intros [[u Hu] [c Hc]]. apply Hboth.
    destruct (end_date config), (end_count config); simpl in *;
      try discriminate; try (by destruct (truthy_int _)); done.
  - intros [v Hv].
    destruct (days_of_week config) as [[|d days]|]; try discriminate.
    simpl in Hfreq. by destruct (frequency config); try discriminate.
  - intros [v Hv]. destruct (truthy_int (day_of_month config)) eqn:Hdom;
      [|discriminate].
    destruct (days_of_week config) as [[|d days]|]; simpl in Hfreq;
      try (by left; eexists);
      by (destruct (frequency config); try discriminate; right).
Qed.

Lemma validated_config_rule_sample :
  let parts := parse_rrule (config_to_rrule sample_config 20458) in
  ¬ (is_Some (parts !! "UNTIL") ∧ is_Some (parts !! "COUNT"))
  ∧ (is_Some (parts !! "BYDAY") → parts !! "FREQ" = Some "WEEKLY")
  ∧ (is_Some (parts !! "BYMONTHDAY") →
       is_Some (parts !! "BYDAY") ∨ parts !! "FREQ" = Some "MONTHLY").
Proof. apply (validated_config_rule sample_config 20458); reflexivity. Defined.

(** ** Loops that store changed rows *)

Lemma set_reminders_compose f g session :
  set_reminders g (set_reminders f session) = set_reminders (g ∘ f) session.
Proof. by destruct session. Qed.

Lemma set_notifications_compose f g session :
  set_notifications g (set_notifications f session)
  = set_notifications (g ∘ f) session.
Proof. by destruct session. Qed.


Section UpsertLoop.
Context {A : Type} (key : A → ident) (f : A → A).
Hypothesis key_f : ∀ x, key (f x) = key x.

(** Storing [f x] for each selected row [x] of a table with unique keys
    rewrites the selected rows and leaves the others as they are. *)
Lemma foldl_upsert_fmap (l selected : list A) :
  NoDup (key <$> l) → (∀ x, x ∈ selected → x ∈ l) →
  foldl (λ l x, upsert key (f x) l) l selected
  = (λ y, if decide (key y ∈ key <$> selected) then f y else y) <$> l.
Proof.
  intros Hnd. induction selected as [|x selected IH] using rev_ind; intros Hin.
  - cbn [foldl]. rewrite <- (list_fmap_id l) at 1. apply list_fmap_ext.
    intros i y _. by rewrite fmap_nil, decide_False by apply not_elem_of_nil.
  - assert (∀ y, y ∈ selected → y ∈ l) as Hin'.
    { intros y Hy. apply Hin, elem_of_app. by left. }
    assert (x ∈ l) as Hx.
    { apply Hin, elem_of_app. right. by left. }
    rewrite foldl_app. simpl. rewrite IH by done.
    unfold upsert. rewrite bool_decide_eq_true_2.
    + rewrite <- list_fmap_compose. apply Forall_fmap_ext, Forall_forall. intros y Hy. simpl.
      assert (key (if decide (key y ∈ key <$> selected) then f y else y) = key y)
        as Hk by by case_decide.
      rewrite Hk, key_f. rewrite fmap_app, fmap_cons, fmap_nil.
      case_bool_decide as Hyx.
      * assert (y = x) as -> by by eapply (NoDup_key_inj key).
        rewrite decide_True; [done|]. apply elem_of_app. right. by left.
      * destruct (decide (key y ∈ key <$> selected)) as [Hs|Hs].
        -- rewrite decide_True; [done|]. apply elem_of_app. by left.
        -- rewrite decide_False; [done|]. rewrite elem_of_app, list_elem_of_singleton.
           tauto.
    + rewrite key_f, <- list_fmap_compose. apply list_elem_of_fmap.
      exists x. split; [|done]. simpl. by case_decide.
Qed.

(** For a selection made by a filter, the selected rows are those that
    satisfy the predicate. *)
Lemma foldl_upsert_filter (P : A → Prop) `{!∀ x, Decision (P x)} (l : list A) :
  NoDup (key <$> l) →
  foldl (λ l x, upsert key (f x) l) l (filter P l)
  = (λ y, if decide (P y) then f y else y) <$> l.
Proof.
  intros Hnd. rewrite foldl_upsert_fmap; [|done|].
  - apply Forall_fmap_ext, Forall_forall. intros y Hy. simpl.
    destruct (decide (P y)) as [Hp|Hp].
    + rewrite decide_True; [done|]. apply list_elem_of_fmap. exists y.
      split; [done|]. by apply list_elem_of_filter.
    + rewrite decide_False; [done|]. intros (z & Hk & Hz)%list_elem_of_fmap.
      apply list_elem_of_filter in Hz as [Hpz Hz].
      assert (y = z) as -> by by eapply (NoDup_key_inj key). done.
  - intros x Hx. by apply list_elem_of_filter in Hx as [_ Hx].
Qed.

End UpsertLoop.

(** ** Listing and cancelling reminders *)

#[global] Instance fire_at_le_total : Total fire_at_le.
Proof. intros a b. unfold fire_at_le. lia. Qed.

#[global] Instance fire_at_le_trans : Transitive fire_at_le.
Proof. intros a b c. unfold fire_at_le. lia. Qed.

(** X4. The reminders listed for a todo are exactly the reminders of that
    todo that belong to the caller, the sent and cancelled ones left out
    unless [include_fired] is set, each once, ordered by fire instant. The
    store is not changed. *)
Theorem get_todo_reminders_scoped_sorted
    (user_id todo_id : ident) (include_fired : bool) (session : Session) :
  ∃ listed,
    get_todo_reminders user_id todo_id include_fired session = (Ok listed, session)
    ∧ listed ≡ₚ filter (λ r, Reminder.todo_id r = todo_id
                              ∧ Reminder.user_id r = user_id
                              ∧ (include_fired = false → active (Reminder.status r)))
                       (reminders session)
    ∧ StronglySorted fire_at_le listed.
Proof.
  unfold get_todo_reminders. unfold_M. eexists. split; [done|].
  split; [|apply StronglySorted_merge_sort; apply _].
  rewrite merge_sort_Permutation.
  destruct include_fired; simpl.
  - erewrite list_filter_iff; [done|]. intros r. simpl.
    split; [intros [? ?]; by repeat split|tauto].
  - rewrite list_filter_filter. erewrite list_filter_iff; [done|].
    intros r. simpl. split; [tauto|intros (? & ? & Hact); split; [by apply Hact|done]].
Qed.

Lemma cancel_each_run selected count session :
  cancel_each selected count session
  = (Ok (count + length selected),
     set_reminders
       (λ l, foldl (λ l x, upsert Reminder.id
                             (reminder_set_status ReminderStatus.CANCELLED x) l)
                   l selected)
       session).
Proof.
  revert count session. induction selected as [|x selected IH]; intros count session.
  - simpl. unfold ret. rewrite Nat.add_0_r. by destruct session.
  - simpl. unfold bind at 1. unfold modify. rewrite IH, set_reminders_compose.
    simpl. do 2 f_equal. lia.
Qed.

Lemma cancel_todo_reminders_run todo_id session :
  NoDup (Reminder.id <$> reminders session) →
  cancel_todo_reminders todo_id session
  = (Ok (active_count session todo_id),
     set_reminders (fmap (cancel_if_active todo_id)) session).
Proof.
  intros Hnd. unfold cancel_todo_reminders. unfold bind, get_session.
  rewrite cancel_each_run. cbn [fst snd]. f_equal.
  unfold set_reminders. f_equal.
  by rewrite (foldl_upsert_filter Reminder.id) by done.
Qed.

Lemma active_count_cancelled todo_id session :
  active_count (set_reminders (fmap (cancel_if_active todo_id)) session) todo_id = 0.
Proof.
  unfold active_count. simpl. rewrite filter_none; [done|].
  intros r (y & -> & Hy)%list_elem_of_fmap [Htodo Hact].
  unfold cancel_if_active in *. case_decide as Hp.
  - simpl in Hact. unfold active in Hact.
    rewrite !elem_of_cons, elem_of_nil in Hact.
    destruct Hact as [?|[?|[]]]; discriminate.
  - by apply Hp.
Qed.

(** X5. On a table with unique reminder ids, cancelling the reminders of a
    todo stores every pending or snoozed reminder of that todo as cancelled,
    with nothing else about it changed, leaves every other reminder and every
    other table as they were, and returns the number of reminders it cancelled;
    afterwards the todo has no active reminder. The reminders of every user
    are cancelled: the operation takes no user. *)
Theorem cancel_todo_reminders_cancels_all (todo_id : ident) (session : Session) :
  NoDup (Reminder.id <$> reminders session) →
  let out := cancel_todo_reminders todo_id session in
  out.1 = Ok (active_count session todo_id)
  ∧ out.2 = set_reminders (fmap (cancel_if_active todo_id)) session
  ∧ active_count out.2 todo_id = 0.
Proof.
  intros Hnd. cbv zeta. rewrite cancel_todo_reminders_run by done.
  split; [done|]. split; [done|]. apply active_count_cancelled.
Qed.

Lemma cancel_todo_reminders_cancels_all_sample :
  let out := cancel_todo_reminders "todo-1" sample_session in
  out.1 = Ok (active_count sample_session "todo-1")
  ∧ out.2 = set_reminders (fmap (cancel_if_active "todo-1")) sample_session
  ∧ active_count out.2 "todo-1" = 0.
Proof.
  apply (cancel_todo_reminders_cancels_all "todo-1" sample_session). compute_done.
Defined.



(** In a table with unique keys, the first row a filter finds is the row
    with the key the filter asks for. *)
Lemma head_filter_unique {A} (key : A → ident) (P : A → Prop)
    `{!∀ x, Decision (P x)} (l : list A) (x : A) :
  NoDup (key <$> l) → x ∈ l → P x → (∀ y, P y → key y = key x) →
  head (filter P l) = Some x.
Proof.
  intros Hnd Hx HP Hkey.
  destruct (head (filter P l)) as [y|] eqn:Hhead.
  - apply head_Some_elem_of, list_elem_of_filter in Hhead as [Hy Hin].
    f_equal. eapply (NoDup_key_inj key); eauto.
  - apply head_None in Hhead.
    assert (x ∈ filter P l) as Hin by by apply list_elem_of_filter.
    rewrite Hhead in Hin. by apply elem_of_nil in Hin.
Qed.

Lemma upsert_elem_of {A} (key : A → ident) (x : A) (l : list A) :
  x ∈ upsert key x l.
Proof.
  pose proof (upsert_lookup key x l) as H.
  by apply head_Some_elem_of, list_elem_of_filter in H as [_ H].
Qed.

Lemma upsert_NoDup {A} (key : A → ident) (x : A) (l : list A) :
  NoDup (key <$> l) → NoDup (key <$> upsert key x l).
Proof.
  intros Hnd. destruct (decide (key x ∈ key <$> l)) as [Hin|Hin].
  - by rewrite upsert_keys.
  - unfold upsert. rewrite bool_decide_eq_false_2 by done.
    rewrite fmap_app. apply NoDup_app. split; [done|]. split.
    + intros k Hk Hk'. apply list_elem_of_singleton in Hk'. by subst.
    + apply NoDup_singleton.
Qed.

Lemma pending_reminders_elem before session r :
  r ∈ pending_reminders before session ↔ r ∈ reminders session ∧ due before r.
Proof.
  unfold pending_reminders, get_pending_reminders. unfold_M.
  rewrite merge_sort_Permutation, list_elem_of_filter. unfold due. tauto.
Qed.

(** X7. Snoozing postpones: on a table with unique reminder ids, snoozing
    one's own reminder returns it stored as snoozed with its fire instant and
    [snoozed_until] both set to now plus the snooze minutes, and from then on
    the dispatcher selects that reminder exactly at the ticks that are not
    before that instant. *)
Theorem snooze_reminder_postpones
    (now : datetime) (user_id reminder_id : ident) (snooze_minutes : Z)
    (session : Session) (r : Reminder.t) :
  NoDup (Reminder.id <$> reminders session) →
  r ∈ reminders session →
  Reminder.id r = reminder_id → Reminder.user_id r = user_id →
  let until := (now + Datetime.timedelta_minutes snooze_minutes)%Z in
  ∃ r' session',
    snooze_reminder now user_id reminder_id snooze_minutes session
    = (Ok (Some r'), session')
    ∧ Reminder.status r' = ReminderStatus.SNOOZED
    ∧ Reminder.fire_at r' = until
    ∧ Reminder.snoozed_until r' = Some until
    ∧ ∀ before,
        (∃ p, p ∈ pending_reminders before session' ∧ Reminder.id p = reminder_id)
        ↔ (until ≤ before)%Z.
Proof.
  intros Hnd Hr Hid Huser until. unfold snooze_reminder. unfold bind at 1.
  unfold get_session.
  rewrite (head_filter_unique Reminder.id _ _ r); [|done|done|done|].
  2: { intros y [Hy _]. congruence. }
  unfold_M. eexists _, _. split; [done|]. split; [done|]. split; [done|].
  split; [done|]. intros before.
  set (r' := reminder_set_fire_at _ _).
  split.
  - intros (p & Hp & Hpid). apply pending_reminders_elem in Hp as [Hp [Hdue _]].
    simpl in Hp.
    assert (p = r') as ->.
    { eapply (NoDup_key_inj Reminder.id); [by apply upsert_NoDup|done| |].
      - apply upsert_elem_of.
      - by rewrite Hpid. }
    done.
  - intros Hle. exists r'. split; [|done].
    apply pending_reminders_elem. split; [apply upsert_elem_of|].
    split; [done|]. unfold active. simpl. right. left.
Qed.

Lemma snooze_reminder_postpones_sample :
  let until := (1772400000000000 + Datetime.timedelta_minutes 15)%Z in
  ∃ r' session',
    snooze_reminder 1772400000000000 "alice" "rem-2" 15 sample_session
    = (Ok (Some r'), session')
    ∧ Reminder.status r' = ReminderStatus.SNOOZED
    ∧ Reminder.fire_at r' = until
    ∧ Reminder.snoozed_until r' = Some until
    ∧ ∀ before,
        (∃ p, p ∈ pending_reminders before session' ∧ Reminder.id p = "rem-2")
        ↔ (until ≤ before)%Z.
Proof.
  apply (snooze_reminder_postpones 1772400000000000 "alice" "rem-2" 15
           sample_session sample_pending_reminder).
  - compute_done.
  - simpl. right. left.
  - reflexivity.
  - reflexivity.
Defined.

(** ** What a tick of the dispatcher leaves behind *)



Section TickProperties.

Variable webpush :
  SubscriptionInfo → Payload → option string → option string → option exn.
Variable Response_bool : Response → bool.




End TickProperties.


(** ** The notification centre *)

#[global] Instance created_at_ge_total : Total created_at_ge.
Proof. intros a b. unfold created_at_ge. lia. Qed.

#[global] Instance created_at_ge_trans : Transitive created_at_ge.
Proof. intros a b c. unfold created_at_ge. lia. Qed.

Lemma get_user_notifications_run user_id unread_only limit offset session :
  get_user_notifications user_id unread_only limit offset session
  = (Ok (take limit (drop offset
                       (merge_sort created_at_ge (listing_of session user_id unread_only))),
         length (listing_of session user_id unread_only),
         length (unread_of session user_id)),
     session).
Proof.
  unfold get_user_notifications, listing_of, unread_of. unfold_M.
  destruct unread_only.
  - rewrite list_filter_filter.
    rewrite (list_filter_iff
               (λ n, Notification.read n = false ∧ Notification.user_id n = user_id)
               (λ n, Notification.user_id n = user_id
                     ∧ (true = true → Notification.read n = false)));
      [done|]. intros n. split; [intros [? ?]; by split|intros [? H]; split; [by apply H|done]].
  - rewrite (list_filter_iff
               (λ n, Notification.user_id n = user_id)
               (λ n, Notification.user_id n = user_id
                     ∧ (false = true → Notification.read n = false)));
      [done|]. intros n. split; [intros ?; by split|by intros [? _]].
Qed.

Lemma listed_page_eq user_id unread_only limit offset session :
  listed_page user_id unread_only limit offset session
  = take limit (drop offset
                  (merge_sort created_at_ge (listing_of session user_id unread_only))).
Proof. unfold listed_page. by rewrite get_user_notifications_run. Qed.

(** X9. Listing notifications returns, without changing the store, a page
    of at most [limit] notifications, newest first, each of them a
    notification of the caller (an unread one when [unread_only] is set),
    together with the number of all notifications the listing matches and the
    caller's number of unread ones, whatever the page. Consecutive pages join
    into the larger page, and a page from offset 0 that is as long as the
    total holds every matching notification once. *)
Theorem get_user_notifications_pages
    (user_id : ident) (unread_only : bool) (limit offset : nat) (session : Session) :
  let page := listed_page user_id unread_only limit offset session in
  get_user_notifications user_id unread_only limit offset session
  = (Ok (page, length (listing_of session user_id unread_only),
         length (unread_of session user_id)), session)
  ∧ length page ≤ limit
  ∧ StronglySorted created_at_ge page
  ∧ (∀ n, n ∈ page → n ∈ listing_of session user_id unread_only)
  ∧ length (unread_of session user_id) ≤ length (listing_of session user_id false)
  ∧ listing_of session user_id true = unread_of session user_id
  ∧ (∀ limit', page ++ listed_page user_id unread_only limit' (offset + limit) session
               = listed_page user_id unread_only (limit + limit') offset session)
  ∧ listed_page user_id unread_only
      (length (listing_of session user_id unread_only)) 0 session
    ≡ₚ listing_of session user_id unread_only.
Proof.
  cbv zeta. rewrite get_user_notifications_run, !listed_page_eq.
  set (all := merge_sort created_at_ge (listing_of session user_id unread_only)).
  assert (all ≡ₚ listing_of session user_id unread_only) as Hperm
    by apply merge_sort_Permutation.
  split; [done|]. split; [rewrite length_take; lia|]. split.
  { eapply StronglySorted_sublist; [|apply StronglySorted_merge_sort; apply _].
    etrans; [apply sublist_take|apply sublist_drop]. }
  split.
  { intros n Hn. rewrite <- Hperm.
    eapply elem_of_sublist; [done|]. etrans; [apply sublist_take|apply sublist_drop]. }
  split.
  { unfold unread_of, listing_of.
    rewrite <- (list_filter_filter_l
                  (λ n, Notification.user_id n = user_id ∧ Notification.read n = false)
                  (λ n, Notification.user_id n = user_id ∧ (false = true → Notification.read n = false))).
    - apply length_filter.
    - intros n [? ?]. by split. }
  split.
  { unfold unread_of, listing_of. apply list_filter_iff. intros n.
    split; [intros [? H]; split; [done|by apply H]|intros [? ?]; by split]. }
  split.
  { intros limit'. rewrite !listed_page_eq. fold all.
    rewrite <- drop_drop. apply take_take_drop. }
  fold all. rewrite drop_0, take_ge; [done|].
  by rewrite Hperm.
Qed.

Lemma mark_each_run selected count session :
  mark_each selected count session
  = (Ok (count + length selected),
     set_notifications
       (λ l, foldl (λ l x, upsert Notification.id (notification_set_read true x) l)
                   l selected)
       session).
Proof.
  revert count session. induction selected as [|x selected IH]; intros count session.
  - simpl. unfold ret. rewrite Nat.add_0_r. by destruct session.
  - simpl. unfold bind at 1. unfold modify. rewrite IH, set_notifications_compose.
    simpl. do 2 f_equal. lia.
Qed.

Lemma mark_as_read_run user_id notification_ids session :
  NoDup (Notification.id <$> notifications session) →
  mark_as_read user_id notification_ids session
  = (Ok (length (filter (λ n, Notification.user_id n = user_id
                              ∧ Notification.id n ∈ notification_ids
                              ∧ Notification.read n = false)
                        (notifications session))),
     set_notifications (fmap (read_if_listed user_id notification_ids)) session).
Proof.
  intros Hnd. unfold mark_as_read. unfold bind, get_session.
  rewrite mark_each_run. cbn [fst snd]. f_equal.
  unfold set_notifications. f_equal.
  by rewrite (foldl_upsert_filter Notification.id) by done.
Qed.

Lemma mark_all_as_read_run user_id session :
  NoDup (Notification.id <$> notifications session) →
  mark_all_as_read user_id session
  = (Ok (length (unread_of session user_id)),
     set_notifications (fmap (read_if_owned user_id)) session).
Proof.
  intros Hnd. unfold mark_all_as_read. unfold bind, get_session.
  rewrite mark_each_run. cbn [fst snd]. f_equal.
  unfold set_notifications. f_equal.
  by rewrite (foldl_upsert_filter Notification.id) by done.
Qed.

(** Rewriting the rows selected by [P] with an [f] that takes them out of
    [Q] removes as many rows from [Q] as were selected, when [P] selects
    inside [Q]. *)
Lemma length_filter_rewritten {A} (P Q : A → Prop) `{!∀ x, Decision (P x)}
    `{!∀ x, Decision (Q x)} (f : A → A) (l : list A) :
  (∀ x, P x → Q x) → (∀ x, P x → ¬ Q (f x)) →
  length (filter Q ((λ y, if decide (P y) then f y else y) <$> l))
  + length (filter P l)
  = length (filter Q l).
Proof.
  intros HPQ Hf. induction l as [|y l IH]; [done|].
  rewrite fmap_cons. cbn beta. destruct (decide (P y)) as [Hp|Hp].
  - rewrite (filter_cons_True P y), (filter_cons_True Q y) by auto.
    rewrite (filter_cons_False Q (f y)) by auto. simpl. lia.
  - rewrite (filter_cons_False P y) by done.
    destruct (decide (Q y)).
    + rewrite !(filter_cons_True Q y) by done. simpl. lia.
    + by rewrite !(filter_cons_False Q y) by done.
Qed.

(** X10. On a table with unique notification ids, marking notifications as
    read stores as read exactly the unread notifications of the caller whose
    id is in the list, changes nothing else, returns how many these were and
    lowers the caller's unread count by that number; notifications of other
    users are left as they are even when their ids are in the list. *)
Theorem mark_as_read_marks_listed
    (user_id : ident) (notification_ids : list ident) (session : Session) :
  NoDup (Notification.id <$> notifications session) →
  ∃ count,
    mark_as_read user_id notification_ids session
    = (Ok count,
       set_notifications (fmap (read_if_listed user_id notification_ids)) session)
    ∧ count = length (filter (λ n, Notification.id n ∈ notification_ids)
                             (unread_of session user_id))
    ∧ length (unread_of
                (set_notifications (fmap (read_if_listed user_id notification_ids))
                                   session) user_id) + count
      = length (unread_of session user_id)
    ∧ ∀ n, n ∈ notifications session → Notification.user_id n ≠ user_id →
           read_if_listed user_id notification_ids n = n.
Proof.
  intros Hnd. rewrite mark_as_read_run by done. eexists. split; [done|].
  assert (filter (λ n, Notification.id n ∈ notification_ids) (unread_of session user_id)
          = filter (λ n, Notification.user_id n = user_id
                         ∧ Notification.id n ∈ notification_ids
                         ∧ Notification.read n = false)
                   (notifications session)) as Heq.
  { unfold unread_of. rewrite list_filter_filter. apply list_filter_iff.
    intros n. tauto. }
  split; [by rewrite Heq|]. split.
  - unfold unread_of. simpl. unfold read_if_listed.
    apply (length_filter_rewritten
             (λ n, Notification.user_id n = user_id
                   ∧ Notification.id n ∈ notification_ids
                   ∧ Notification.read n = false)
             (λ n, Notification.user_id n = user_id ∧ Notification.read n = false)
             (notification_set_read true)).
    + intros n. tauto.
    + intros n _ [_ Hread]. discriminate.
  - intros n _ Hother. unfold read_if_listed. rewrite decide_False; [done|]. tauto.
Qed.

Lemma mark_as_read_marks_listed_sample :
  ∃ count,
    mark_as_read "alice" ["note-1"; "note-3"] sample_notifications_session
    = (Ok count,
       set_notifications (fmap (read_if_listed "alice" ["note-1"; "note-3"]))
                         sample_notifications_session)
    ∧ count = length (filter (λ n, Notification.id n ∈ ["note-1"; "note-3"])
                             (unread_of sample_notifications_session "alice"))
    ∧ length (unread_of
                (set_notifications (fmap (read_if_listed "alice" ["note-1"; "note-3"]))
                                   sample_notifications_session) "alice") + count
      = length (unread_of sample_notifications_session "alice")
    ∧ ∀ n, n ∈ notifications sample_notifications_session →
           Notification.user_id n ≠ "alice" →
           read_if_listed "alice" ["note-1"; "note-3"] n = n.
Proof.
  apply (mark_as_read_marks_listed "alice" ["note-1"; "note-3"]
           sample_notifications_session).
  compute_done.
Defined.

(** X11. On a table with unique notification ids, marking all as read
    stores every unread notification of the caller as read and nothing else,
    returns how many these were and leaves the caller with no unread
    notification; a second call returns 0 and changes nothing. *)
Theorem mark_all_as_read_clears (user_id : ident) (session : Session) :
  NoDup (Notification.id <$> notifications session) →
  ∃ session',
    mark_all_as_read user_id session
    = (Ok (length (unread_of session user_id)), session')
    ∧ session' = set_notifications (fmap (read_if_owned user_id)) session
    ∧ unread_of session' user_id = []
    ∧ mark_all_as_read user_id session' = (Ok 0, session').
Proof.
  intros Hnd. rewrite mark_all_as_read_run by done. eexists. split; [done|].
  split; [done|].
  assert (unread_of (set_notifications (fmap (read_if_owned user_id)) session) user_id
          = []) as Hnone.
  { unfold unread_of. simpl. apply filter_none.
    intros n (y & -> & Hy)%list_elem_of_fmap [Huser Hread].
    unfold read_if_owned in *. case_decide as Hp; [discriminate|]. by apply Hp. }
  split; [done|].
  unfold mark_all_as_read. unfold bind, get_session.
  fold (unread_of (set_notifications (fmap (read_if_owned user_id)) session) user_id).
  rewrite Hnone. simpl. unfold ret. by destruct session.
Qed.

Lemma mark_all_as_read_clears_sample :
  ∃ session',
    mark_all_as_read "alice" sample_notifications_session
    = (Ok (length (unread_of sample_notifications_session "alice")), session')
    ∧ session' = set_notifications (fmap (read_if_owned "alice"))
                                   sample_notifications_session
    ∧ unread_of session' "alice" = []
    ∧ mark_all_as_read "alice" session' = (Ok 0, session').
Proof.
  apply (mark_all_as_read_clears "alice" sample_notifications_session).
  compute_done.
Defined.

(** ** Rows of other users *)

Lemma head_filter_none {A} (P : A → Prop) `{!∀ x, Decision (P x)} (l : list A) :
  (∀ x, x ∈ l → ¬ P x) → head (filter P l) = None.
Proof. intros Hl. by rewrite filter_none. Qed.

Section Isolation.

Variable rrulestr : string → option datetime → Result (list datetime).

(** X12. A row that is not the caller's is out of reach. When no reminder
    with the given id belongs to the caller, snoozing returns [None]; when no
    occurrence with the given id belongs to the caller, updating its status,
    completing it and skipping it return [None]; when no notification with the
    given id belongs to the caller, deleting it returns [False] and marking it
    read returns 0; when no subscription with the given id belongs to the
    caller, unregistering returns [False]; when no todo with the given id
    belongs to the caller, its occurrences are listed as empty. In each case
    the store is left as it was. *)
Theorem foreign_rows_are_not_found (user_id : ident) (session : Session) :
  (∀ now reminder_id snooze_minutes,
     (∀ r, r ∈ reminders session → Reminder.id r = reminder_id →
           Reminder.user_id r ≠ user_id) →
     snooze_reminder now user_id reminder_id snooze_minutes session
     = (Ok None, session))
  ∧ (∀ ids now today occurrence_id new_status,
       (∀ o, o ∈ occurrences session → TodoOccurrence.id o = occurrence_id →
             TodoOccurrence.user_id o ≠ user_id) →
       update_occurrence_status now user_id occurrence_id new_status session
       = (Ok None, session)
       ∧ complete_occurrence rrulestr ids now today user_id occurrence_id session
         = (Ok None, session)
       ∧ skip_occurrence rrulestr ids now today user_id occurrence_id session
         = (Ok None, session))
  ∧ (∀ notification_id,
       (∀ n, n ∈ notifications session → Notification.id n = notification_id →
             Notification.user_id n ≠ user_id) →
       delete_notification user_id notification_id session = (Ok false, session)
       ∧ mark_as_read user_id [notification_id] session = (Ok 0, session))
  ∧ (∀ subscription_id,
       (∀ p, p ∈ push_subscriptions session → PushSubscription.id p = subscription_id →
             PushSubscription.user_id p ≠ user_id) →
       unregister_subscription user_id subscription_id session = (Ok false, session))
  ∧ (∀ todo_id status,
       (∀ t, t ∈ todos session → Todo.id t = todo_id → Todo.user_id t ≠ user_id) →
       get_occurrences session user_id todo_id status = []).
Proof.
  split; [|split; [|split; [|split]]].
  - intros now reminder_id snooze_minutes Hforeign.
    unfold snooze_reminder. unfold_M.
    rewrite head_filter_none; [done|]. intros r Hr [Hid Hu]. by eapply Hforeign.
  - intros ids now today occurrence_id new_status Hforeign.
    assert (update_occurrence_status now user_id occurrence_id new_status session
            = (Ok None, session)) as Hupdate.
    { unfold update_occurrence_status. unfold_M.
      rewrite head_filter_none; [done|]. intros o Ho [Hid Hu]. by eapply Hforeign. }
    split; [done|].
    assert (∀ st, update_occurrence_status now user_id occurrence_id st session
                  = (Ok None, session)) as Hany.
    { intros st. unfold update_occurrence_status. unfold_M.
      rewrite head_filter_none; [done|]. intros o Ho [Hid Hu]. by eapply Hforeign. }
    unfold complete_occurrence, skip_occurrence. unfold bind at 1 3.
    by rewrite !Hany.
  - intros notification_id Hforeign. split.
    + unfold delete_notification. unfold_M.
      rewrite head_filter_none; [done|]. intros n Hn [Hu Hid]. by eapply Hforeign.
    + unfold mark_as_read. unfold bind, get_session.
      rewrite filter_none; [by destruct session|].
      intros n Hn (Hu & Hid & _). apply list_elem_of_singleton in Hid.
      by eapply Hforeign.
  - intros subscription_id Hforeign.
    unfold unregister_subscription. unfold_M.
    rewrite head_filter_none; [done|]. intros p Hp [Hid Hu]. by eapply Hforeign.
  - intros todo_id status Hforeign. unfold get_occurrences, get_todo_by_id.
    rewrite head_filter_none; [done|]. intros t Ht [Hid Hu]. by eapply Hforeign.
Qed.

End Isolation.

(** Bob cannot snooze, and cannot unregister, what is Alice's. *)
Example foreign_rows_sample :
  snooze_reminder 1772400000000000 "bob" "rem-2" 15 sample_session
  = (Ok None, sample_session)
  ∧ unregister_subscription "bob" "sub-1" sample_session = (Ok false, sample_session)
  ∧ delete_notification "bob" "note-1" sample_notifications_session
    = (Ok false, sample_notifications_session).
Proof. by vm_compute. Qed.

(** ** Marking one notification through the router *)

Lemma listing_of_read_if_listed user_id notification_ids session :
  Notification.id <$> listing_of
    (set_notifications (fmap (read_if_listed user_id notification_ids)) session)
    user_id false
  = Notification.id <$> listing_of session user_id false.
Proof.
  unfold listing_of. simpl.
  induction (notifications session) as [|n l IH]; [done|].
  rewrite fmap_cons.
  assert (Notification.user_id (read_if_listed user_id notification_ids n)
          = Notification.user_id n) as Hu.
  { unfold read_if_listed. by case_decide. }
  assert (Notification.id (read_if_listed user_id notification_ids n)
          = Notification.id n) as Hi.
  { unfold read_if_listed. by case_decide. }
  destruct (decide (Notification.user_id n = user_id)) as [Hn|Hn].
  - rewrite !filter_cons_True by (split; [congruence|done]).
    rewrite !fmap_cons. by rewrite Hi, IH.
  - rewrite !filter_cons_False by (intros [? _]; congruence). done.
Qed.

(** X13. The endpoint that marks one notification as read, on a table with
    unique notification ids. For a notification of the caller that is already
    read it answers 404 and changes nothing, although the notification exists.
    For an unread notification of a caller who has at most 100 notifications
    it stores the notification as read and answers with the stored row. *)
Theorem mark_notification_read_responses
    (user_id notification_id : ident) (session : Session) (n : Notification.t) :
  NoDup (Notification.id <$> notifications session) →
  n ∈ notifications session →
  Notification.id n = notification_id → Notification.user_id n = user_id →
  if Notification.read n then
    mark_notification_read user_id notification_id session
    = (Ok (HTTPException 404%Z), session)
  else
    length (listing_of session user_id false) ≤ 100 →
    mark_notification_read user_id notification_id session
    = (Ok (Respond (notification_set_read true n)),
       set_notifications (fmap (read_if_listed user_id [notification_id])) session).
Proof.
  intros Hnd Hn Hid Hu. unfold mark_notification_read.
  destruct (Notification.read n) eqn:Hread.
  - unfold bind at 1. rewrite mark_as_read_run by done.
    rewrite filter_none.
    + simpl. unfold ret. f_equal.
      unfold set_notifications. destruct session; simpl in *. f_equal.
      rewrite <- (list_fmap_id notifications0) at 2.
      apply Forall_fmap_ext, Forall_forall. intros y Hy. simpl.
      unfold read_if_listed. case_decide as Hp; [|done].
      destruct Hp as (_ & Hyid%list_elem_of_singleton & Hyread).
      assert (y = n) as -> by (eapply (NoDup_key_inj Notification.id); eauto; congruence).
      congruence.
    + intros y Hy (_ & Hyid%list_elem_of_singleton & Hyread).
      assert (y = n) as -> by (eapply (NoDup_key_inj Notification.id); eauto; congruence).
      congruence.
  - intros Hfew. unfold bind at 1. rewrite mark_as_read_run by done.
    set (s' := set_notifications _ session).
    assert (n ∈ filter (λ n0, Notification.user_id n0 = user_id
                              ∧ Notification.id n0 ∈ [notification_id]
                              ∧ Notification.read n0 = false)
                       (notifications session)) as Hsel.
    { apply list_elem_of_filter. split; [|done]. split; [done|].
      split; [by apply list_elem_of_singleton|done]. }
    destruct (filter _ (notifications session)) as [|x rest] eqn:Hfilter;
      [by apply elem_of_nil in Hsel|].
    cbv beta iota. cbn [length]. rewrite bool_decide_eq_false_2 by done.
    unfold bind at 1. rewrite get_user_notifications_run. cbv beta iota. cbn [fst snd].
    rewrite drop_0, take_ge.
    2: { rewrite merge_sort_Permutation.
         rewrite <- (length_fmap Notification.id). subst s'.
         rewrite listing_of_read_if_listed, length_fmap. done. }
    assert (NoDup (Notification.id <$> notifications s')) as Hnd'.
    { subst s'. simpl. rewrite <- list_fmap_compose.
      erewrite list_fmap_ext; [done|]. intros i y _. simpl.
      unfold read_if_listed. by case_decide. }
    assert (notification_set_read true n ∈ notifications s') as Hin'.
    { subst s'. simpl. apply list_elem_of_fmap. exists n. split; [|done].
      unfold read_if_listed. rewrite decide_True; [done|].
      split; [done|]. split; [by apply list_elem_of_singleton|done]. }
    rewrite (head_filter_unique Notification.id _ _ (notification_set_read true n)).
    + done.
    + rewrite merge_sort_Permutation.
      eapply sublist_NoDup; [done|]. apply fmap_sublist, sublist_filter.
    + rewrite merge_sort_Permutation. apply list_elem_of_filter. by split.
    + done.
    + intros y Hy. simpl. congruence.
Qed.

Lemma mark_notification_read_responses_sample :
  mark_notification_read "alice" "note-2" sample_notifications_session
  = (Ok (HTTPException 404%Z), sample_notifications_session).
Proof.
  refine (mark_notification_read_responses "alice" "note-2"
            sample_notifications_session sample_read_notification _ _ _ _).
  - compute_done.
  - simpl. right. left.
  - reflexivity.
  - reflexivity.
Defined.

(** ** The notification cleanup job *)



(** ** The push registry *)

Lemma set_push_subscriptions_compose f g session :
  set_push_subscriptions g (set_push_subscriptions f session)
  = set_push_subscriptions (g ∘ f) session.
Proof. by destruct session. Qed.

(** Storing a changed copy of a row of the table keeps every column the
    change keeps. *)
Lemma upsert_fmap_same {A B} (key : A → ident) (g : A → B) (x x0 : A) (l : list A) :
  NoDup (key <$> l) → x0 ∈ l → key x = key x0 → g x = g x0 →
  g <$> upsert key x l = g <$> l.
Proof.
  intros Hnd Hx0 Hk Hg. unfold upsert. rewrite bool_decide_eq_true_2.
  - rewrite <- list_fmap_compose. apply Forall_fmap_ext, Forall_forall.
    intros y Hy. simpl. case_bool_decide as Hyk; [|done].
    assert (y = x0) as -> by (eapply (NoDup_key_inj key); eauto; congruence). done.
  - rewrite Hk. apply list_elem_of_fmap. eauto.
Qed.

(** X15. Registering a push subscription keeps the registry well formed and
    is idempotent per endpoint. On a registry with unique ids and unique
    endpoints, and with a fresh id at hand, the call returns a subscription of
    the caller with the given endpoint that is stored, and ids and endpoints
    stay unique. When the endpoint was not registered a row with the given keys
    is added; when it was, no row is added and the registered row keeps its id
    and its keys, whatever keys the call was given, and is moved to the caller
    if it belonged to another user. Every subscription with another endpoint is
    left as it was, and registering the same endpoint for the same user again
    changes nothing and returns the same row. *)
Theorem register_subscription_idempotent
    (new_id : ident) (now : datetime) (user_id : ident)
    (endpoint p256dh_key auth_key : string) (user_agent : option string)
    (session : Session) :
  NoDup (PushSubscription.id <$> push_subscriptions session) →
  NoDup (PushSubscription.endpoint <$> push_subscriptions session) →
  new_id ∉ PushSubscription.id <$> push_subscriptions session →
  ∃ subscription session',
    register_subscription new_id now user_id endpoint p256dh_key auth_key user_agent
                          session = (Ok subscription, session')
    ∧ PushSubscription.user_id subscription = user_id
    ∧ PushSubscription.endpoint subscription = endpoint
    ∧ subscription ∈ push_subscriptions session'
    ∧ NoDup (PushSubscription.id <$> push_subscriptions session')
    ∧ NoDup (PushSubscription.endpoint <$> push_subscriptions session')
    ∧ match head (filter (λ p, PushSubscription.endpoint p = endpoint)
                         (push_subscriptions session)) with
      | Some existing =>
          subscription = subscription_set_user_id user_id existing
          ∧ length (push_subscriptions session') = length (push_subscriptions session)
      | None =>
          subscription
          = PushSubscription.mk new_id user_id endpoint p256dh_key auth_key
                                user_agent now None
          ∧ push_subscriptions session' = push_subscriptions session ++ [subscription]
      end
    ∧ (∀ p, p ∈ push_subscriptions session → PushSubscription.endpoint p ≠ endpoint →
            p ∈ push_subscriptions session')
    ∧ ∀ new_id' now' p256dh_key' auth_key' user_agent',
        register_subscription new_id' now' user_id endpoint p256dh_key' auth_key'
                              user_agent' session' = (Ok subscription, session').
Proof.
  intros Hids Hends Hfresh. unfold register_subscription at 1. unfold bind at 1.
  unfold get_session.
  assert (∀ (l : list PushSubscription.t) (sub : PushSubscription.t) s,
            push_subscriptions s = l →
            NoDup (PushSubscription.endpoint <$> l) → sub ∈ l →
            PushSubscription.endpoint sub = endpoint →
            PushSubscription.user_id sub = user_id →
            ∀ new_id' now' p256dh_key' auth_key' user_agent',
              register_subscription new_id' now' user_id endpoint p256dh_key'
                                    auth_key' user_agent' s = (Ok sub, s)) as Hagain.
  { intros l sub s Hl Hnd Hsub Hend Hu new_id' now' k1 k2 ua.
    unfold register_subscription. unfold bind at 1. unfold get_session. rewrite Hl.
    rewrite (head_filter_unique PushSubscription.endpoint _ _ sub); [|done..|].
    - by rewrite bool_decide_eq_false_2 by (intros H; by apply H).
    - intros y Hy. congruence. }
  destruct (head (filter _ (push_subscriptions session))) as [existing|] eqn:Hhead.
  - apply head_Some_elem_of, list_elem_of_filter in Hhead as [Hend Hin].
    case_bool_decide as Huser.
    + unfold_M. eexists _, _. split; [done|]. simpl.
      set (moved := subscription_set_user_id user_id existing).
      assert (PushSubscription.id <$> upsert PushSubscription.id moved
                                        (push_subscriptions session)
              = PushSubscription.id <$> push_subscriptions session) as Hkeys.
      { apply upsert_keys. apply list_elem_of_fmap. by exists existing. }
      assert (PushSubscription.endpoint <$> upsert PushSubscription.id moved
                                              (push_subscriptions session)
              = PushSubscription.endpoint <$> push_subscriptions session) as Hendpoints.
      { by apply (upsert_fmap_same _ _ moved existing). }
      split; [done|]. split; [done|]. split; [apply upsert_elem_of|].
      split; [by rewrite Hkeys|]. split; [by rewrite Hendpoints|].
      split.
      { split; [done|]. rewrite <- (length_fmap PushSubscription.id), Hkeys.
        by rewrite length_fmap. }
      split.
      { intros p Hp Hne. apply upsert_other; [|done]. simpl. intros Hk.
        apply Hne. rewrite <- Hend. f_equal.
        by eapply (NoDup_key_inj PushSubscription.id). }
      eapply (Hagain (upsert PushSubscription.id moved (push_subscriptions session)));
        [done|by rewrite Hendpoints|apply upsert_elem_of|done..].
    + unfold ret. eexists _, _. split; [done|].
      assert (PushSubscription.user_id existing = user_id) as Hu.
      { destruct (decide (PushSubscription.user_id existing = user_id)); [done|].
        by destruct Huser. }
      split; [done|]. split; [done|]. split; [done|]. split; [done|].
      split; [done|]. split.
      { split; [|done]. destruct existing. simpl in *. by subst. }
      split; [done|]. by eapply Hagain.
  - unfold_M. eexists _, _. split; [done|]. simpl.
    apply head_None in Hhead.
    split; [done|]. split; [done|]. split; [apply elem_of_app; right; by left|].
    split.
    { rewrite fmap_app. apply NoDup_app. split; [done|]. split.
      - intros k Hk Hk'. apply list_elem_of_singleton in Hk'. by subst.
      - apply NoDup_singleton. }
    split.
    { rewrite fmap_app. apply NoDup_app. split; [done|]. split.
      - intros e (p & -> & Hp)%list_elem_of_fmap He.
        apply list_elem_of_singleton in He. simpl in He.
        assert (p ∈ filter (λ p, PushSubscription.endpoint p = endpoint)
                           (push_subscriptions session)) as Hin
          by by apply list_elem_of_filter.
        rewrite Hhead in Hin. by apply elem_of_nil in Hin.
      - apply NoDup_singleton. }
    split; [done|]. split; [intros p Hp _; apply elem_of_app; by left|].
    eapply (Hagain (push_subscriptions session ++ _));
      [done| |apply elem_of_app; right; by left|done..].
    rewrite fmap_app. apply NoDup_app. split; [done|]. split.
    + intros e (p & -> & Hp)%list_elem_of_fmap He.
      apply list_elem_of_singleton in He. simpl in He.
      assert (p ∈ filter (λ p, PushSubscription.endpoint p = endpoint)
                         (push_subscriptions session)) as Hin
        by by apply list_elem_of_filter.
      rewrite Hhead in Hin. by apply elem_of_nil in Hin.
    + apply NoDup_singleton.
Qed.

Lemma register_subscription_idempotent_sample :
  ∃ subscription session',
    register_subscription "sub-9" 1772400000000000 "bob"
      "https://push.example.com/send/abc" "BKey" "auth" None sample_session
    = (Ok subscription, session')
    ∧ PushSubscription.user_id subscription = "bob"
    ∧ PushSubscription.id subscription = "sub-1"
    ∧ length (push_subscriptions session') = 1.
Proof.
  destruct (register_subscription_idempotent "sub-9" 1772400000000000 "bob"
              "https://push.example.com/send/abc" "BKey" "auth" None sample_session)
    as (subscription & session' & Hrun & Huser & _ & _ & _ & _ & Hcase & _).
  - compute_done.
  - compute_done.
  - compute_done.
  - exists subscription, session'. simpl in Hcase. destruct Hcase as [-> Hlen].
    repeat split; done.
Defined.

(** ** Fan-out to the subscriptions of a user *)

Section FanOut.

Variable webpush :
  SubscriptionInfo → Payload → option string → option string → option exn.
Variable Response_bool : Response → bool.

Lemma send_to_subscriptions_unconfigured self now subscriptions title body url tag
    n session :
  is_configured self = false →
  send_to_subscriptions webpush Response_bool self now subscriptions title body
                        url tag n session = (Ok n, session).
Proof.
  intros Hconf. revert n.
  induction subscriptions as [|p rest IH]; intros n; simpl; [done|].
  unfold bind at 1. unfold send_push_notification. rewrite Hconf. simpl.
  apply IH.
Qed.

(** X16. A push service is configured exactly when its three VAPID settings
    are present and not empty. When it is not, a fan-out to a user returns 0
    and leaves the store as it was, whatever the transport would do: no
    exception reaches the caller and no subscription is touched. *)
Theorem send_to_user_unconfigured
    (self : PushService) (now : datetime) (user_id : ident) (title body : string)
    (url tag : option string) (session : Session) :
  (is_configured self = true ↔
   ∃ public private email,
     vapid_public_key self = Some public ∧ vapid_private_key self = Some private
     ∧ vapid_claims_email self = Some email
     ∧ public ≠ EmptyString ∧ private ≠ EmptyString ∧ email ≠ EmptyString)
  ∧ (is_configured self = false →
     send_to_user webpush Response_bool self now user_id title body url tag session
     = (Ok 0, session)).
Proof.
  split.
  - unfold is_configured, truthy.
    destruct (vapid_public_key self) as [a|], (vapid_private_key self) as [b|],
      (vapid_claims_email self) as [c|]; simpl;
      rewrite ?andb_true_iff, ?negb_true_iff, ?String.eqb_neq, ?andb_false_r.
    1: { split; [intros [[? ?] ?]; by eexists _, _, _|].
         intros (x & y & z & [= <-] & [= <-] & [= <-] & ? & ? & ?). done. }
    all: split; [try (intros [[? ?] ?]); try (intros [? ?]); discriminate|].
    all: by intros (x & y & z & ? & ? & ? & _).
  - intros Hconf. unfold send_to_user, get_user_subscriptions. unfold_M.
    by apply send_to_subscriptions_unconfigured.
Qed.

Lemma send_to_subscriptions_accepted self now subscriptions title body url tag
    n session :
  is_configured self = true →
  (∀ info payload key email, webpush info payload key email = None) →
  send_to_subscriptions webpush Response_bool self now subscriptions title body
                        url tag n session
  = (Ok (n + length subscriptions),
     set_push_subscriptions
       (λ l, foldl (λ l x, upsert PushSubscription.id (set_last_used_at (Some now) x) l)
                   l subscriptions)
       session).
Proof.
  intros Hconf Haccept. revert n session.
  induction subscriptions as [|p rest IH]; intros n session.
  - simpl. unfold ret. rewrite Nat.add_0_r. by destruct session.
  - simpl. unfold bind at 1. unfold send_push_notification.
    rewrite Hconf, Haccept. simpl. unfold_M.
    rewrite IH, set_push_subscriptions_compose. simpl. do 2 f_equal. lia.
Qed.

(** X17. With a configured service and a transport that accepts every
    delivery, on a registry with unique ids, a fan-out to a user returns the
    number of subscriptions of that user, stamps [last_used_at] with the
    current instant on each of them, and changes nothing else. *)
Theorem send_to_user_stamps_all
    (self : PushService) (now : datetime) (user_id : ident) (title body : string)
    (url tag : option string) (session : Session) :
  is_configured self = true →
  (∀ info payload key email, webpush info payload key email = None) →
  NoDup (PushSubscription.id <$> push_subscriptions session) →
  send_to_user webpush Response_bool self now user_id title body url tag session
  = (Ok (length (filter (λ p, PushSubscription.user_id p = user_id)
                        (push_subscriptions session))),
     set_push_subscriptions (fmap (stamp_if_owned now user_id)) session).
Proof.
  intros Hconf Haccept Hnd. unfold send_to_user, get_user_subscriptions.
  unfold bind, get_session, ret.
  rewrite send_to_subscriptions_accepted by done. simpl. f_equal.
  unfold set_push_subscriptions. f_equal.
  by rewrite (foldl_upsert_filter PushSubscription.id) by done.
Qed.

End FanOut.

Lemma send_to_user_stamps_all_sample :
  send_to_user accepting_webpush requests_Response_bool sample_push_service
    1772400000000000 "alice" "Reminder: Water the plants" "Due: Mar 01, 2026"
    (Some "/todos/todo-1") (Some "reminder-rem-2") sample_session
  = (Ok (length (filter (λ p, PushSubscription.user_id p = "alice")
                        (push_subscriptions sample_session))),
     set_push_subscriptions (fmap (stamp_if_owned 1772400000000000 "alice"))
                            sample_session).
Proof.
  apply (send_to_user_stamps_all accepting_webpush requests_Response_bool
           sample_push_service 1772400000000000 "alice").
  - reflexivity.
  - reflexivity.
  - compute_done.
Defined.

(** An unconfigured service on the sample store. *)
Example send_to_user_unconfigured_sample :
  send_to_user failing_webpush requests_Response_bool sample_unconfigured_service
    1772400000000000 "alice" "Reminder: Water the plants" "Due: Mar 01, 2026"
    None None sample_session
  = (Ok 0, sample_session).
Proof. by vm_compute. Qed.

(** ** Listing the occurrences of a series *)

#[global] Instance occurrence_date_le_total : Total occurrence_date_le.
Proof. intros a b. unfold occurrence_date_le. lia. Qed.

#[global] Instance occurrence_date_le_trans : Transitive occurrence_date_le.
Proof. intros a b c. unfold occurrence_date_le. lia. Qed.

(** The first row of a sorted table is a row of the table that is before
    every other. *)
Lemma head_merge_sort {A} (R : relation A) `{!RelDecision R} `{!Total R}
    `{!Transitive R} (l : list A) :
  match head (merge_sort R l) with
  | Some x => x ∈ l ∧ ∀ y, y ∈ l → R x y
  | None => l = []
  end.
Proof.
  pose proof (StronglySorted_merge_sort R l) as Hsorted.
  pose proof (merge_sort_Permutation R l) as Hperm.
  destruct (merge_sort R l) as [|x sorted]; simpl.
  - symmetry. by apply Permutation_nil_l.
  - split; [rewrite <- Hperm; by left|].
    intros y Hy. rewrite <- Hperm in Hy.
    apply StronglySorted_cons in Hsorted as [Hx _].
    apply elem_of_cons in Hy as [->|Hy].
    + destruct (total R x x); done.
    + by eapply Forall_forall.
Qed.

Lemma StronglySorted_strict (l : list TodoOccurrence.t) :
  StronglySorted occurrence_date_le l →
  NoDup (TodoOccurrence.occurrence_date <$> l) →
  StronglySorted occurrence_date_lt l.
Proof.
  induction l as [|o l IH]; intros Hs Hnd; [constructor|].
  rewrite fmap_cons in Hnd. apply NoDup_cons in Hnd as [Ho Hnd].
  apply StronglySorted_cons in Hs as [Hle Hs].
  apply StronglySorted_cons. split; [|by apply IH].
  apply Forall_forall. intros o' Ho'.
  rewrite Forall_forall in Hle. specialize (Hle o' Ho').
  unfold occurrence_date_le, occurrence_date_lt in *.
  assert (TodoOccurrence.occurrence_date o' ≠ TodoOccurrence.occurrence_date o).
  { intros Heq. apply Ho. rewrite <- Heq. apply list_elem_of_fmap. eauto. }
  lia.
Qed.

(** X18. The occurrences listed for a todo of the caller are exactly the
    occurrences of that series that belong to the caller, restricted to the
    given status when there is one, each once, ordered by date; and on a store
    that satisfies the unique constraint on (parent todo id, occurrence date)
    no two of them share a date, so the dates increase strictly. *)
Theorem get_occurrences_scoped_sorted
    (session : Session) (user_id todo_id : ident)
    (status : option OccurrenceStatus.t) (todo : Todo.t) :
  get_todo_by_id session user_id todo_id = Some todo →
  let listed := get_occurrences session user_id todo_id status in
  listed ≡ₚ filter (λ o, of_series user_id todo_id o ∧ status_matches status o)
                   (occurrences session)
  ∧ StronglySorted occurrence_date_le listed
  ∧ (uq_occurrence_date (occurrences session) →
     StronglySorted occurrence_date_lt listed).
Proof.
  intros Htodo listed. subst listed. unfold get_occurrences. rewrite Htodo.
  set (query := match status with Some _ => _ | None => _ end).
  assert (query = filter (λ o, of_series user_id todo_id o ∧ status_matches status o)
                         (occurrences session)) as Hquery.
  { subst query. destruct status as [st|].
    - rewrite list_filter_filter. apply list_filter_iff. intros o.
      unfold of_series. simpl. tauto.
    - apply list_filter_iff. intros o. unfold of_series. simpl. tauto. }
  split; [by rewrite merge_sort_Permutation, Hquery|].
  split; [apply StronglySorted_merge_sort; apply _|].
  intros Huq. apply StronglySorted_strict.
  { apply StronglySorted_merge_sort; apply _. }
  rewrite merge_sort_Permutation, Hquery.
  unfold uq_occurrence_date in Huq.
  apply (NoDup_fmap_1 (λ d, (todo_id, d))). rewrite <- list_fmap_compose.
  eapply sublist_NoDup; [done|].
  erewrite list_fmap_ext; [apply fmap_sublist, sublist_filter|].
  intros i o Ho. simpl.
  apply list_elem_of_lookup_2, list_elem_of_filter in Ho as [[[Hp _] _] _].
  unfold occurrence_key. by rewrite Hp.
Qed.

Lemma get_occurrences_scoped_sorted_sample :
  let listed := get_occurrences sample_series_session "alice" "todo-1"
                                (Some OccurrenceStatus.PENDING) in
  listed ≡ₚ filter (λ o, of_series "alice" "todo-1" o
                         ∧ status_matches (Some OccurrenceStatus.PENDING) o)
                   (occurrences sample_series_session)
  ∧ StronglySorted occurrence_date_le listed
  ∧ (uq_occurrence_date (occurrences sample_series_session) →
     StronglySorted occurrence_date_lt listed).
Proof.
  apply (get_occurrences_scoped_sorted sample_series_session "alice" "todo-1"
           (Some OccurrenceStatus.PENDING) sample_todo).
  reflexivity.
Defined.

(** ** The current occurrence of a series *)

(** X19. The current occurrence of a series is, when the caller has an
    occurrence of the series dated today, such an occurrence whatever its
    status (so also one that is already completed or skipped); otherwise the
    earliest pending occurrence of the caller dated after today; and [None]
    exactly when there is neither. An occurrence dated before today is never
    current, pending or not. *)
Theorem get_current_occurrence_today_first
    (session : Session) (today : date) (user_id todo_id : ident) :
  match get_current_occurrence session today user_id todo_id with
  | Some o =>
      o ∈ occurrences session ∧ of_series user_id todo_id o
      ∧ (today ≤ TodoOccurrence.occurrence_date o)%Z
      ∧ (TodoOccurrence.occurrence_date o ≠ today →
         TodoOccurrence.status o = OccurrenceStatus.PENDING
         ∧ (∀ o', o' ∈ occurrences session → of_series user_id todo_id o' →
                  TodoOccurrence.occurrence_date o' ≠ today)
         ∧ ∀ o', o' ∈ occurrences session → of_series user_id todo_id o' →
                 TodoOccurrence.status o' = OccurrenceStatus.PENDING →
                 (today < TodoOccurrence.occurrence_date o')%Z →
                 (TodoOccurrence.occurrence_date o
                  ≤ TodoOccurrence.occurrence_date o')%Z)
  | None =>
      ∀ o', o' ∈ occurrences session → of_series user_id todo_id o' →
            (TodoOccurrence.occurrence_date o' < today)%Z
            ∨ ((today < TodoOccurrence.occurrence_date o')%Z
               ∧ TodoOccurrence.status o' ≠ OccurrenceStatus.PENDING)
  end.
Proof.
  unfold get_current_occurrence. cbv zeta.
  destruct (head (filter _ (occurrences session))) as [o|] eqn:Htoday.
  - apply head_Some_elem_of, list_elem_of_filter in Htoday as [(Hp & Hu & Hd) Ho].
    split; [done|]. split; [done|]. split; [lia|]. intros Hne. done.
  - apply head_None in Htoday.
    assert (∀ o', o' ∈ occurrences session → of_series user_id todo_id o' →
                  TodoOccurrence.occurrence_date o' ≠ today) as Hnone.
    { intros o' Ho' [Hp Hu] Hd.
      assert (o' ∈ filter
                (λ o, TodoOccurrence.parent_todo_id o = todo_id
                      ∧ TodoOccurrence.user_id o = user_id
                      ∧ TodoOccurrence.occurrence_date o = today)
                (occurrences session)) as Hin by by apply list_elem_of_filter.
      rewrite Htoday in Hin. by apply elem_of_nil in Hin. }
    match goal with
    | |- context [merge_sort ?R ?l] => pose proof (head_merge_sort R l) as Hhead
    end.
    destruct (head (merge_sort _ _)) as [o|].
    + destruct Hhead as [Ho Hmin].
      apply list_elem_of_filter in Ho as [(Hp & Hu & Hst & Hd) Ho].
      split; [done|]. split; [done|]. split; [lia|]. intros _.
      split; [done|]. split; [done|].
      intros o' Ho' [Hp' Hu'] Hst' Hd'. apply Hmin.
      by apply list_elem_of_filter.
    + intros o' Ho' [Hp Hu].
      destruct (Z.lt_trichotomy (TodoOccurrence.occurrence_date o') today)
        as [Hlt|[Heq|Hgt]]; [by left| |right].
      * by destruct (Hnone o' Ho').
      * split; [done|]. intros Hst.
        assert (o' ∈ filter
                  (λ o, TodoOccurrence.parent_todo_id o = todo_id
                        ∧ TodoOccurrence.user_id o = user_id
                        ∧ TodoOccurrence.status o = OccurrenceStatus.PENDING
                        ∧ (today < TodoOccurrence.occurrence_date o)%Z)
                  (occurrences session)) as Hin by by apply list_elem_of_filter.
        rewrite Hhead in Hin. by apply elem_of_nil in Hin.
Qed.

(** On the sample series, whose occurrence of day 20513 is completed: on
    that day the completed occurrence is the current one, a day later the
    pending occurrence of day 20514. *)
Example get_current_occurrence_sample :
  get_current_occurrence sample_series_session 20513 "alice" "todo-1"
  = Some sample_completed_occurrence
  ∧ TodoOccurrence.id
      <$> get_current_occurrence sample_series_session 20514 "alice" "todo-1"
    = Some "occ-2".
Proof. by vm_compute. Qed.

(** ** Topping up after a change of status *)

#[global] Instance Z_ge_total : Total Z.ge.
Proof. intros a b. lia. Qed.

#[global] Instance Z_ge_trans : Transitive Z.ge.
Proof. intros a b c. lia. Qed.

Section EnsureProperties.

Variable rrulestr : string → option datetime → Result (list datetime).



End EnsureProperties.

Lemma date_of_combine_min (d : date) : Datetime.date_of (Datetime.combine_min d) = d.
Proof. unfold Datetime.date_of, Datetime.combine_min. by apply Z.div_mul. Qed.

Section AnchorProperties.

Variable rrulestr : string → option datetime → Result (list datetime).

(** X21. The top-up enumerates the rule from the day after the latest
    occurrence of the series, with that day as the start of the rule. So for a
    rule whose first occurrence is its start (as it is for a rule without
    [BY...] parts) the top-up stores an occurrence for the day after the
    latest one, whatever the frequency of the rule. This holds on a store that
    satisfies the unique constraint, for a recurring todo of the caller with a
    rule that parses and has no two occurrences on one day, when the caller has
    fewer pending occurrences from today on than are to be kept. *)
Theorem _ensure_future_occurrences_restarts_rule
    (ids : nat → ident) (now : datetime) (today : date) (user_id todo_id : ident)
    (min_future : option nat) (session : Session) (todo : Todo.t)
    (rrule : string) (latest : date) (rule : list datetime) :
  get_todo_by_id session user_id todo_id = Some todo →
  Todo.is_recurring todo = true →
  Todo.rrule todo = Some rrule → rrule ≠ EmptyString →
  length (pending_from today user_id todo_id session) < default 5 min_future →
  latest ∈ existing_dates_of session todo_id →
  (∀ d, d ∈ existing_dates_of session todo_id → (d ≤ latest)%Z) →
  uq_occurrence_date (occurrences session) →
  parse_rule rrulestr rrule (Datetime.combine_min (latest + 1)) = Ok rule →
  head rule = Some (Datetime.combine_min (latest + 1)) →
  NoDup (Datetime.date_of <$> rule) →
  ∃ added session' o,
    _ensure_future_occurrences rrulestr ids now today user_id todo_id min_future
                               session = (Ok (length added), session')
    ∧ occurrences session' = occurrences session ++ added
    ∧ o ∈ added
    ∧ TodoOccurrence.occurrence_date o = (latest + 1)%Z.
Proof.
  intros Htodo Hrec Hrrule Hne Hfew Hlatest Hmax Huq Hparse Hhead Hnd.
  unfold _ensure_future_occurrences. cbv zeta. unfold bind at 1. unfold get_session.
  rewrite Htodo, Hrec, Hrrule.
  assert (truthy (Some rrule) = true) as ->.
  { unfold truthy. apply negb_true_iff. by apply String.eqb_neq. }
  cbn [negb orb].
  fold (pending_from today user_id todo_id session).
  rewrite bool_decide_eq_false_2 by lia.
  match goal with
  | |- context [merge_sort Z.ge ?l] => pose proof (head_merge_sort Z.ge l) as Hfirst
  end.
  fold (existing_dates_of session todo_id) in *.
  destruct (head (merge_sort Z.ge _)) as [first|].
  2:{ rewrite Hfirst in Hlatest. by apply elem_of_nil in Hlatest. }
  destruct Hfirst as [Hin Hge].
  assert (first = latest) as ->.
  { specialize (Hge latest Hlatest). specialize (Hmax first Hin). lia. }
  simpl default.
  set (cap := Z.of_nat (default 5 min_future * 2)).
  assert (∃ extra,
            generate_occurrences rrulestr rrule (latest + 1) (Some (latest + 1)%Z)
                                 None (Some cap)
            = Ok ((latest + 1)%Z :: extra)
            ∧ NoDup ((latest + 1)%Z :: extra)) as (extra & Hgen & Hdates).
  { unfold generate_occurrences. rewrite Hparse. simpl default.
    destruct rule as [|dt rest]; [done|]. injection Hhead as ->.
    destruct (collect_occurrences_extends
                (Datetime.combine_min (latest + 1) :: rest) (latest + 1)
                (latest + 1 + 30) cap []) as (all & Hall & Hsub & _).
    destruct (collect_occurrences_extends rest (latest + 1) (latest + 1 + 30) cap
                [(latest + 1)%Z]) as (extra & Hextra & _).
    assert (collect_occurrences (Datetime.combine_min (latest + 1) :: rest)
              (latest + 1) (latest + 1 + 30) cap []
            = (latest + 1)%Z :: extra) as Heq.
    { cbn [collect_occurrences]. rewrite date_of_combine_min.
      rewrite (bool_decide_eq_false_2 (latest + 1 + 30 < latest + 1)%Z) by lia.
      rewrite (bool_decide_eq_true_2 (latest + 1 ≤ latest + 1)%Z) by lia.
      cbv beta iota zeta. simpl app.
      rewrite bool_decide_eq_false_2 by (subst cap; simpl; lia).
      by rewrite Hextra. }
    exists extra. rewrite Heq. split; [done|].
    rewrite Heq in Hall. simpl in Hall. rewrite Hall.
    eapply sublist_NoDup; [exact Hnd|done]. }
  pose proof (_generate_occurrences_commits rrulestr ids now user_id todo_id rrule
                (latest + 1) (Some cap) session _ Hgen Hdates Huq)
    as (created & s' & Hcommits).
  rewrite _generate_occurrences_unfold in Hcommits |- *.
  simpl default in *. rewrite Hgen in Hcommits |- *. cbv zeta in *.
  set (fresh := filter _ (_ :: extra)) in *.
  set (added := occurrence_rows _ _ _ _ fresh) in *.
  assert ((latest + 1)%Z ∈ fresh) as Hfresh.
  { apply list_elem_of_filter. split; [|by left].
    intros Hold. specialize (Hmax _ Hold). lia. }
  destruct (occurrence_rows_date ids now user_id todo_id fresh _ Hfresh)
    as (o & Ho & _ & Hdate).
  fold added in Ho.
  assert (0 < length added) as Hlen.
  { destruct added; [by apply elem_of_nil in Ho|simpl; lia]. }
  rewrite bool_decide_eq_true_2 in * by done.
  destruct (bool_decide (uq_occurrence_date _)); [|done].
  destruct (session_get_todo session todo_id) as [stored|].
  - eexists added, _, o. split; [done|]. by simpl.
  - eexists added, _, o. split; [done|]. by simpl.
Qed.

End AnchorProperties.

Lemma _ensure_future_occurrences_restarts_rule_sample :
  ∃ added session' o,
    _ensure_future_occurrences sample_rrulestr sample_ids 1772400000000000 20513
                               "alice" "todo-7" None sample_weekly_session
    = (Ok (length added), session')
    ∧ occurrences session' = occurrences sample_weekly_session ++ added
    ∧ o ∈ added
    ∧ TodoOccurrence.occurrence_date o = (20513 + 1)%Z.
Proof.
  apply (_ensure_future_occurrences_restarts_rule sample_rrulestr sample_ids
           1772400000000000 20513 "alice" "todo-7" None sample_weekly_session
           sample_weekly_todo "FREQ=WEEKLY" 20513
           ((λ k, Datetime.combine_min (20513 + 1) + Z.of_nat k * 7 * Datetime.usec_per_day)%Z
              <$> seq 0 60)).
  - reflexivity.
  - reflexivity.
  - reflexivity.
  - done.
  - simpl. lia.
  - simpl. left.
  - intros d Hd. vm_compute in Hd. apply list_elem_of_singleton in Hd.
    subst d. lia.
  - compute_done.
  - reflexivity.
  - reflexivity.
  - compute_done.
Defined.

(** The weekly sample series after its top-up: the new occurrences start on
    day 20514, the day after the completed one, and follow each other by a
    week from there. *)
Example _ensure_future_occurrences_weekly_dates :
  TodoOccurrence.occurrence_date
    <$> occurrences
          (_ensure_future_occurrences sample_rrulestr sample_ids 1772400000000000
             20513 "alice" "todo-7" None sample_weekly_session).2
  = [20513; 20514; 20521; 20528; 20535; 20542]%Z.
Proof. by vm_compute. Qed.

(** ** Completing and skipping an occurrence *)

Section CompleteProperties.

Variable rrulestr : string → option datetime → Result (list datetime).

Lemma update_occurrence_status_run now user_id occurrence_id new_status session o :
  NoDup (TodoOccurrence.id <$> occurrences session) →
  o ∈ occurrences session →
  TodoOccurrence.id o = occurrence_id → TodoOccurrence.user_id o = user_id →
  update_occurrence_status now user_id occurrence_id new_status session
  = (Ok (Some (occurrence_update_status now new_status o)),
     set_occurrences
       (upsert TodoOccurrence.id (occurrence_update_status now new_status o)) session).
Proof.
  intros Hnd Ho Hid Hu. unfold update_occurrence_status. unfold bind at 1.
  unfold get_session.
  rewrite (head_filter_unique TodoOccurrence.id _ _ o); [done..|].
  intros y [Hy _]. congruence.
Qed.

(** X22. On a table with unique occurrence ids, completing one's own
    occurrence stores it as completed with [completed_at] and [updated_at] set
    to the current instant, and skipping it stores it as skipped with
    [updated_at] set and [completed_at] left as it was; the date, the series
    and the owner are kept. The top-up that follows only appends occurrences.
    The change of status is stored before the top-up runs, so it stays stored
    also when the top-up raises and the call raises with it. *)
Theorem complete_and_skip_store_first
    (ids : nat → ident) (now : datetime) (today : date)
    (user_id occurrence_id : ident) (session : Session) (o : TodoOccurrence.t) :
  NoDup (TodoOccurrence.id <$> occurrences session) →
  o ∈ occurrences session →
  TodoOccurrence.id o = occurrence_id → TodoOccurrence.user_id o = user_id →
  let completed :=
    TodoOccurrence.mk (TodoOccurrence.id o) (TodoOccurrence.parent_todo_id o)
      (TodoOccurrence.user_id o) (TodoOccurrence.occurrence_date o)
      OccurrenceStatus.COMPLETED (Some now) (TodoOccurrence.created_at o) now in
  let skipped :=
    TodoOccurrence.mk (TodoOccurrence.id o) (TodoOccurrence.parent_todo_id o)
      (TodoOccurrence.user_id o) (TodoOccurrence.occurrence_date o)
      OccurrenceStatus.SKIPPED (TodoOccurrence.completed_at o)
      (TodoOccurrence.created_at o) now in
  (∃ result added session',
     complete_occurrence rrulestr ids now today user_id occurrence_id session
     = (result, session')
     ∧ (result = Ok (Some completed) ∨ ∃ e, result = Raise e)
     ∧ occurrences session'
       = upsert TodoOccurrence.id completed (occurrences session) ++ added)
  ∧ (∃ result added session',
       skip_occurrence rrulestr ids now today user_id occurrence_id session
       = (result, session')
       ∧ (result = Ok (Some skipped) ∨ ∃ e, result = Raise e)
       ∧ occurrences session'
         = upsert TodoOccurrence.id skipped (occurrences session) ++ added).
Proof.
  intros Hnd Ho Hid Hu completed skipped. split.
  - unfold complete_occurrence. unfold bind at 1.
    rewrite (update_occurrence_status_run _ _ _ _ _ o) by done.
    fold completed. cbv beta iota.
    set (s1 := set_occurrences _ session).
    destruct (_ensure_future_occurrences_effect rrulestr ids now today user_id
                (TodoOccurrence.parent_todo_id
                   (occurrence_update_status now OccurrenceStatus.COMPLETED o))
                None s1) as (r & added & s2 & Hrun & Hocc & _).
    unfold bind at 1. rewrite Hrun.
    destruct r as [n|e]; eexists _, added, s2; (split; [done|]);
      (split; [|done]); [by left|right; by eexists].
  - unfold skip_occurrence. unfold bind at 1.
    rewrite (update_occurrence_status_run _ _ _ _ _ o) by done.
    fold skipped. cbv beta iota.
    set (s1 := set_occurrences _ session).
    destruct (_ensure_future_occurrences_effect rrulestr ids now today user_id
                (TodoOccurrence.parent_todo_id
                   (occurrence_update_status now OccurrenceStatus.SKIPPED o))
                None s1) as (r & added & s2 & Hrun & Hocc & _).
    unfold bind at 1. rewrite Hrun.
    destruct r as [n|e]; eexists _, added, s2; (split; [done|]);
      (split; [|done]); [by left|right; by eexists].
Qed.

End CompleteProperties.

Lemma complete_and_skip_store_first_sample :
  ∃ result added session',
    complete_occurrence sample_rrulestr sample_ids 1772400000000000 20513
                        "alice" "occ-8" sample_rejected_session
    = (result, session')
    ∧ (result
       = Ok (Some (TodoOccurrence.mk "occ-8" "todo-8" "alice" 20513
                     OccurrenceStatus.COMPLETED (Some 1772400000000000%Z)
                     1772000000000000 1772400000000000))
       ∨ ∃ e, result = Raise e)
    ∧ occurrences session'
      = upsert TodoOccurrence.id
          (TodoOccurrence.mk "occ-8" "todo-8" "alice" 20513
             OccurrenceStatus.COMPLETED (Some 1772400000000000%Z)
             1772000000000000 1772400000000000)
          (occurrences sample_rejected_session) ++ added.
Proof.
  refine (proj1 (complete_and_skip_store_first sample_rrulestr sample_ids
                   1772400000000000 20513 "alice" "occ-8" sample_rejected_session
                   (TodoOccurrence.mk "occ-8" "todo-8" "alice" 20513
                      OccurrenceStatus.PENDING None 1772000000000000
                      1772000000000000) _ _ _ _)).
  - compute_done.
  - simpl. left.
  - reflexivity.
  - reflexivity.
Defined.

(** On that series the top-up raises, and the occurrence is stored as
    completed all the same. *)
Example complete_occurrence_raises_after_storing :
  let out := complete_occurrence sample_rrulestr sample_ids 1772400000000000 20513
                                 "alice" "occ-8" sample_rejected_session in
  out.1 = Raise (ValueError "invalid rrule")
  ∧ TodoOccurrence.status <$> occurrences out.2 = [OccurrenceStatus.COMPLETED].
Proof. by vm_compute. Qed.

(** ** The default reminder *)

Lemma _auto_apply_default_reminder_run reminder_id now user_id todo_id due_date
    session :
  _auto_apply_default_reminder reminder_id now user_id todo_id due_date session
  = (Ok (default_reminder reminder_id now user_id todo_id due_date session),
     match default_reminder reminder_id now user_id todo_id due_date session with
     | Some r => set_reminders (λ l, l ++ [r]) session
     | None => session
     end).
Proof.
  unfold _auto_apply_default_reminder, default_reminder, default_offset_of.
  unfold bind at 1. unfold get_session.
  destruct (head _) as [prefs|]; simpl; [|done].
  destruct (UserPreferences.default_reminder_offset prefs) as [offset|]; [|done].
  destruct (decide (end_of_day due_date + Datetime.timedelta_minutes offset ≤ now)%Z).
  - rewrite bool_decide_eq_true_2 by done.
    by rewrite bool_decide_eq_false_2 by lia.
  - rewrite bool_decide_eq_false_2 by done.
    by rewrite bool_decide_eq_true_2 by lia.
Qed.

(** X23. The default reminder and an explicit reminder count the same
    offset from different instants. For a todo of the caller with a due date
    and fewer than five active reminders, and a caller whose preferences give a
    default offset, the default reminder is created exactly when its fire
    instant, the offset counted from 23:59:59 of the due date, is after the
    current instant; it is then stored pending with the offset recorded, and
    it fires 23 hours 59 minutes and 59 seconds later than the reminder that
    [create_reminder] stores for the same offset, which counts from 00:00:00 of
    the due date. *)
Theorem default_reminder_counts_from_end_of_day
    (reminder_id new_id : ident) (now : datetime) (user_id todo_id : ident)
    (due_date : date) (offset : Z) (session : Session) (todo : Todo.t) :
  session_get_todo session todo_id = Some todo →
  Todo.user_id todo = user_id → Todo.due_date todo = Some due_date →
  active_count session todo_id < 5 →
  default_offset_of session user_id = Some offset →
  ∃ explicit,
    create_reminder new_id now user_id todo_id None (Some offset) None session
    = (Ok explicit, set_reminders (λ l, l ++ [explicit]) session)
    ∧ Reminder.fire_at explicit
      = (Datetime.combine_min due_date + Datetime.timedelta_minutes offset)%Z
    ∧ if bool_decide (now < Reminder.fire_at explicit + 86399 * 1000000)%Z then
        ∃ r,
          _auto_apply_default_reminder reminder_id now user_id todo_id due_date session
          = (Ok (Some r), set_reminders (λ l, l ++ [r]) session)
          ∧ Reminder.status r = ReminderStatus.PENDING
          ∧ Reminder.offset_minutes r = Some offset
          ∧ Reminder.fire_at r = (Reminder.fire_at explicit + 86399 * 1000000)%Z
      else
        _auto_apply_default_reminder reminder_id now user_id todo_id due_date session
        = (Ok None, session).
Proof.
  intros Htodo Howner Hdue Hcap Hoffset.
  unfold create_reminder. unfold bind at 1. unfold get_session.
  fold (active_count session todo_id).
  rewrite bool_decide_eq_false_2 by (unfold MAX_REMINDERS_PER_TODO; lia).
  rewrite Htodo. rewrite bool_decide_eq_false_2 by (intros H; by apply H).
  rewrite Hdue. unfold_M. eexists. split; [done|]. split; [done|]. simpl.
  rewrite _auto_apply_default_reminder_run. unfold default_reminder.
  rewrite Hoffset. unfold end_of_day. cbv zeta.
  assert ((Datetime.combine_min due_date + 86399 * 1000000
           + Datetime.timedelta_minutes offset
           = Datetime.combine_min due_date + Datetime.timedelta_minutes offset
             + 86399 * 1000000)%Z) as -> by lia.
  case_bool_decide; [|done]. eexists. by repeat split.
Qed.

Lemma default_reminder_counts_from_end_of_day_sample :
  ∃ explicit,
    create_reminder "rem-8" 1772000000000000 "alice" "todo-1" None (Some (-60)%Z) None
                    sample_prefs_session
    = (Ok explicit, set_reminders (λ l, l ++ [explicit]) sample_prefs_session)
    ∧ Reminder.fire_at explicit
      = (Datetime.combine_min 20513 + Datetime.timedelta_minutes (-60))%Z
    ∧ if bool_decide (1772000000000000 < Reminder.fire_at explicit + 86399 * 1000000)%Z
      then
        ∃ r,
          _auto_apply_default_reminder "rem-9" 1772000000000000 "alice" "todo-1"
                                       20513 sample_prefs_session
          = (Ok (Some r), set_reminders (λ l, l ++ [r]) sample_prefs_session)
          ∧ Reminder.status r = ReminderStatus.PENDING
          ∧ Reminder.offset_minutes r = Some (-60)%Z
          ∧ Reminder.fire_at r = (Reminder.fire_at explicit + 86399 * 1000000)%Z
      else
        _auto_apply_default_reminder "rem-9" 1772000000000000 "alice" "todo-1"
                                     20513 sample_prefs_session
        = (Ok None, sample_prefs_session).
Proof.
  apply (default_reminder_counts_from_end_of_day "rem-9" "rem-8" 1772000000000000
           "alice" "todo-1" 20513 (-60) sample_prefs_session sample_todo).
  - reflexivity.
  - reflexivity.
  - reflexivity.
  - unfold active_count. simpl. lia.
  - reflexivity.
Defined.

(** ** Creating a todo *)

Lemma default_reminder_same_preferences reminder_id now user_id todo_id due_date s s' :
  user_preferences s' = user_preferences s →
  default_reminder reminder_id now user_id todo_id due_date s'
  = default_reminder reminder_id now user_id todo_id due_date s.
Proof.
  intros Hprefs. unfold default_reminder, default_offset_of. by rewrite Hprefs.
Qed.

Lemma session_get_todo_app_fresh session new_todo :
  Todo.id new_todo ∉ Todo.id <$> todos session →
  session_get_todo (set_todos (λ l, l ++ [new_todo]) session) (Todo.id new_todo)
  = Some new_todo.
Proof.
  intros Hfresh. unfold session_get_todo. simpl. rewrite filter_app.
  rewrite (filter_none _ (todos session)).
  - by rewrite filter_cons_True.
  - intros t Ht Hid. apply Hfresh. rewrite <- Hid. apply list_elem_of_fmap. eauto.
Qed.



Section CreateProperties.

Variable rrulestr : string → option datetime → Result (list datetime).

(** X24. Creating a todo without a recurrence, with a fresh id and a list
    of distinct tag ids, returns the todo as it is stored: not completed, not
    recurring, owned by the caller, stamped with the current instant, with the
    given title, description, due date and priority. It adds that one row to
    the todos, one association for each listed tag the caller owns (the others
    are ignored), no occurrence, and the default reminder when the todo has a
    due date and the caller's default reminder is due in the future, and no
    reminder otherwise. *)
Theorem create_todo_plain
    (new_id : ident) (ids : nat → ident) (reminder_id : ident) (now : datetime)
    (user_id : ident) (data : TodoCreate) (session : Session) :
  create_recurrence data = None →
  new_id ∉ Todo.id <$> todos session →
  NoDup (default [] (create_tag_ids data)) →
  let todo :=
    Todo.mk new_id (create_title data) (create_description data) false user_id
            now now (create_due_date data) (create_priority data) false None
            None None 0 in
  let out := create_todo rrulestr new_id ids reminder_id now user_id data session in
  out.1 = Ok todo
  ∧ todos out.2 = todos session ++ [todo]
  ∧ todo_tags out.2
    = todo_tags session
      ++ (TodoTag.mk new_id
            <$> filter (tag_owned session user_id) (default [] (create_tag_ids data)))
  ∧ occurrences out.2 = occurrences session
  ∧ reminders out.2
    = reminders session
      ++ match create_due_date data
               ≫= (λ d, default_reminder reminder_id now user_id new_id d session) with
         | Some r => [r]
         | None => []
         end
  ∧ get_todo_by_id out.2 user_id new_id = Some todo.
Proof.
  intros Hplain Hfresh _ todo out.
  set (s1 := set_todos (λ l, l ++ [todo]) session).
  set (s2 := set_todo_tags
               (λ l, l ++ (TodoTag.mk new_id
                             <$> filter (tag_owned session user_id)
                                        (default [] (create_tag_ids data))))
               s1).
  assert ((if truthy_list (create_tag_ids data)
           then _assign_tags user_id (Todo.id todo) (default [] (create_tag_ids data))
           else ret tt) s1 = (Ok tt, s2)) as Htags.
  { subst s2. destruct (create_tag_ids data) as [[|t ts]|]; simpl truthy_list; cbv iota.
    - simpl. by rewrite set_todo_tags_nil.
    - transitivity (_assign_tags user_id new_id (t :: ts) s1); [reflexivity|].
      rewrite _assign_tags_effect. reflexivity.
    - simpl. by rewrite set_todo_tags_nil. }
  assert (∀ f, session_get_todo (set_reminders f s2) new_id = Some todo) as Hget.
  { intros f. apply (session_get_todo_app_fresh session todo Hfresh). }
  assert (session_get_todo s2 new_id = Some todo) as Hget'.
  { apply (session_get_todo_app_fresh session todo Hfresh). }
  assert (set_reminders (λ l, l ++ []) s2 = s2) as Hnil.
  { unfold set_reminders. simpl. by rewrite app_nil_r. }
  assert (∀ f, get_todo_by_id (set_reminders f s2) user_id new_id = Some todo) as Hby.
  { intros f. unfold get_todo_by_id. simpl. rewrite filter_app.
    rewrite (filter_none _ (todos session)).
    - by rewrite filter_cons_True.
    - intros t Ht [Hid _]. apply Hfresh. rewrite <- Hid. apply list_elem_of_fmap. eauto. }
  assert (out
          = (Ok todo,
             set_reminders
               (λ l, l ++ match create_due_date data
                                  ≫= (λ d, default_reminder reminder_id now user_id
                                             new_id d session) with
                          | Some r => [r]
                          | None => []
                          end)
               s2)) as ->.
  { subst out. unfold create_todo.
    rewrite Hplain. unfold bind at 1. unfold ret at 1. cbv beta iota zeta.
    fold todo. unfold bind at 1. unfold modify at 1. cbv beta iota. fold s1.
    unfold bind at 1. rewrite Htags. cbv beta iota.
    destruct (create_due_date data) as [due_date|] eqn:Hdue.
    - simpl andb. cbv iota. unfold bind at 1. unfold bind at 1. unfold ret at 1.
      cbv beta iota. unfold bind at 1.
      rewrite _auto_apply_default_reminder_run. cbv beta iota.
      rewrite (default_reminder_same_preferences _ _ _ _ _ session s2) by done.
      simpl mbind. change (Todo.id todo) with new_id.
      destruct (default_reminder reminder_id now user_id new_id due_date session)
        as [r|] eqn:Hdefault.
      + unfold bind, ret, get_session. cbv beta iota.
        change (Todo.id todo) with new_id. by rewrite Hget.
      + unfold bind, ret, get_session. cbv beta iota.
        change (Todo.id todo) with new_id. by rewrite Hnil, Hget'.
    - simpl mbind. unfold bind, ret, get_session. cbv beta iota.
      change (Todo.id todo) with new_id. by rewrite Hnil, Hget'. }
  cbn [fst snd]. split; [done|]. split; [done|]. split; [done|]. split; [done|].
  split; [done|]. apply Hby.
Qed.


End CreateProperties.

Lemma create_todo_plain_sample :
  let todo :=
    Todo.mk "todo-9" "Pay the rent" None false "alice" 1772000000000000
            1772000000000000 (Some 20520%Z) (Some Priority.HIGH) false None None None 0 in
  let out :=
    create_todo sample_rrulestr "todo-9" sample_ids "rem-9" 1772000000000000 "alice"
                sample_create sample_prefs_session in
  out.1 = Ok todo
  ∧ todos out.2 = todos sample_prefs_session ++ [todo]
  ∧ todo_tags out.2
    = todo_tags sample_prefs_session
      ++ (TodoTag.mk "todo-9"
            <$> filter (tag_owned sample_prefs_session "alice")
                       (default [] (create_tag_ids sample_create)))
  ∧ occurrences out.2 = occurrences sample_prefs_session
  ∧ reminders out.2
    = reminders sample_prefs_session
      ++ match create_due_date sample_create
               ≫= (λ d, default_reminder "rem-9" 1772000000000000 "alice" "todo-9" d
                          sample_prefs_session) with
         | Some r => [r]
         | None => []
         end
  ∧ get_todo_by_id out.2 "alice" "todo-9" = Some todo.
Proof.
  apply (create_todo_plain sample_rrulestr "todo-9" sample_ids "rem-9"
           1772000000000000 "alice" sample_create sample_prefs_session).
  - reflexivity.
  - compute_done.
  - simpl. constructor.
Defined.

(** The reminder the sample creation adds: an hour before the end of the due
    day. *)
Example create_todo_plain_reminder :
  Reminder.fire_at
    <$> reminders
          (create_todo sample_rrulestr "todo-9" sample_ids "rem-9" 1772000000000000
                       "alice" sample_create sample_prefs_session).2
  = [(Datetime.combine_min 20520 + 86399 * 1000000 - 60 * 60 * 1000000)%Z].
Proof. vm_compute. reflexivity. Qed.


(** The sample weekly todo gets five occurrences, a week apart, from its due
    date to four weeks later, and counts them. *)
Example create_todo_recurring_dates :
  let out :=
    create_todo sample_rrulestr "todo-9" sample_ids "rem-9" 1772000000000000 "alice"
                sample_weekly_create sample_prefs_session in
  match out.1 with
  | Ok todo => Todo.occurrences_generated todo = 5%Z
  | Raise _ => False
  end
  ∧ TodoOccurrence.occurrence_date <$> occurrences out.2
    = [20520; 20527; 20534; 20541; 20548]%Z.
Proof. vm_compute. by split. Qed.


(** ** The occurrence generation job *)


Section JobProperties.

Variable rrulestr : string → option datetime → Result (list datetime).








End JobProperties.

(** The job on a store with one daily todo and no occurrence: thirty rows,
    from today on, and none on a second run. *)
Example generate_occurrences_job_sample :
  let out :=
    generate_occurrences_job sample_rrulestr sample_ids 1772400000000000 20514
                             sample_prefs_session in
  length (occurrences out.2) = 30
  ∧ (TodoOccurrence.occurrence_date <$> take 3 (occurrences out.2))
    = [20514; 20515; 20516]%Z
  ∧ todos out.2 = todos sample_prefs_session.
Proof. vm_compute. by repeat split. Qed.

(** ** Replacing the tags of a todo *)

Lemma foldl_delete_by_key {A K} (key : A → K) `{EqDecision K} (xs l : list A) :
  foldl (λ l x, filter (λ y, key y ≠ key x) l) l xs
  = filter (λ y, key y ∉ key <$> xs) l.
Proof.
  revert l. induction xs as [|x xs IH]; intros l; cbn [foldl].
  - symmetry. apply filter_all. intros y _. apply not_elem_of_nil.
  - rewrite IH, list_filter_filter. apply list_filter_iff. intros y.
    rewrite fmap_cons, not_elem_of_cons. tauto.
Qed.

(** X28. Replacing the tags of a todo with a list of distinct tag ids
    returns without raising; afterwards the todo is associated with exactly the
    listed tags the caller owns, in the order of the list, whatever it was
    associated with before, and the associations of every other todo are as
    they were. Listed tags that do not exist or belong to someone else are
    dropped silently. *)
Theorem _replace_tags_effect
    (user_id todo_id : ident) (tag_ids : list ident) (session : Session) :
  NoDup tag_ids →
  let out := _replace_tags user_id todo_id tag_ids session in
  let rows := TodoTag.mk todo_id <$> filter (tag_owned session user_id) tag_ids in
  out
  = (Ok tt,
     set_todo_tags
       (λ l, filter (λ row, TodoTag.todo_id row ≠ todo_id) l ++ rows) session)
  ∧ todo_tags_of out.2 todo_id = rows
  ∧ ∀ other, other ≠ todo_id → todo_tags_of out.2 other = todo_tags_of session other.
Proof.
  intros _ out rows.
  assert (out
          = (Ok tt,
             set_todo_tags
               (λ l, filter (λ row, TodoTag.todo_id row ≠ todo_id) l ++ rows) session))
    as ->.
  { subst out. unfold _replace_tags. unfold bind at 1. unfold get_session.
    cbv beta iota zeta. unfold bind at 1. unfold modify at 1. cbv beta iota.
    set (s1 := set_todo_tags _ session).
    assert (s1 = set_todo_tags (filter (λ row, TodoTag.todo_id row ≠ todo_id)) session)
      as ->.
    { subst s1. unfold set_todo_tags. f_equal.
      rewrite (foldl_delete_by_key todo_tag_key).
      apply filter_ext_elem. intros row Hrow. split.
      - intros Hkey Hid. apply Hkey. apply list_elem_of_fmap. exists row.
        split; [done|]. by apply list_elem_of_filter.
      - intros Hid Hkey. apply list_elem_of_fmap in Hkey as (row' & Hk & Hrow').
        apply list_elem_of_filter in Hrow' as [Hid' _].
        apply Hid. injection Hk as -> _. done. }
    set (s2 := set_todo_tags _ session).
    assert (_assign_tags user_id todo_id tag_ids s2
            = (Ok tt, set_todo_tags (λ l, l ++ rows) s2)) as Hassign.
    { rewrite _assign_tags_effect. reflexivity. }
    destruct tag_ids as [|tag_id rest].
    - unfold ret. f_equal. subst s2 rows. destruct session. unfold set_todo_tags.
      simpl. by rewrite app_nil_r.
    - rewrite Hassign. f_equal. }
  cbn [snd]. split; [done|]. unfold todo_tags_of. simpl. split.
  - rewrite filter_app. rewrite filter_none.
    + simpl. apply filter_all. intros row Hrow.
      by apply list_elem_of_fmap in Hrow as (? & -> & _).
    + intros row Hrow Hid. by apply list_elem_of_filter in Hrow as [Hne _].
  - intros other Hother. rewrite filter_app.
    rewrite (filter_none _ rows).
    + rewrite app_nil_r, list_filter_filter. apply list_filter_iff.
      intros row. split; [tauto|]. intros Hid. split; [done|congruence].
    + intros row Hrow Hid. apply list_elem_of_fmap in Hrow as (? & -> & _).
      by apply Hother.
Qed.

Lemma _replace_tags_effect_sample :
  let out := _replace_tags "alice" "todo-1" ["tag-2"; "tag-1"] sample_edit_session in
  let rows :=
    TodoTag.mk "todo-1"
      <$> filter (tag_owned sample_edit_session "alice") ["tag-2"; "tag-1"] in
  out
  = (Ok tt,
     set_todo_tags
       (λ l, filter (λ row, TodoTag.todo_id row ≠ "todo-1") l ++ rows)
       sample_edit_session)
  ∧ todo_tags_of out.2 "todo-1" = rows
  ∧ ∀ other, other ≠ "todo-1" →
             todo_tags_of out.2 other = todo_tags_of sample_edit_session other.
Proof.
  apply (_replace_tags_effect "alice" "todo-1" ["tag-2"; "tag-1"] sample_edit_session).
  compute_done.
Defined.

(** ** The digest and its preview *)




(** On the sample series today's pending occurrence is the one task due. *)
Example get_digest_preview_sample :
  get_digest_preview sample_series_session 20514 "alice" = mkDigestPreview 0 1 1
  ∧ digest_title 1 = "Daily Digest: 1 task due today".
Proof. by vm_compute. Qed.
